(** * fws: a shallow embedding of the uploader and watcher pipelines

    The development follows the Go packages of the repository:
    [utils] (command executor, logger, file helpers), [watcher]
    (the reconciliation loop) and [uploader] (the transfer pipeline and
    its remote copy transport).

    External collaborators (the shell, the file system, the clock and
    the SSH transport) are a type class [Host] over an abstract world
    [W]; every Go function becomes a state-passing computation over the
    world and a trace of the calls it made, each with what it returned.
    What the shell and the container runtime make of the text of the run
    command is modelled apart, in [Sh] and [Docker]. *)

From Stdlib Require Import ZArith List String Ascii Bool Lia DecimalString.
Import ListNotations.
Local Open Scope string_scope.
Local Open Scope Z_scope.

(* ================================================================= *)
(** ** Models of the Go standard library functions the code calls *)
(* ================================================================= *)

Module GoLib.

(** [time.Duration] is a count of nanoseconds. *)
Definition Second : Z := 1000000000.
Definition Minute : Z := 60 * Second.

(** [strings.HasSuffix]: [len(s) >= len(suffix) &&
    s[len(s)-len(suffix):] == suffix]. *)
Definition HasSuffix (s suffix : string) : bool :=
  (String.length suffix <=? String.length s)%nat &&
  String.eqb
    (substring (String.length s - String.length suffix)
               (String.length suffix) s)
    suffix.

Definition byte_is (a : ascii) (n : N) : bool := N.eqb (N_of_ascii a) n.

(** The one-byte white space of [unicode.IsSpace]:
    tab, line feed, vertical tab, form feed, carriage return, space. *)
Definition space1 (a : ascii) : bool :=
  let n := N_of_ascii a in
  ((9 <=? n) && (n <=? 13))%N || N.eqb n 32.

(** U+0085 and U+00A0 in UTF-8. *)
Definition space2 (a b : ascii) : bool :=
  byte_is a 194 && (byte_is b 133 || byte_is b 160).

(** U+1680, U+2000..U+200A, U+2028, U+2029, U+202F, U+205F and U+3000
    in UTF-8. *)
Definition space3 (a b c : ascii) : bool :=
  let n := N_of_ascii c in
  (byte_is a 225 && byte_is b 154 && byte_is c 128)
  || (byte_is a 226 && byte_is b 128 &&
      (((128 <=? n) && (n <=? 138))%N
       || byte_is c 168 || byte_is c 169 || byte_is c 175))
  || (byte_is a 226 && byte_is b 129 && byte_is c 159)
  || (byte_is a 227 && byte_is b 128 && byte_is c 128).

(** Drop the leading runes accepted by the three recognisers.  With
    [space1], [space2], [space3] this is [strings.TrimLeftFunc(s,
    unicode.IsSpace)]: a byte that starts no white-space rune (any other
    rune, or an invalid sequence, which decodes to U+FFFD) stops it. *)
Fixpoint dropRunes (p1 : ascii -> bool) (p2 : ascii -> ascii -> bool)
         (p3 : ascii -> ascii -> ascii -> bool) (s : string) : string :=
  match s with
  | EmptyString => EmptyString
  | String a r =>
      if p1 a then dropRunes p1 p2 p3 r
      else
        match r with
        | EmptyString => s
        | String b r2 =>
            if p2 a b then dropRunes p1 p2 p3 r2
            else
              match r2 with
              | EmptyString => s
              | String c r3 =>
                  if p3 a b c then dropRunes p1 p2 p3 r3 else s
              end
        end
  end.

Fixpoint rev_append (s acc : string) : string :=
  match s with
  | EmptyString => acc
  | String a r => rev_append r (String a acc)
  end.

Definition rev (s : string) : string := rev_append s EmptyString.

Definition TrimLeftSpace (s : string) : string :=
  dropRunes space1 space2 space3 s.

(** Trailing white space is recognised on the reversed string, with the
    bytes of each rune in reverse order. *)
Definition TrimRightSpace (s : string) : string :=
  rev (dropRunes space1 (fun b a => space2 a b)
                 (fun c b a => space3 a b c) (rev s)).

(** [strings.TrimSpace]. *)
Definition TrimSpace (s : string) : string :=
  TrimRightSpace (TrimLeftSpace s).

(** [filepath.Base] on a slash-separated path: the last element, trailing
    slashes removed; ["."] for the empty path and ["/"] for a path of
    slashes only. *)
Definition slash : ascii := "/"%char.

Fixpoint dropSlashes (s : string) : string :=
  match s with
  | String a r => if Ascii.eqb a slash then dropSlashes r else s
  | EmptyString => EmptyString
  end.

(** The part of [s] after its last slash, [acc] being the element read
    so far. *)
Fixpoint lastElem (s acc : string) : string :=
  match s with
  | EmptyString => rev acc
  | String a r =>
      if Ascii.eqb a slash then lastElem r EmptyString
      else lastElem r (String a acc)
  end.

Definition Base (path : string) : string :=
  if String.eqb path "" then "."
  else
    let p := rev (dropSlashes (rev path)) in
    if String.eqb p "" then "/" else lastElem p EmptyString.

(** The verb [%d]. *)
Definition fmt_d (z : Z) : string := NilZero.string_of_int (Z.to_int z).

Definition octDigit (b0 b1 b2 : bool) : ascii :=
  ascii_of_N (48 + (if b0 then 1 else 0) + (if b1 then 2 else 0)
                 + (if b2 then 4 else 0))%N.

(** The octal digits of a positive number, least significant first:
    three bits per digit. *)
Fixpoint octRev (p : positive) : string :=
  match p with
  | xH => String (octDigit true false false) EmptyString
  | xO xH => String (octDigit false true false) EmptyString
  | xI xH => String (octDigit true true false) EmptyString
  | xO (xO xH) => String (octDigit false false true) EmptyString
  | xI (xO xH) => String (octDigit true false true) EmptyString
  | xO (xI xH) => String (octDigit false true true) EmptyString
  | xI (xI xH) => String (octDigit true true true) EmptyString
  | xO (xO (xO q)) => String (octDigit false false false) (octRev q)
  | xI (xO (xO q)) => String (octDigit true false false) (octRev q)
  | xO (xI (xO q)) => String (octDigit false true false) (octRev q)
  | xI (xI (xO q)) => String (octDigit true true false) (octRev q)
  | xO (xO (xI q)) => String (octDigit false false true) (octRev q)
  | xI (xO (xI q)) => String (octDigit true false true) (octRev q)
  | xO (xI (xI q)) => String (octDigit false true true) (octRev q)
  | xI (xI (xI q)) => String (octDigit true true true) (octRev q)
  end.

(** The verb [%#o] on an unsigned value: octal with a leading zero, and
    a single ["0"] for zero. *)
Definition fmt_sharp_o (z : Z) : string :=
  match z with
  | Zpos p => String "0"%char (rev (octRev p))
  | _ => "0"
  end.

(** [fs.ModePerm] and [FileMode.Perm]. *)
Definition ModePerm : Z := 511.
Definition Perm (mode : Z) : Z := Z.land mode ModePerm.

(** The operation bits of [fsnotify.Op] ([1 << iota]). *)
Definition Create : Z := 1.
Definition Write : Z := 2.
Definition Remove : Z := 4.
Definition Rename : Z := 8.
Definition Chmod : Z := 16.

End GoLib.

(* ================================================================= *)
(** ** Models of the programs a command text goes through *)
(* ================================================================= *)

(** [ExecuteCommand] hands the text of a command to [sh -c].  [Sh] is
    what the shell makes of a text of blanks and plain characters: one
    simple command, whose words are the text cut at its blanks.  Of a
    text with any other character (a quote, a dollar sign, a semicolon,
    a newline, ...) the model says nothing. *)
Module Sh.

(** Space and tab. *)
Definition blank (a : ascii) : bool :=
  Ascii.eqb a " "%char || N.eqb (N_of_ascii a) 9.

(** The characters with no meaning of their own for the shell, wherever
    they stand in a word: letters, digits and [_ - . / : = , @ + %]. *)
Definition plain (a : ascii) : bool :=
  let n := N_of_ascii a in
  ((48 <=? n) && (n <=? 57))%N
  || ((65 <=? n) && (n <=? 90))%N
  || ((97 <=? n) && (n <=? 122))%N
  || existsb (Ascii.eqb a)
       ["_"; "-"; "."; "/"; ":"; "="; ","; "@"; "+"; "%"]%char.

Fixpoint all (p : ascii -> bool) (s : string) : bool :=
  match s with
  | EmptyString => true
  | String a r => p a && all p r
  end.

(** The text cut at every blank. *)
Fixpoint pieces (s : string) : list string :=
  match s with
  | EmptyString => [EmptyString]
  | String a r =>
      if blank a then EmptyString :: pieces r
      else match pieces r with
           | [] => [String a EmptyString]
           | x :: xs => String a x :: xs
           end
  end.

(** The words of the text: a run of blanks separates two words. *)
Definition fields (s : string) : list string :=
  filter (fun w => negb (String.eqb w "")) (pieces s).

(** The reserved words of the shell, with those that only some shells
    reserve. *)
Definition reserved (w : string) : bool :=
  existsb (String.eqb w)
    ["!"; "{"; "}"; "case"; "do"; "done"; "elif"; "else"; "esac"; "fi";
     "for"; "if"; "in"; "then"; "until"; "while";
     "function"; "select"; "time"; "coproc"].

(** The argument vector of the command that [sh -c text] runs.  A first
    word that is a reserved word, or holds an equals sign (a variable
    assignment), is outside the model too. *)
Definition argv (text : string) : option (list string) :=
  if all (fun a => plain a || blank a) text then
    match fields text with
    | [] => None
    | first :: _ =>
        if reserved first
           || negb (all (fun a => negb (Ascii.eqb a "="%char)) first)
        then None
        else Some (fields text)
    end
  else None.

End Sh.

(** [Docker] is how [docker run] reads its argument vector, for the
    options the run command of the watcher writes: [-d], [--name],
    [--restart], [-p], [-e] and [-v], each of the last five followed by
    its value.  The first word that is not an option is the image, and
    what follows it is the command of the container.  Any other word
    that begins with a dash, and a value that begins with a dash, are
    outside the model. *)
Module Docker.

(** What [docker run] is asked for. *)
Record Request : Type := mkRequest {
  detach : bool;
  name : option string;
  restart : option string;
  publish : list string;
  env : list string;
  volume : list string;
  image : string;
  command : list string
}.

Definition nothing : Request :=
  mkRequest false None None [] [] [] "" [].

Definition dashed (w : string) : bool :=
  match w with
  | String a _ => Ascii.eqb a "-"%char
  | EmptyString => false
  end.

(** An option with its value; [None] for a word that is no such
    option. *)
Definition set (flag value : string) (r : Request) : option Request :=
  if String.eqb flag "--name" then
    Some (mkRequest (detach r) (Some value) (restart r) (publish r) (env r)
                    (volume r) (image r) (command r))
  else if String.eqb flag "--restart" then
    Some (mkRequest (detach r) (name r) (Some value) (publish r) (env r)
                    (volume r) (image r) (command r))
  else if String.eqb flag "-p" then
    Some (mkRequest (detach r) (name r) (restart r) (publish r ++ [value])
                    (env r) (volume r) (image r) (command r))
  else if String.eqb flag "-e" then
    Some (mkRequest (detach r) (name r) (restart r) (publish r)
                    (env r ++ [value]) (volume r) (image r) (command r))
  else if String.eqb flag "-v" then
    Some (mkRequest (detach r) (name r) (restart r) (publish r) (env r)
                    (volume r ++ [value]) (image r) (command r))
  else None.

Fixpoint options (args : list string) (r : Request) : option Request :=
  match args with
  | [] => None
  | a :: rest =>
      if String.eqb a "-d" then
        options rest (mkRequest true (name r) (restart r) (publish r)
                                (env r) (volume r) (image r) (command r))
      else if dashed a then
        match rest with
        | [] => None
        | value :: rest' =>
            if dashed value then None
            else match set a value r with
                 | Some r' => options rest' r'
                 | None => None
                 end
        end
      else
        Some (mkRequest (detach r) (name r) (restart r) (publish r) (env r)
                        (volume r) a rest)
  end.

Definition request (argv : list string) : option Request :=
  match argv with
  | program :: sub :: args =>
      if String.eqb program "docker" && String.eqb sub "run"
      then options args nothing
      else None
  | _ => None
  end.

End Docker.

(* ================================================================= *)
(** ** Values shared by the packages *)
(* ================================================================= *)

(** A Go [error] built by [fmt.Errorf] keeps its format string and its
    arguments; [%w] and [%v] of an error keep the error itself.  An error
    that comes from the operating system or a library is [OsError]. *)
Inductive error : Type :=
| Errorf (format : string) (args : list Arg)
| OsError (msg : string)
with Arg : Type :=
| AStr (s : string)
| AInt (z : Z)
| ADur (nanoseconds : Z)          (* a time.Duration under %v *)
| AOp (op : Z)                    (* an fsnotify.Op under %s *)
| AHuman (bytes : Z)              (* utils.FormatBytes(bytes) under %s *)
| AErr (e : error).               (* an error, or err.Error(), under %v %s %w *)

(** What [exec.Cmd.CombinedOutput] and the context leave behind: the
    bytes captured, the error of the run ([nil] for exit status 0), and
    whether [ctx.Err()] is [context.DeadlineExceeded] afterwards. *)
Record RawRun : Type := mkRawRun {
  run_output : string;
  run_err : option string;
  run_deadline : bool
}.

(** [os.FileInfo]: the fields the code reads. *)
Record FileInfo : Type := mkFileInfo {
  fi_mode : Z;
  fi_size : Z
}.

(** Handles of the SSH transport and of the file system. *)
Inductive Signer : Type := mkSigner (id : nat).
Inductive HostKeyDB : Type := mkHostKeyDB (id : nat).
Inductive Client : Type := mkClient (id : nat).
Inductive Session : Type := mkSession (id : nat).
Inductive Stdin : Type := mkStdin (id : nat).
Inductive File : Type := mkFile (id : nat).

(** [ssh.HostKeyCallback]: either [ssh.InsecureIgnoreHostKey()], which
    accepts every host key, or the callback of a loaded known-hosts
    file. *)
Inductive HostKeyCallback : Type :=
| InsecureIgnoreHostKey
| KnownHosts (db : HostKeyDB).

(** [ssh.ClientConfig]. *)
Record ClientConfig : Type := mkClientConfig {
  cc_User : string;
  cc_Auth : list Signer;
  cc_HostKeyCallback : HostKeyCallback;
  cc_Timeout : Z
}.

(** [utils.Logger]. *)
Record Logger : Type := mkLogger { level : string }.

Inductive Level : Type := LDebug | LInfo | LWarn | LError.

(** The calls a run makes, in order, each with what it returned.  A
    logger call is recorded at the method that was called; [log_Printf]
    below gives what the method prints. *)
Inductive Event : Type :=
| EvLog (l : Logger) (lvl : Level) (msg : string) (args : list Arg)
| EvExec (command : string) (timeout : Z) (r : RawRun)
| EvStat (path : string) (found : bool)
| EvRemove (path : string) (err : option error)
| EvMkdirAll (path : string) (perm : Z) (err : option error)
| EvSleep (d : Z)
| EvNow (layout : string) (formatted : string)
| EvGetenv (key : string) (value : string)
| EvReadFile (path : string) (r : list Byte.byte + error)
| EvKnownHostsNew (path : string) (r : HostKeyDB + error)
| EvDial (network addr : string) (config : ClientConfig) (r : Client + error)
| EvClientClose (c : Client) (err : option error)
| EvOpen (path : string) (r : File + error)
| EvFileStat (f : File) (r : FileInfo + error)
| EvFileRead (f : File) (r : list Byte.byte * option error)
| EvFileClose (f : File) (err : option error)
| EvNewSession (c : Client) (r : Session + error)
| EvSessionClose (s : Session) (err : option error)
| EvStdinPipe (s : Session) (r : Stdin + error)
| EvStart (s : Session) (cmd : string) (err : option error)
| EvStdinWrite (w : Stdin) (data : list Byte.byte) (err : option error)
| EvStdinClose (w : Stdin) (err : option error)
| EvWait (s : Session) (err : option error).

(** The external collaborators.  Every call may change the world. *)
Class Host (W : Type) : Type := {
  (* exec.CommandContext(ctx, "sh", "-c", command).CombinedOutput() *)
  sh_run : string -> Z -> W -> RawRun * W;
  os_Stat : string -> W -> (FileInfo + error) * W;
  os_Remove : string -> W -> option error * W;
  os_MkdirAll : string -> Z -> W -> option error * W;
  time_Sleep : Z -> W -> unit * W;
  (* time.Now().Format(layout) *)
  time_Now_Format : string -> W -> string * W;
  os_Getenv : string -> W -> string * W;
  os_ReadFile : string -> W -> (list Byte.byte + error) * W;
  (* filepath.Join *)
  filepath_Join : list string -> string;
  ssh_ParsePrivateKey : list Byte.byte -> Signer + error;
  knownhosts_New : string -> W -> (HostKeyDB + error) * W;
  ssh_Dial : string -> string -> ClientConfig -> W -> (Client + error) * W;
  client_Close : Client -> W -> option error * W;
  os_Open : string -> W -> (File + error) * W;
  file_Stat : File -> W -> (FileInfo + error) * W;
  (* the bytes read from the file up to end of file or a read error *)
  file_Read : File -> W -> (list Byte.byte * option error) * W;
  file_Close : File -> W -> option error * W;
  client_NewSession : Client -> W -> (Session + error) * W;
  session_Close : Session -> W -> option error * W;
  session_StdinPipe : Session -> W -> (Stdin + error) * W;
  session_Start : Session -> string -> W -> option error * W;
  stdin_Write : Stdin -> list Byte.byte -> W -> option error * W;
  stdin_Close : Stdin -> W -> option error * W;
  (* nil exactly when the remote command exits with status 0 *)
  session_Wait : Session -> W -> option error * W
}.

(** The state of a run: the world and the calls made so far. *)
Record St (W : Type) : Type := mkSt {
  world : W;
  trace : list Event
}.
Arguments mkSt {W} _ _.
Arguments world {W} _.
Arguments trace {W} _.

(** State-passing computations. *)
Definition M (W A : Type) : Type := St W -> A * St W.

Definition ret {W A : Type} (a : A) : M W A := fun s => (a, s).

Definition bind {W A B : Type} (m : M W A) (k : A -> M W B) : M W B :=
  fun s => let (a, s') := m s in k a s'.

Declare Scope go_scope.
Delimit Scope go_scope with go.
Notation "x <- c1 ;; c2" := (bind c1 (fun x => c2))
  (at level 61, c1 at next level, right associativity) : go_scope.
Notation "c1 ;; c2" := (bind c1 (fun _ => c2))
  (at level 61, right associativity) : go_scope.
Local Open Scope go_scope.

(** A call to a collaborator: run it on the world and record the call. *)
Definition call {W A : Type} (ev : A -> Event) (op : W -> A * W) : M W A :=
  fun s =>
    let (a, w') := op (world s) in
    (a, mkSt w' (trace s ++ [ev a])).

(** A call that does not touch the world. *)
Definition emit {W : Type} (ev : Event) : M W unit :=
  fun s => (tt, mkSt (world s) (trace s ++ [ev])).

(** [log.Printf] as the method of the logger performs it:
    the prefixed message, or nothing when the level filters it out. *)
Definition log_Printf (ev : Event) : option (string * list Arg) :=
  match ev with
  | EvLog l LDebug msg args =>
      if String.eqb (level l) "debug"
      then Some ("[DEBUG] " ++ msg, args) else None
  | EvLog l LInfo msg args =>
      if String.eqb (level l) "debug" || String.eqb (level l) "info"
      then Some ("[INFO] " ++ msg, args) else None
  | EvLog l LWarn msg args =>
      if String.eqb (level l) "debug" || String.eqb (level l) "info"
         || String.eqb (level l) "warn"
      then Some ("[WARN] " ++ msg, args) else None
  | EvLog l LError msg args => Some ("[ERROR] " ++ msg, args)
  | _ => None
  end.

(** The lines a trace prints. *)
Fixpoint printed (t : list Event) : list (string * list Arg) :=
  match t with
  | [] => []
  | ev :: t' =>
      match log_Printf ev with
      | Some line => line :: printed t'
      | None => printed t'
      end
  end.

(** The processes a trace spawned, with their outcomes. *)
Fixpoint execs (t : list Event) : list (string * Z * RawRun) :=
  match t with
  | [] => []
  | EvExec c d r :: t' => (c, d, r) :: execs t'
  | _ :: t' => execs t'
  end.

Definition spawned (t : list Event) : list string :=
  map (fun x => fst (fst x)) (execs t).

(** The results of the [os.Stat] calls of a trace. *)
Fixpoint stats (t : list Event) : list (string * bool) :=
  match t with
  | [] => []
  | EvStat p ok :: t' => (p, ok) :: stats t'
  | _ :: t' => stats t'
  end.

(** The calls of the remote copy transport. *)
Definition is_transport (ev : Event) : bool :=
  match ev with
  | EvReadFile _ _ | EvKnownHostsNew _ _ | EvDial _ _ _ _
  | EvClientClose _ _ | EvOpen _ _ | EvFileStat _ _ | EvFileRead _ _
  | EvFileClose _ _ | EvNewSession _ _ | EvSessionClose _ _
  | EvStdinPipe _ _ | EvStart _ _ _ | EvStdinWrite _ _ _
  | EvStdinClose _ _ | EvWait _ _ => true
  | _ => false
  end.

(** What a run added to the trace between two of its states. *)
Definition since {W : Type} (s s' : St W) : list Event :=
  skipn (List.length (trace s)) (trace s').

(** The files a trace asked the operating system to remove. *)
Fixpoint removals (t : list Event) : list string :=
  match t with
  | [] => []
  | EvRemove p _ :: t' => p :: removals t'
  | _ :: t' => removals t'
  end.

(* ================================================================= *)
(** ** Package utils *)
(* ================================================================= *)

Module Utils.
Section WithHost.
Context {W : Type} `{Host W}.

Definition Debug (l : Logger) (msg : string) (args : list Arg) : M W unit :=
  emit (EvLog l LDebug msg args).
Definition Info (l : Logger) (msg : string) (args : list Arg) : M W unit :=
  emit (EvLog l LInfo msg args).
Definition Warn (l : Logger) (msg : string) (args : list Arg) : M W unit :=
  emit (EvLog l LWarn msg args).
Definition Error (l : Logger) (msg : string) (args : list Arg) : M W unit :=
  emit (EvLog l LError msg args).

(** [err == nil] for the error of [os.Stat]. *)
Definition found (r : FileInfo + error) : bool :=
  match r with inl _ => true | inr _ => false end.

(** The three returns of [ExecuteCommand], on what the run left behind. *)
Definition classify (command : string) (timeout : Z) (r : RawRun)
  : string * option error :=
  if run_deadline r then
    ("", Some (Errorf "command timed out after %v: %s"
                      [ADur timeout; AStr command]))
  else
    match run_err r with
    | Some e =>
        (run_output r,
         Some (Errorf "command failed: %s, output: %s"
                      [AStr e; AStr (run_output r)]))
    | None => (run_output r, None)
    end.

Definition ExecuteCommand (command : string) (timeout : Z)
  : M W (string * option error) :=
  r <- call (EvExec command timeout) (sh_run command timeout) ;;
  ret (classify command timeout r).

Fixpoint ExecuteCommands (commands : list string) (timeout : Z)
         (logger : Logger) : M W (option error) :=
  match commands with
  | [] => ret None
  | cmd :: rest =>
      if String.eqb (GoLib.TrimSpace cmd) "" then
        ExecuteCommands rest timeout logger
      else
        Info logger "Executing command: %s" [AStr cmd] ;;
        res <- ExecuteCommand cmd timeout ;;
        match snd res with
        | Some err =>
            Error logger "Command failed: %s" [AErr err] ;;
            ret (Some err)
        | None =>
            (if negb (String.eqb (GoLib.TrimSpace (fst res)) "") then
               Debug logger "Command output: %s"
                     [AStr (GoLib.TrimSpace (fst res))]
             else ret tt) ;;
            ExecuteCommands rest timeout logger
        end
  end.

Definition FileExists (path : string) : M W bool :=
  r <- call (fun r => EvStat path (found r)) (os_Stat path) ;;
  ret (found r).

Definition EnsureDir (path : string) : M W (option error) :=
  call (EvMkdirAll path 493) (os_MkdirAll path 493).

Definition GetFileSize (path : string) : M W (Z * option error) :=
  r <- call (fun r => EvStat path (found r)) (os_Stat path) ;;
  ret (match r with
       | inl info => (fi_size info, None)
       | inr err => (0, Some err)
       end).

(** [int64] arithmetic wraps around. *)
Definition wrap64 (z : Z) : Z := (z + 2 ^ 63) mod 2 ^ 64 - 2 ^ 63.

(** The loop of [FormatBytes]:
    [for n := bytes / unit; n >= unit; n /= unit { div *= unit; exp++ }].
    [None] when the fuel is gone before the loop ends. *)
Fixpoint scaleLoop (fuel : nat) (n div : Z) (exp : nat) : option (Z * nat) :=
  match fuel with
  | O => None
  | S fuel' =>
      if n >=? 1024 then
        scaleLoop fuel' (Z.quot n 1024) (wrap64 (div * 1024)) (S exp)
      else Some (div, exp)
  end.

(** What [FormatBytes] hands to [fmt.Sprintf]: the bytes for ["%d B"],
    or the two operands of the division and the unit letter for
    ["%.1f %cB"]. *)
Inductive Formatted : Type :=
| Plain (bytes : Z)
| Scaled (bytes div : Z) (unit : ascii).

(** [FormatBytes] up to the call of [fmt.Sprintf]; [None] when the index
    of the unit letter is out of range, or the loop has not ended after
    64 rounds. *)
Definition FormatBytes (bytes : Z) : option Formatted :=
  if bytes <? 1024 then Some (Plain bytes)
  else
    match scaleLoop 64 (Z.quot bytes 1024) 1024 0 with
    | None => None
    | Some (div, exp) =>
        match String.get exp "KMGTPE" with
        | Some c => Some (Scaled bytes div c)
        | None => None
        end
    end.

End WithHost.
End Utils.

(* ================================================================= *)
(** ** Package config *)
(* ================================================================= *)

Record UploaderConfig : Type := mkUploaderConfig {
  DockerBuildPath : string;
  ImageName : string;
  ImageTag : string;
  TarballPath : string;
  RemoteHost : string;
  RemotePort : Z;
  RemoteUser : string;
  RemoteKeyPath : string;
  RemoteUploadPath : string;
  BuildCommand : string;
  PreBuildCommands : list string;
  PostBuildCommands : list string
}.

Record WatcherConfig : Type := mkWatcherConfig {
  WatchDirectory : string;
  ContainerName : string;
  ContainerPort : list string;
  ContainerEnv : list string;
  ContainerVolumes : list string;
  PreLoadCommands : list string;
  PostLoadCommands : list string;
  RestartPolicy : string
}.

Module Config.

Record Config : Type := mkConfig {
  Mode : string;
  LogLevel : string;
  Uploader : UploaderConfig;
  Watcher : WatcherConfig
}.

(** The configuration [LoadConfig] starts from. *)
Definition defaults : Config :=
  mkConfig "watcher" "info"
    (mkUploaderConfig "" "" "latest" "" "" 22 "" "" "" "" [] [])
    (mkWatcherConfig "" "" [] [] [] [] [] "unless-stopped").

(** [LoadConfig]; [decoded] is what opening the file and decoding it
    onto the defaults gives. *)
Definition LoadConfig (configPath : string) (decoded : Config + error)
  : Config + error :=
  if String.eqb configPath "" then inl defaults else decoded.

Definition Validate (c : Config) : option error :=
  if negb (String.eqb (Mode c) "uploader")
     && negb (String.eqb (Mode c) "watcher")
  then Some (Errorf "invalid mode: %s (must be 'uploader' or 'watcher')"
                    [AStr (Mode c)])
  else
    match
      (if String.eqb (Mode c) "uploader" then
         if String.eqb (DockerBuildPath (Uploader c)) "" then
           Some (Errorf "docker_build_path is required for uploader mode" [])
         else if String.eqb (ImageName (Uploader c)) "" then
           Some (Errorf "image_name is required for uploader mode" [])
         else if String.eqb (RemoteHost (Uploader c)) "" then
           Some (Errorf "remote_host is required for uploader mode" [])
         else if String.eqb (RemoteUser (Uploader c)) "" then
           Some (Errorf "remote_user is required for uploader mode" [])
         else if String.eqb (RemoteUploadPath (Uploader c)) "" then
           Some (Errorf "remote_upload_path is required for uploader mode" [])
         else None
       else None)
    with
    | Some e => Some e
    | None =>
        if String.eqb (Mode c) "watcher" then
          if String.eqb (WatchDirectory (Watcher c)) "" then
            Some (Errorf "watch_directory is required for watcher mode" [])
          else if String.eqb (ContainerName (Watcher c)) "" then
            Some (Errorf "container_name is required for watcher mode" [])
          else None
        else None
    end.

End Config.

(* ================================================================= *)
(** ** Package watcher: the reconciliation loop *)
(* ================================================================= *)

Module Watcher.

(** The fields of [Watcher] the event pipeline reads. *)
Record Watcher : Type := mkWatcher {
  config : WatcherConfig;
  logger : Logger
}.

(** [fsnotify.Event]. *)
Record FsEvent : Type := mkFsEvent {
  Name : string;
  Op : Z
}.

(** One [cmd.WriteString(fmt.Sprintf(flag + " %s", x))] per element. *)
Fixpoint writeEach (flag : string) (xs : list string) : string :=
  match xs with
  | [] => ""
  | x :: rest => flag ++ x ++ writeEach flag rest
  end.

Definition extractImageNameFromTarball (w : Watcher) : string :=
  ContainerName (config w).

Definition buildDockerRunCommand (w : Watcher) : string :=
  "docker run -d"
  ++ (" --name " ++ ContainerName (config w))
  ++ (if negb (String.eqb (RestartPolicy (config w)) "")
      then " --restart " ++ RestartPolicy (config w) else "")
  ++ writeEach " -p " (ContainerPort (config w))
  ++ writeEach " -e " (ContainerEnv (config w))
  ++ writeEach " -v " (ContainerVolumes (config w))
  ++ (" " ++ extractImageNameFromTarball w).

Section WithHost.
Context {W : Type} `{Host W}.

Definition executePreLoadCommands (w : Watcher) : M W (option error) :=
  match PreLoadCommands (config w) with
  | [] => ret None
  | _ =>
      Utils.Info (logger w) "Executing pre-load commands..." [] ;;
      Utils.ExecuteCommands (PreLoadCommands (config w))
                            (5 * GoLib.Minute) (logger w)
  end.

Definition loadDockerImage (w : Watcher) (tarballPath : string)
  : M W (option error) :=
  Utils.Info (logger w) "Loading Docker image from tarball: %s"
             [AStr tarballPath] ;;
  res <- Utils.ExecuteCommand ("docker load -i " ++ tarballPath)
                              (10 * GoLib.Minute) ;;
  match snd res with
  | Some err => ret (Some err)
  | None =>
      Utils.Debug (logger w) "Docker load output: %s"
                  [AStr (GoLib.TrimSpace (fst res))] ;;
      ret None
  end.

Definition stopAndRemoveContainer (w : Watcher) : M W (option error) :=
  Utils.Info (logger w) "Stopping and removing existing container: %s"
             [AStr (ContainerName (config w))] ;;
  res <- Utils.ExecuteCommand ("docker stop " ++ ContainerName (config w))
                              (30 * GoLib.Second) ;;
  match snd res with
  | Some err =>
      Utils.Debug (logger w) "Failed to stop container (may not exist): %v"
                  [AErr err]
  | None =>
      Utils.Debug (logger w) "Docker stop output: %s"
                  [AStr (GoLib.TrimSpace (fst res))]
  end ;;
  res <- Utils.ExecuteCommand ("docker rm " ++ ContainerName (config w))
                              (30 * GoLib.Second) ;;
  match snd res with
  | Some err =>
      Utils.Debug (logger w) "Failed to remove container (may not exist): %v"
                  [AErr err]
  | None =>
      Utils.Debug (logger w) "Docker remove output: %s"
                  [AStr (GoLib.TrimSpace (fst res))]
  end ;;
  ret None.

Definition startContainer (w : Watcher) : M W (option error) :=
  Utils.Info (logger w) "Starting new container: %s"
             [AStr (ContainerName (config w))] ;;
  res <- Utils.ExecuteCommand (buildDockerRunCommand w)
                              (2 * GoLib.Minute) ;;
  match snd res with
  | Some err => ret (Some err)
  | None =>
      Utils.Debug (logger w) "Docker run output: %s"
                  [AStr (GoLib.TrimSpace (fst res))] ;;
      Utils.Info (logger w) "Container started successfully: %s"
                 [AStr (ContainerName (config w))] ;;
      ret None
  end.

Definition executePostLoadCommands (w : Watcher) : M W (option error) :=
  match PostLoadCommands (config w) with
  | [] => ret None
  | _ =>
      Utils.Info (logger w) "Executing post-load commands..." [] ;;
      Utils.ExecuteCommands (PostLoadCommands (config w))
                            (5 * GoLib.Minute) (logger w)
  end.

Definition cleanupTarball (w : Watcher) (tarballPath : string)
  : M W (option error) :=
  Utils.Info (logger w) "Cleaning up tarball: %s" [AStr tarballPath] ;;
  call (EvRemove tarballPath) (os_Remove tarballPath).

(** The steps of [processTarball] from the post-load hooks on. *)
Definition finishCycle (w : Watcher) (tarballPath : string)
  : M W (option error) :=
  err <- executePostLoadCommands w ;;
  match err with
  | Some e => Utils.Warn (logger w) "Post-load commands failed: %v" [AErr e]
  | None => ret tt
  end ;;
  err <- cleanupTarball w tarballPath ;;
  match err with
  | Some e => Utils.Warn (logger w) "Failed to cleanup tarball: %v" [AErr e]
  | None => ret tt
  end ;;
  Utils.Info (logger w) "Tarball processing completed successfully" [] ;;
  ret None.

(** The steps of [processTarball] from the pre-load hooks on. *)
Definition deployCycle (w : Watcher) (tarballPath : string)
  : M W (option error) :=
  err <- executePreLoadCommands w ;;
  match err with
  | Some e => ret (Some (Errorf "pre-load commands failed: %w" [AErr e]))
  | None =>
  err <- loadDockerImage w tarballPath ;;
  match err with
  | Some e => ret (Some (Errorf "failed to load Docker image: %w" [AErr e]))
  | None =>
  err <- stopAndRemoveContainer w ;;
  match err with
  | Some e =>
      Utils.Warn (logger w) "Failed to stop/remove existing container: %v"
                 [AErr e]
  | None => ret tt
  end ;;
  err <- startContainer w ;;
  match err with
  | Some e => ret (Some (Errorf "failed to start container: %w" [AErr e]))
  | None => finishCycle w tarballPath
  end end end.

Definition processTarball (w : Watcher) (tarballPath : string)
  : M W (option error) :=
  Utils.Info (logger w) "Processing tarball: %s" [AStr tarballPath] ;;
  ex <- Utils.FileExists tarballPath ;;
  if negb ex then
    ret (Some (Errorf "tarball does not exist: %s" [AStr tarballPath]))
  else
    sz <- Utils.GetFileSize tarballPath ;;
    match snd sz with
    | Some e =>
        Utils.Warn (logger w) "Failed to get tarball size: %v" [AErr e]
    | None =>
        Utils.Info (logger w) "Processing tarball: %s (%s)"
                   [AStr (GoLib.Base tarballPath); AHuman (fst sz)]
    end ;;
    deployCycle w tarballPath.

Definition handleFileEvent (w : Watcher) (event : FsEvent) : M W unit :=
  if negb (GoLib.HasSuffix (Name event) ".tar") then ret tt
  else
    Utils.Debug (logger w) "File event: %s %s"
                [AOp (Op event); AStr (Name event)] ;;
    if (Z.land (Op event) GoLib.Create =? GoLib.Create)
       || (Z.land (Op event) GoLib.Write =? GoLib.Write)
    then
      Utils.Info (logger w) "New tarball detected: %s" [AStr (Name event)] ;;
      call (fun _ => EvSleep (2 * GoLib.Second))
           (time_Sleep (2 * GoLib.Second)) ;;
      err <- processTarball w (Name event) ;;
      match err with
      | Some e =>
          Utils.Error (logger w) "Failed to process tarball %s: %v"
                      [AStr (Name event); AErr e]
      | None => ret tt
      end
    else ret tt.

(** What one [select] of the loop of [Run] receives; [None] is a closed
    channel. *)
Inductive Selected : Type :=
| CtxDone
| FromEvents (event : option FsEvent)
| FromErrors (err : option error).

(** The file-system notifier, by what it answers: the errors of
    [fsnotify.NewWatcher] and of [Add], and what the successive selects
    of the loop receive.  Its calls leave no entry in the trace. *)
Record Notifier : Type := mkNotifier {
  created : option error;
  added : option error;
  selected : list Selected
}.

(** The loop of [Run].  The result is [None] while the loop is still
    waiting in its [select], and the return value of [Run] once it has
    returned. *)
Fixpoint eventLoop (w : Watcher) (sel : list Selected)
  : M W (option (option error)) :=
  match sel with
  | [] => ret None
  | CtxDone :: _ =>
      Utils.Info (logger w) "File watcher stopped" [] ;;
      ret (Some None)
  | FromEvents None :: _ =>
      ret (Some (Some (Errorf "file watcher events channel closed" [])))
  | FromEvents (Some event) :: rest =>
      handleFileEvent w event ;;
      eventLoop w rest
  | FromErrors None :: _ =>
      ret (Some (Some (Errorf "file watcher errors channel closed" [])))
  | FromErrors (Some err) :: rest =>
      Utils.Error (logger w) "File watcher error: %v" [AErr err] ;;
      eventLoop w rest
  end.

Definition Run (w : Watcher) (n : Notifier) : M W (option (option error)) :=
  Utils.Info (logger w) "Starting file watcher daemon..." [] ;;
  err <- Utils.EnsureDir (WatchDirectory (config w)) ;;
  match err with
  | Some e =>
      ret (Some (Some (Errorf "failed to create watch directory: %w"
                              [AErr e])))
  | None =>
  match created n with
  | Some e =>
      ret (Some (Some (Errorf "failed to create file watcher: %w" [AErr e])))
  | None =>
  match added n with
  | Some e =>
      ret (Some (Some (Errorf "failed to add directory to watch: %w"
                              [AErr e])))
  | None =>
      Utils.Info (logger w) "Watching directory: %s"
                 [AStr (WatchDirectory (config w))] ;;
      eventLoop w (selected n)
  end end end.

Definition GetContainerStatus (w : Watcher) : M W (string * option error) :=
  res <- Utils.ExecuteCommand
           ("docker ps -a --filter name=" ++ ContainerName (config w)
            ++ " --format '{{.Status}}'")
           (10 * GoLib.Second) ;;
  match snd res with
  | Some err => ret ("", Some err)
  | None => ret (GoLib.TrimSpace (fst res), None)
  end.

Definition GetContainerLogs (w : Watcher) (lines : Z)
  : M W (string * option error) :=
  res <- Utils.ExecuteCommand
           ("docker logs --tail " ++ GoLib.fmt_d lines ++ " "
            ++ ContainerName (config w))
           (30 * GoLib.Second) ;;
  match snd res with
  | Some err => ret ("", Some err)
  | None => ret (fst res, None)
  end.

End WithHost.
End Watcher.

(* ================================================================= *)
(** ** Package uploader: the transfer pipeline and its transport *)
(* ================================================================= *)

Module Uploader.

Record Uploader : Type := mkUploader {
  config : UploaderConfig;
  logger : Logger
}.

Definition newline : string := String (ascii_of_N 10) EmptyString.

(** [fmt.Sprintf("C%#o %d %s\n", mode.Perm(), size, fileName)]. *)
Definition scpHeader (info : FileInfo) (fileName : string) : string :=
  "C" ++ GoLib.fmt_sharp_o (GoLib.Perm (fi_mode info)) ++ " "
  ++ GoLib.fmt_d (fi_size info) ++ " " ++ fileName ++ newline.

Section WithHost.
Context {W : Type} `{Host W}.

(** A deferred call runs when the function returns, whatever it
    returns; its own result is dropped. *)
Definition deferring {A B : Type} (cleanup : M W B) (body : M W A) : M W A :=
  a <- body ;;
  cleanup ;;
  ret a.

(** [io.Copy(dst, src)] for a file source: what the file yields is
    written to [dst]; a write error wins over a read error, and nothing
    is written when nothing was read. *)
Definition io_Copy (dst : Stdin) (src : File) : M W (option error) :=
  rd <- call (EvFileRead src) (file_Read src) ;;
  werr <- match fst rd with
          | [] => ret None
          | data => call (EvStdinWrite dst data) (stdin_Write dst data)
          end ;;
  match werr with
  | Some e => ret (Some e)
  | None => ret (snd rd)
  end.

Definition executePreBuildCommands (u : Uploader) : M W (option error) :=
  match PreBuildCommands (config u) with
  | [] => ret None
  | _ =>
      Utils.Info (logger u) "Executing pre-build commands..." [] ;;
      Utils.ExecuteCommands (PreBuildCommands (config u))
                            (5 * GoLib.Minute) (logger u)
  end.

Definition buildDockerImage (u : Uploader) : M W (option error) :=
  Utils.Info (logger u) "Building Docker image: %s:%s"
             [AStr (ImageName (config u)); AStr (ImageTag (config u))] ;;
  let buildCmd :=
    if negb (String.eqb (BuildCommand (config u)) "")
    then BuildCommand (config u)
    else "docker build -t " ++ ImageName (config u) ++ ":"
         ++ ImageTag (config u) ++ " " ++ DockerBuildPath (config u) in
  res <- Utils.ExecuteCommand buildCmd (15 * GoLib.Minute) ;;
  match snd res with
  | Some err => ret (Some err)
  | None =>
      Utils.Debug (logger u) "Docker build output: %s"
                  [AStr (GoLib.TrimSpace (fst res))] ;;
      ret None
  end.

Definition createTarball (u : Uploader) : M W (string * option error) :=
  Utils.Info (logger u) "Creating tarball for image: %s:%s"
             [AStr (ImageName (config u)); AStr (ImageTag (config u))] ;;
  timestamp <- call (EvNow "20060102-150405")
                    (time_Now_Format "20060102-150405") ;;
  let tarballName :=
    ImageName (config u) ++ "_" ++ ImageTag (config u) ++ "_"
    ++ timestamp ++ ".tar" in
  located <-
    (if negb (String.eqb (TarballPath (config u)) "") then
       err <- Utils.EnsureDir (TarballPath (config u)) ;;
       match err with
       | Some e =>
           ret (inr (Errorf "failed to create tarball directory: %w"
                            [AErr e]))
       | None =>
           ret (inl (filepath_Join [TarballPath (config u); tarballName]))
       end
     else ret (inl tarballName)) ;;
  match located with
  | inr e => ret ("", Some e)
  | inl tarballPath =>
      let saveCmd :=
        "docker save " ++ ImageName (config u) ++ ":"
        ++ ImageTag (config u) ++ " -o " ++ tarballPath in
      res <- Utils.ExecuteCommand saveCmd (10 * GoLib.Minute) ;;
      match snd res with
      | Some err => ret ("", Some err)
      | None =>
          Utils.Debug (logger u) "Docker save output: %s"
                      [AStr (GoLib.TrimSpace (fst res))] ;;
          ex <- Utils.FileExists tarballPath ;;
          if negb ex then
            ret ("", Some (Errorf "tarball was not created: %s"
                                  [AStr tarballPath]))
          else
            sz <- Utils.GetFileSize tarballPath ;;
            match snd sz with
            | Some e =>
                Utils.Warn (logger u) "Failed to get tarball size: %v"
                           [AErr e]
            | None =>
                Utils.Info (logger u) "Tarball created: %s (%s)"
                           [AStr tarballPath; AHuman (fst sz)]
            end ;;
            ret (tarballPath, None)
      end
  end.

Definition createSSHClient (u : Uploader) : M W (Client + error) :=
  authr <-
    (if negb (String.eqb (RemoteKeyPath (config u)) "") then
       key <- call (EvReadFile (RemoteKeyPath (config u)))
                   (os_ReadFile (RemoteKeyPath (config u))) ;;
       match key with
       | inr e => ret (inr (Errorf "failed to read private key: %w" [AErr e]))
       | inl bytes =>
           match ssh_ParsePrivateKey bytes with
           | inr e =>
               ret (inr (Errorf "failed to parse private key: %w" [AErr e]))
           | inl signer => ret (inl [signer])
           end
       end
     else ret (inl [])) ;;
  match authr with
  | inr e => ret (inr e)
  | inl auth =>
      home <- call (EvGetenv "HOME") (os_Getenv "HOME") ;;
      let knownHostsFile := filepath_Join [home; ".ssh"; "known_hosts"] in
      ex <- Utils.FileExists knownHostsFile ;;
      hostKeyCallback <-
        (if ex then
           hkc <- call (EvKnownHostsNew knownHostsFile)
                       (knownhosts_New knownHostsFile) ;;
           match hkc with
           | inr e =>
               Utils.Warn (logger u)
                 "Failed to load known_hosts, using insecure connection: %v"
                 [AErr e] ;;
               ret InsecureIgnoreHostKey
           | inl db => ret (KnownHosts db)
           end
         else
           Utils.Warn (logger u)
             "known_hosts file not found, using insecure connection" [] ;;
           ret InsecureIgnoreHostKey) ;;
      let cfg := mkClientConfig (RemoteUser (config u)) auth hostKeyCallback
                                (30 * GoLib.Second) in
      let addr := RemoteHost (config u) ++ ":"
                  ++ GoLib.fmt_d (RemotePort (config u)) in
      client <- call (EvDial "tcp" addr cfg)
                     (ssh_Dial "tcp" addr cfg) ;;
      match client with
      | inr e =>
          ret (inr (Errorf "failed to connect to SSH server: %w" [AErr e]))
      | inl c => ret (inl c)
      end
  end.

(** [scpUpload] once the session exists, up to its return. *)
Definition scpSend (session : Session) (localFile : File)
           (fileInfo : FileInfo) (fileName remotePath : string)
  : M W (option error) :=
  let scpCmd := "scp -t " ++ remotePath in
  pipe <- call (EvStdinPipe session) (session_StdinPipe session) ;;
  match pipe with
  | inr e => ret (Some (Errorf "failed to get stdin pipe: %w" [AErr e]))
  | inl stdin =>
  err <- call (EvStart session scpCmd)
              (session_Start session scpCmd) ;;
  match err with
  | Some e => ret (Some (Errorf "failed to start SCP command: %w" [AErr e]))
  | None =>
  let header := scpHeader fileInfo fileName in
  err <- call (EvStdinWrite stdin (list_byte_of_string header))
              (stdin_Write stdin (list_byte_of_string header)) ;;
  match err with
  | Some e => ret (Some (Errorf "failed to send file header: %w" [AErr e]))
  | None =>
  err <- io_Copy stdin localFile ;;
  match err with
  | Some e => ret (Some (Errorf "failed to copy file content: %w" [AErr e]))
  | None =>
  err <- call (EvStdinWrite stdin [Byte.x00])
              (stdin_Write stdin [Byte.x00]) ;;
  match err with
  | Some e => ret (Some (Errorf "failed to send end marker: %w" [AErr e]))
  | None =>
  call (EvStdinClose stdin) (stdin_Close stdin) ;;
  err <- call (EvWait session) (session_Wait session) ;;
  match err with
  | Some e => ret (Some (Errorf "SCP command failed: %w" [AErr e]))
  | None => ret None
  end end end end end end.

Definition scpUpload (u : Uploader) (client : Client) (localPath : string)
  : M W (option error) :=
  opened <- call (EvOpen localPath) (os_Open localPath) ;;
  match opened with
  | inr e => ret (Some (Errorf "failed to open local file: %w" [AErr e]))
  | inl localFile =>
      deferring (call (EvFileClose localFile) (file_Close localFile))
        (st <- call (EvFileStat localFile) (file_Stat localFile) ;;
         match st with
         | inr e => ret (Some (Errorf "failed to get file info: %w" [AErr e]))
         | inl fileInfo =>
             let fileName := GoLib.Base localPath in
             let remotePath :=
               filepath_Join [RemoteUploadPath (config u); fileName] in
             sess <- call (EvNewSession client)
                          (client_NewSession client) ;;
             match sess with
             | inr e =>
                 ret (Some (Errorf "failed to create SSH session: %w"
                                   [AErr e]))
             | inl session =>
                 deferring (call (EvSessionClose session)
                                 (session_Close session))
                           (scpSend session localFile fileInfo fileName
                                    remotePath)
             end
         end)
  end.

Definition uploadTarball (u : Uploader) (tarballPath : string)
  : M W (option error) :=
  Utils.Info (logger u) "Uploading tarball to %s@%s:%s"
             [AStr (RemoteUser (config u)); AStr (RemoteHost (config u));
              AStr (RemoteUploadPath (config u))] ;;
  created <- createSSHClient u ;;
  match created with
  | inr e => ret (Some (Errorf "failed to create SSH client: %w" [AErr e]))
  | inl client =>
      deferring (call (EvClientClose client) (client_Close client))
        (err <- scpUpload u client tarballPath ;;
         match err with
         | Some e => ret (Some (Errorf "SCP upload failed: %w" [AErr e]))
         | None =>
             Utils.Info (logger u) "Tarball uploaded successfully" [] ;;
             ret None
         end)
  end.

Definition executePostBuildCommands (u : Uploader) : M W (option error) :=
  match PostBuildCommands (config u) with
  | [] => ret None
  | _ =>
      Utils.Info (logger u) "Executing post-build commands..." [] ;;
      Utils.ExecuteCommands (PostBuildCommands (config u))
                            (5 * GoLib.Minute) (logger u)
  end.

Definition cleanupTarball (u : Uploader) (tarballPath : string)
  : M W (option error) :=
  Utils.Info (logger u) "Cleaning up tarball: %s" [AStr tarballPath] ;;
  call (EvRemove tarballPath) (os_Remove tarballPath).

Definition Run (u : Uploader) : M W (option error) :=
  Utils.Info (logger u) "Starting uploader workflow..." [] ;;
  err <- executePreBuildCommands u ;;
  match err with
  | Some e => ret (Some (Errorf "pre-build commands failed: %w" [AErr e]))
  | None =>
  err <- buildDockerImage u ;;
  match err with
  | Some e => ret (Some (Errorf "docker build failed: %w" [AErr e]))
  | None =>
  created <- createTarball u ;;
  match snd created with
  | Some e => ret (Some (Errorf "tarball creation failed: %w" [AErr e]))
  | None =>
  let tarballPath := fst created in
  err <- uploadTarball u tarballPath ;;
  match err with
  | Some e => ret (Some (Errorf "upload failed: %w" [AErr e]))
  | None =>
  err <- executePostBuildCommands u ;;
  match err with
  | Some e => ret (Some (Errorf "post-build commands failed: %w" [AErr e]))
  | None =>
  err <- cleanupTarball u tarballPath ;;
  match err with
  | Some e => Utils.Warn (logger u) "Failed to cleanup tarball: %v" [AErr e]
  | None => ret tt
  end ;;
  Utils.Info (logger u) "Uploader workflow completed successfully" [] ;;
  ret None
  end end end end end.

End WithHost.
End Uploader.

(* ================================================================= *)
(** ** Package cmd *)
(* ================================================================= *)

Module Cmd.

(** How [runApplication] ends: one of its exits, or the mode it
    starts. *)
Inductive Outcome : Type :=
| ExitLoad (e : error)
| ExitValidation (e : error)
| StartUploader (cfg : UploaderConfig) (l : Logger)
| StartWatcher (cfg : WatcherConfig) (l : Logger) (isDaemon : bool)
| ExitInvalidMode (mode : string).

(** [runApplication] on the result of [config.LoadConfig] and the
    command-line flags. *)
Definition runApplication (loaded : Config.Config + error) (mode : string)
           (daemon verbose : bool) : Outcome :=
  match loaded with
  | inr e => ExitLoad e
  | inl cfg =>
      let cfg :=
        if negb (String.eqb mode "")
        then Config.mkConfig mode (Config.LogLevel cfg) (Config.Uploader cfg)
                             (Config.Watcher cfg)
        else cfg in
      let cfg :=
        if verbose
        then Config.mkConfig (Config.Mode cfg) "debug" (Config.Uploader cfg)
                             (Config.Watcher cfg)
        else cfg in
      match Config.Validate cfg with
      | Some e => ExitValidation e
      | None =>
          let logger := mkLogger (Config.LogLevel cfg) in
          if String.eqb (Config.Mode cfg) "uploader" then
            StartUploader (Config.Uploader cfg) logger
          else if String.eqb (Config.Mode cfg) "watcher" then
            StartWatcher (Config.Watcher cfg) logger daemon
          else ExitInvalidMode (Config.Mode cfg)
      end
  end.

(** How [showStatus] and [showLogs] end: one of their exits, or what
    they print about the container. *)
Inductive Shown : Type :=
| ShowExitLoad (e : error)
| ShowNotWatcher
| ShowExitQuery (e : error)
| ShowNotFound (name : string)
| ShowStatus (name status : string)
| ShowLogs (name logs : string).

Section WithHost.
Context {W : Type} `{Host W}.

(** [showStatus] on the result of [config.LoadConfig]. *)
Definition showStatus (loaded : Config.Config + error) : M W Shown :=
  match loaded with
  | inr e => ret (ShowExitLoad e)
  | inl cfg =>
      if negb (String.eqb (Config.Mode cfg) "watcher") then ret ShowNotWatcher
      else
        let logger := mkLogger (Config.LogLevel cfg) in
        let w := Watcher.mkWatcher (Config.Watcher cfg) logger in
        res <- Watcher.GetContainerStatus w ;;
        match snd res with
        | Some e => ret (ShowExitQuery e)
        | None =>
            if String.eqb (fst res) ""
            then ret (ShowNotFound (ContainerName (Config.Watcher cfg)))
            else ret (ShowStatus (ContainerName (Config.Watcher cfg))
                                 (fst res))
        end
  end.

(** [showLogs] on the result of [config.LoadConfig]. *)
Definition showLogs (loaded : Config.Config + error) : M W Shown :=
  match loaded with
  | inr e => ret (ShowExitLoad e)
  | inl cfg =>
      if negb (String.eqb (Config.Mode cfg) "watcher") then ret ShowNotWatcher
      else
        let logger := mkLogger (Config.LogLevel cfg) in
        let w := Watcher.mkWatcher (Config.Watcher cfg) logger in
        res <- Watcher.GetContainerLogs w 50 ;;
        match snd res with
        | Some e => ret (ShowExitQuery e)
        | None => ret (ShowLogs (ContainerName (Config.Watcher cfg))
                                (fst res))
        end
  end.

End WithHost.

End Cmd.

(* ================================================================= *)
(** ** Classes of calls and of outcomes *)
(* ================================================================= *)

Definition not_removal (ev : Event) : bool :=
  match ev with EvRemove _ _ => false | _ => true end.

Definition any_call (ev : Event) : bool := true.

(** Calls that stay on the local machine and delete nothing. *)
Definition local_only (ev : Event) : bool :=
  match ev with
  | EvLog _ _ _ _ | EvExec _ _ _ | EvStat _ _ | EvMkdirAll _ _ _
  | EvSleep _ | EvNow _ _ | EvGetenv _ _ => true
  | _ => false
  end.

(** The fields of a command line cut at every single space. *)
Fixpoint words (s : string) : list string :=
  match s with
  | EmptyString => [EmptyString]
  | String a r =>
      if Ascii.eqb a " "%char then EmptyString :: words r
      else match words r with
           | [] => [String a EmptyString]
           | x :: xs => String a x :: xs
           end
  end.

Fixpoint has_space (s : string) : bool :=
  match s with
  | EmptyString => false
  | String a r => Ascii.eqb a " "%char || has_space r
  end.

(** A flag repeated before each value of a list. *)
Definition flagged (flag : string) (xs : list string) : list string :=
  flat_map (fun x => [flag; x]) xs.

(** The argument vector the run command is meant to carry. *)
Definition runArgv (c : WatcherConfig) : list string :=
  ["docker"; "run"; "-d"; "--name"; ContainerName c]
  ++ (if String.eqb (RestartPolicy c) "" then []
      else ["--restart"; RestartPolicy c])
  ++ flagged "-p" (ContainerPort c)
  ++ flagged "-e" (ContainerEnv c)
  ++ flagged "-v" (ContainerVolumes c)
  ++ [ContainerName c].

(** No configured value of the run command contains a space. *)
Definition space_free (c : WatcherConfig) : Prop :=
  has_space (ContainerName c) = false /\
  has_space (RestartPolicy c) = false /\
  Forall (fun x => has_space x = false) (ContainerPort c) /\
  Forall (fun x => has_space x = false) (ContainerEnv c) /\
  Forall (fun x => has_space x = false) (ContainerVolumes c).

(** A configured value that the shell and the runtime take as it is:
    not empty, made of plain characters, not beginning with a dash. *)
Definition word_ok (v : string) : bool :=
  negb (String.eqb v "") && Sh.all Sh.plain v && negb (Docker.dashed v).

(** Every configured value of the run command is such a word; the
    restart policy may also be empty. *)
Definition plain_config (c : WatcherConfig) : Prop :=
  word_ok (ContainerName c) = true /\
  (RestartPolicy c = "" \/ word_ok (RestartPolicy c) = true) /\
  Forall (fun x => word_ok x = true) (ContainerPort c) /\
  Forall (fun x => word_ok x = true) (ContainerEnv c) /\
  Forall (fun x => word_ok x = true) (ContainerVolumes c).

(** The instance the configuration describes: detached, under the
    configured name, with the configured restart policy and bindings,
    from the image named like the container, with the command of the
    image. *)
Definition asked (c : WatcherConfig) : Docker.Request :=
  Docker.mkRequest true (Some (ContainerName c))
    (if String.eqb (RestartPolicy c) "" then None
     else Some (RestartPolicy c))
    (ContainerPort c) (ContainerEnv c) (ContainerVolumes c)
    (ContainerName c) [].

(** The operations of a file event on which [handleFileEvent] goes on
    to the archive: the test of its second [if]. *)
Definition triggers (op : Z) : bool :=
  (Z.land op GoLib.Create =? GoLib.Create)
  || (Z.land op GoLib.Write =? GoLib.Write).

(** The state after a warning about a failure, if there was one. *)
Definition warned {W : Type} (lg : Logger) (msg : string) (e : option error)
           (s : St W) : St W :=
  match e with
  | Some err => mkSt (world s) (trace s ++ [EvLog lg LWarn msg [AErr err]])
  | None => s
  end.

(** The state after an information line. *)
Definition noted {W : Type} (lg : Logger) (msg : string) (s : St W) : St W :=
  mkSt (world s) (trace s ++ [EvLog lg LInfo msg []]).

(** The bytes written to the input of a session, in order. *)
Fixpoint sent (t : list Event) : list Byte.byte :=
  match t with
  | [] => []
  | EvStdinWrite _ data _ :: t' => data ++ sent t'
  | _ :: t' => sent t'
  end.

(** A call of [scpUpload] whose error the function checks, and that
    returned one. *)
Definition checked_failure (ev : Event) : bool :=
  match ev with
  | EvOpen _ (inr _) | EvFileStat _ (inr _) | EvNewSession _ (inr _)
  | EvStdinPipe _ (inr _) | EvStart _ _ (Some _)
  | EvStdinWrite _ _ (Some _) | EvFileRead _ (_, Some _)
  | EvWait _ (Some _) => true
  | _ => false
  end.

(** A call of [scpUpload] that returned an error, checked or not. *)
Definition any_failure (ev : Event) : bool :=
  match ev with
  | EvStdinClose _ (Some _) | EvSessionClose _ (Some _)
  | EvFileClose _ (Some _) => true
  | _ => checked_failure ev
  end.

(** The handles a run holds: opened or dialled, and not closed yet. *)
Inductive Resource : Type :=
| RFile (f : File)
| RSession (s : Session)
| RClient (c : Client).

Definition same_resource (a b : Resource) : bool :=
  match a, b with
  | RFile (mkFile i), RFile (mkFile j) => Nat.eqb i j
  | RSession (mkSession i), RSession (mkSession j) => Nat.eqb i j
  | RClient (mkClient i), RClient (mkClient j) => Nat.eqb i j
  | _, _ => false
  end.

Fixpoint release (r : Resource) (held : list Resource) : list Resource :=
  match held with
  | [] => []
  | h :: rest => if same_resource r h then rest else h :: release r rest
  end.

Definition track (held : list Resource) (ev : Event) : list Resource :=
  match ev with
  | EvOpen _ (inl f) => RFile f :: held
  | EvFileClose f _ => release (RFile f) held
  | EvNewSession _ (inl s) => RSession s :: held
  | EvSessionClose s _ => release (RSession s) held
  | EvDial _ _ _ (inl c) => RClient c :: held
  | EvClientClose c _ => release (RClient c) held
  | _ => held
  end.

(** The handles held after the calls of [t], from those held before. *)
Definition holding (held : list Resource) (t : list Event) : list Resource :=
  fold_left track t held.

(** The configurations of the dials of a trace. *)
Fixpoint dials (t : list Event) : list ClientConfig :=
  match t with
  | [] => []
  | EvDial _ _ cfg _ :: t' => cfg :: dials t'
  | _ :: t' => dials t'
  end.

(** A selection on which the loop of [Run] goes on. *)
Definition live (x : Watcher.Selected) : bool :=
  match x with
  | Watcher.FromEvents (Some _) | Watcher.FromErrors (Some _) => true
  | _ => false
  end.

(** A selection that the loop of [Run] hands to a cycle: a file event on
    a path with the archive suffix. *)
Definition relevant (x : Watcher.Selected) : bool :=
  match x with
  | Watcher.FromEvents (Some ev) =>
      GoLib.HasSuffix (Watcher.Name ev) ".tar"
  | _ => true
  end.

(** The archives announced to the loop of [Run]: the paths of the file
    events it hands to a cycle, in order, up to the selection on which
    it returns. *)
Fixpoint announced (sel : list Watcher.Selected) : list string :=
  match sel with
  | Watcher.FromEvents (Some ev) :: rest =>
      if GoLib.HasSuffix (Watcher.Name ev) ".tar"
         && ((Z.land (Watcher.Op ev) GoLib.Create =? GoLib.Create)
             || (Z.land (Watcher.Op ev) GoLib.Write =? GoLib.Write))
      then Watcher.Name ev :: announced rest
      else announced rest
  | Watcher.FromErrors (Some _) :: rest => announced rest
  | _ => []
  end.

(** A command of a hook set that [ExecuteCommands] does not skip. *)
Definition nonblank (cmd : string) : bool :=
  negb (String.eqb (GoLib.TrimSpace cmd) "").

(** The commands a cycle on the archive [p] must spawn before it can
    succeed, in order: the pre-load hooks, the load, the stop and the
    removal of the old container, the start of the new one. *)
Definition mandatory (w : Watcher.Watcher) (p : string) : list string :=
  (filter nonblank (PreLoadCommands (Watcher.config w))
   ++ [("docker load -i " ++ p)%string;
       ("docker stop " ++ ContainerName (Watcher.config w))%string;
       ("docker rm " ++ ContainerName (Watcher.config w))%string;
       Watcher.buildDockerRunCommand w])%list.

(** Calls that spawn no process and remove no file. *)
Definition quiet (ev : Event) : bool :=
  match ev with
  | EvExec _ _ _ | EvRemove _ _ => false
  | _ => true
  end.

(** The command line of the build: the configured one, or the default
    one. *)
Definition buildLine (c : UploaderConfig) : string :=
  if negb (String.eqb (BuildCommand c) "") then BuildCommand c
  else "docker build -t " ++ ImageName c ++ ":" ++ ImageTag c ++ " "
       ++ DockerBuildPath c.

(** The command line of the export of the image to [path]. *)
Definition saveLine (c : UploaderConfig) (path : string) : string :=
  "docker save " ++ ImageName c ++ ":" ++ ImageTag c ++ " -o " ++ path.

(** The name of the archive made at the time [stamp]. *)
Definition archiveName (c : UploaderConfig) (stamp : string) : string :=
  ImageName c ++ "_" ++ ImageTag c ++ "_" ++ stamp ++ ".tar".

(** What a cycle did, by what it returned. *)
Definition cycle_outcome (w : Watcher.Watcher) (p : string)
           (r : option error) (cmds rems : list string) : Prop :=
  match r with
  | None =>
      rems = [p] /\
      exists post rest,
        cmds = (mandatory w p ++ post)%list /\
        filter nonblank (PostLoadCommands (Watcher.config w))
        = (post ++ rest)%list
  | Some _ =>
      rems = [] /\ exists rest, mandatory w p = (cmds ++ rest)%list
  end.

(** The fields [Validate] asks of each mode. *)
Definition uploader_ready (c : Config.Config) : Prop :=
  Config.Mode c = "uploader" /\
  DockerBuildPath (Config.Uploader c) <> "" /\
  ImageName (Config.Uploader c) <> "" /\
  RemoteHost (Config.Uploader c) <> "" /\
  RemoteUser (Config.Uploader c) <> "" /\
  RemoteUploadPath (Config.Uploader c) <> "".

Definition watcher_ready (c : Config.Config) : Prop :=
  Config.Mode c = "watcher" /\
  WatchDirectory (Config.Watcher c) <> "" /\
  ContainerName (Config.Watcher c) <> "".

(** The configuration [runApplication] validates: the loaded one under
    the flags. *)
Definition flagged_config (cfg : Config.Config) (mode : string)
           (verbose : bool) : Config.Config :=
  Config.mkConfig
    (if String.eqb mode "" then Config.Mode cfg else mode)
    (if verbose then "debug" else Config.LogLevel cfg)
    (Config.Uploader cfg) (Config.Watcher cfg).

(** A spawned process that [ExecuteCommand] reports as a success. *)
Definition succeeded (x : string * Z * RawRun) : Prop :=
  snd (Utils.classify (fst (fst x)) (snd (fst x)) (snd x)) = None.

(** The debug line that follows a successful command of a hook set. *)
Definition outputLine (lg : Logger) (out : string) : list Event :=
  if negb (String.eqb (GoLib.TrimSpace out) "")
  then [EvLog lg LDebug "Command output: %s" [AStr (GoLib.TrimSpace out)]]
  else [].

(** A string that begins with a space. *)
Definition spaced (t : string) : Prop := exists y, t = String " " y.

(* ================================================================= *)
(** ** Observations on runs *)
(* ================================================================= *)

Section Observations.
Context {W : Type} `{Host W}.

(** [Framed P m]: from a world, [m] returns a value, a new world and a
    list of calls, all satisfying [P], that it appends to whatever trace
    it started from. *)
Definition Framed {A : Type} (P : Event -> bool) (m : M W A) : Prop :=
  forall w, exists a w' new,
    forallb P new = true /\
    forall t, m (mkSt w t) = (a, mkSt w' (t ++ new)).

(** What a triggering event adds to the trace after its debug line, and
    the world it leaves: the announcement, the two-second wait, the
    cycle on the archive, and the error line of a failed cycle. *)
Definition arrival (w : Watcher.Watcher) (name : string) (w0 : W)
  : W * list Event :=
  let s1 := mkSt (snd (time_Sleep (2 * GoLib.Second) w0)) [] in
  let run := Watcher.processTarball w name s1 in
  (world (snd run),
   ([EvLog (Watcher.logger w) LInfo "New tarball detected: %s" [AStr name];
     EvSleep (2 * GoLib.Second)]
    ++ trace (snd run)
    ++ match fst run with
       | Some e =>
           [EvLog (Watcher.logger w) LError "Failed to process tarball %s: %v"
                  [AStr name; AErr e]]
       | None => []
       end)%list).

(** [creates instances]: the container runtime of the host does what it
    is asked.  [instances] reads the instances that exist off a world;
    when the shell runs a text it reads as the argument vector of a
    [docker run], and the process succeeds, the instance asked for is
    among those of the world it leaves. *)
Definition creates (instances : W -> list Docker.Request) : Prop :=
  forall (text : string) (timeout : Z) (w0 : W)
         (argv : list string) (req : Docker.Request),
    Sh.argv text = Some argv ->
    Docker.request argv = Some req ->
    snd (Utils.classify text timeout (fst (sh_run text timeout w0))) = None ->
    In req (instances (snd (sh_run text timeout w0))).

(** [Kept s0 s]: the run from [s0] to [s] asked for no removal. *)
Definition Kept (s0 s : St W) : Prop :=
  trace s = (trace s0 ++ since s0 s)%list /\ removals (since s0 s) = [].

(** The path of the archive made at the time [stamp]: under the
    configured directory, if there is one. *)
Definition archivePath (c : UploaderConfig) (stamp : string) : string :=
  if negb (String.eqb (TarballPath c) "")
  then filepath_Join [TarballPath c; archiveName c stamp]
  else archiveName c stamp.

(** [Ran s0 s xs rems]: the run from [s0] to [s] spawned the processes
    [xs], with these results, and asked for the removals [rems]. *)
Definition Ran (s0 s : St W) (xs : list (string * Z * RawRun))
           (rems : list string) : Prop :=
  trace s = (trace s0 ++ since s0 s)%list /\
  execs (since s0 s) = xs /\ removals (since s0 s) = rems.

(** [Did s0 s cmds rems]: the run from [s0] to [s] spawned the commands
    [cmds] and asked for the removals [rems], in these orders. *)
Definition Did (s0 s : St W) (cmds rems : list string) : Prop :=
  trace s = (trace s0 ++ since s0 s)%list /\
  spawned (since s0 s) = cmds /\ removals (since s0 s) = rems.

End Observations.

(* ================================================================= *)
(** ** A simulated host, to run the pipelines on concrete inputs *)
(* ================================================================= *)

Module Sim.

Record World : Type := mkWorld {
  files : list (string * FileInfo);   (* what [os.Stat] finds *)
  failing : list string;              (* commands that exit with status 1 *)
  hanging : list string;              (* commands that outlive their timeout *)
  known_hosts_loads : bool;           (* [knownhosts.New] succeeds *)
  dial_ok : bool;                     (* [ssh.Dial] succeeds *)
  content : list Byte.byte;           (* what reading the opened file yields *)
  close_fails : bool;                 (* closing the session input fails *)
  exit_status : Z;                    (* the exit status of the remote peer *)
  received : list Byte.byte;          (* the bytes the remote peer was sent *)
  remove_denied : bool                (* [os.Remove] is refused *)
}.

Definition mem (x : string) (l : list string) : bool :=
  existsb (String.eqb x) l.

Fixpoint lookup (p : string) (l : list (string * FileInfo))
  : option FileInfo :=
  match l with
  | [] => None
  | (q, fi) :: l' => if String.eqb p q then Some fi else lookup p l'
  end.

Definition unlink (p : string) (l : list (string * FileInfo))
  : list (string * FileInfo) :=
  filter (fun e => negb (String.eqb p (fst e))) l.

Definition receive (data : list Byte.byte) (w : World) : World :=
  mkWorld (files w) (failing w) (hanging w) (known_hosts_loads w)
          (dial_ok w) (content w) (close_fails w) (exit_status w)
          (received w ++ data) (remove_denied w).

Definition without (p : string) (w : World) : World :=
  mkWorld (unlink p (files w)) (failing w) (hanging w)
          (known_hosts_loads w) (dial_ok w) (content w) (close_fails w)
          (exit_status w) (received w) (remove_denied w).

Definition enoent : error := OsError "no such file or directory".

#[global] Instance host : Host World := {|
  sh_run c _ w :=
    (if mem c (hanging w) then mkRawRun "partial" (Some "signal: killed") true
     else if mem c (failing w) then mkRawRun "boom" (Some "exit status 1") false
     else mkRawRun "ok" None false, w);
  os_Stat p w :=
    (match lookup p (files w) with
     | Some fi => inl fi
     | None => inr enoent
     end, w);
  os_Remove p w :=
    if remove_denied w then (Some (OsError "operation not permitted"), w)
    else
      match lookup p (files w) with
      | Some _ => (None, without p w)
      | None => (Some enoent, w)
      end;
  os_MkdirAll _ _ w := (None, w);
  time_Sleep _ w := (tt, w);
  time_Now_Format _ w := ("20240704-101112", w);
  os_Getenv _ w := ("/home/deploy", w);
  os_ReadFile _ w := (inl [], w);
  filepath_Join elems := String.concat "/" elems;
  ssh_ParsePrivateKey _ := inl (mkSigner 0);
  knownhosts_New _ w :=
    (if known_hosts_loads w then inl (mkHostKeyDB 0)
     else inr (OsError "knownhosts: illegal base64 data"), w);
  ssh_Dial _ _ _ w :=
    (if dial_ok w then inl (mkClient 0)
     else inr (OsError "dial tcp: connection refused"), w);
  client_Close _ w := (None, w);
  os_Open p w :=
    (match lookup p (files w) with
     | Some _ => inl (mkFile 0)
     | None => inr enoent
     end, w);
  file_Stat _ w := (inl (mkFileInfo 420 (Z.of_nat (List.length (content w)))), w);
  file_Read _ w := ((content w, None), w);
  file_Close _ w := (None, w);
  client_NewSession _ w := (inl (mkSession 0), w);
  session_Close _ w := (None, w);
  session_StdinPipe _ w := (inl (mkStdin 0), w);
  session_Start _ _ w := (None, w);
  stdin_Write _ data w := (None, receive data w);
  stdin_Close _ w :=
    (if close_fails w then Some (OsError "EOF") else None, w);
  session_Wait _ w :=
    (if exit_status w =? 0 then None
     else Some (OsError "Process exited with non-zero status"), w)
|}.

Definition start (w : World) : St World := mkSt w [].

(** A machine with no files, on which every command succeeds. *)
Definition idle : World := mkWorld [] [] [] true true [] false 0 [] false.

Definition info : Logger := mkLogger "info".

(** The sample configuration that [initConfig] writes. *)
Definition sample : Config.Config :=
  Config.mkConfig "watcher" "info"
    (mkUploaderConfig "./" "myapp" "latest" "./tarballs"
       "destination.server.com" 22 "deploy" "~/.ssh/id_rsa"
       "/opt/docker-uploads" "" ["echo 'Starting build process...'"]
       ["echo 'Build process completed.'"])
    (mkWatcherConfig "/opt/docker-uploads" "myapp" ["8080:8080"]
       ["NODE_ENV=production"] []
       ["echo 'Preparing to load new image...'"]
       ["echo 'New container deployed successfully.'"] "unless-stopped").

End Sim.

(** A host that is a container runtime and nothing else: its world is
    the list of the instances that exist.  A [docker run] that the shell
    and the runtime can read creates the instance it asks for, unless an
    instance of that name exists already; every other command succeeds
    and changes nothing. *)
Module Runtime.

Definition World : Type := list Docker.Request.

Definition taken (n : option string) (w : World) : bool :=
  match n with
  | Some x =>
      existsb (fun r => match Docker.name r with
                        | Some y => String.eqb x y
                        | None => false
                        end) w
  | None => false
  end.

Definition run (text : string) (w : World) : RawRun * World :=
  match Sh.argv text with
  | Some argv =>
      match Docker.request argv with
      | Some req =>
          if taken (Docker.name req) w
          then (mkRawRun "Conflict. The container name is already in use"
                         (Some "exit status 125") false, w)
          else (mkRawRun "3f4e8a1c" None false, (w ++ [req])%list)
      | None => (mkRawRun "" None false, w)
      end
  | None => (mkRawRun "" None false, w)
  end.

Definition absent : error := OsError "no such file or directory".

#[global] Instance host : Host World := {|
  sh_run text _ w := run text w;
  os_Stat _ w := (inr absent, w);
  os_Remove _ w := (Some absent, w);
  os_MkdirAll _ _ w := (None, w);
  time_Sleep _ w := (tt, w);
  time_Now_Format _ w := ("20240704-101112", w);
  os_Getenv _ w := ("", w);
  os_ReadFile _ w := (inr absent, w);
  filepath_Join elems := String.concat "/" elems;
  ssh_ParsePrivateKey _ := inr (OsError "ssh: no key found");
  knownhosts_New _ w := (inr absent, w);
  ssh_Dial _ _ _ w := (inr (OsError "dial tcp: connection refused"), w);
  client_Close _ w := (None, w);
  os_Open _ w := (inr absent, w);
  file_Stat _ w := (inr absent, w);
  file_Read _ w := (([], None), w);
  file_Close _ w := (None, w);
  client_NewSession _ w := (inr (OsError "ssh: connection closed"), w);
  session_Close _ w := (None, w);
  session_StdinPipe _ w := (inr (OsError "ssh: connection closed"), w);
  session_Start _ _ w := (None, w);
  stdin_Write _ _ w := (None, w);
  stdin_Close _ w := (None, w);
  session_Wait _ w := (None, w)
|}.

Definition instances (w : World) : list Docker.Request := w.

Definition start (w : World) : St World := mkSt w [].

End Runtime.

(* ================================================================= *)
(** * Properties *)
(* ================================================================= *)

(** ** The Go library models on examples *)

Example TrimSpace_ex1 : GoLib.TrimSpace "  docker ps  " = "docker ps".
Proof. reflexivity. Qed.

Example TrimSpace_ex2 :
  GoLib.TrimSpace (String (ascii_of_N 9) (String (ascii_of_N 194)
                    (String (ascii_of_N 160) " "))) = "".
Proof. reflexivity. Qed.

Example Base_ex1 : GoLib.Base "tarballs/web_latest_20240704-101112.tar"
                   = "web_latest_20240704-101112.tar".
Proof. reflexivity. Qed.

Example Base_ex2 : GoLib.Base "/opt/uploads/" = "uploads".
Proof. reflexivity. Qed.

Example fmt_sharp_o_ex1 : GoLib.fmt_sharp_o 420 = "0644".
Proof. reflexivity. Qed.

Example fmt_sharp_o_ex2 : GoLib.fmt_sharp_o 493 = "0755".
Proof. reflexivity. Qed.

Example fmt_sharp_o_ex3 : GoLib.fmt_sharp_o 8 = "010".
Proof. reflexivity. Qed.

Example HasSuffix_ex1 : GoLib.HasSuffix "/opt/uploads/web_latest.tar" ".tar" = true.
Proof. reflexivity. Qed.

Example HasSuffix_ex2 : GoLib.HasSuffix "tar" ".tar" = false.
Proof. reflexivity. Qed.

Example fmt_d_ex1 : GoLib.fmt_d 1048576 = "1048576".
Proof. reflexivity. Qed.

(** ** Traces only grow, and a run depends on the world alone *)

Section Framing.
Context {W : Type} `{Host W}.

Lemma framed_ret {A} P (a : A) : Framed (W:=W) P (ret a).
Proof.
  intros w. exists a, w, []. split; [reflexivity|].
  intros t. unfold ret. rewrite app_nil_r. reflexivity.
Qed.

Lemma framed_emit P ev : P ev = true -> Framed (W:=W) P (emit ev).
Proof.
  intros HP w. exists tt, w, [ev]. split.
  - simpl. rewrite HP. reflexivity.
  - intros t. reflexivity.
Qed.

Lemma framed_call {A} P (ev : A -> Event) (op : W -> A * W) :
  (forall a, P (ev a) = true) -> Framed P (call ev op).
Proof.
  intros HP w. destruct (op w) as [a w'] eqn:E.
  exists a, w', [ev a]. split.
  - simpl. rewrite HP. reflexivity.
  - intros t. unfold call. simpl. rewrite E. reflexivity.
Qed.

Lemma framed_bind {A B} P (m : M W A) (k : A -> M W B) :
  Framed P m -> (forall a, Framed P (k a)) -> Framed P (bind m k).
Proof.
  intros Hm Hk w.
  destruct (Hm w) as (a & w1 & n1 & P1 & E1).
  destruct (Hk a w1) as (b & w2 & n2 & P2 & E2).
  exists b, w2, (n1 ++ n2)%list. split.
  - rewrite forallb_app, P1, P2. reflexivity.
  - intros t. unfold bind. rewrite E1, E2, app_assoc. reflexivity.
Qed.

Lemma framed_weaken {A} (P Q : Event -> bool) (m : M W A) :
  (forall ev, P ev = true -> Q ev = true) -> Framed P m -> Framed Q m.
Proof.
  intros HPQ Hm w. destruct (Hm w) as (a & w' & new & HP & E).
  exists a, w', new. split; [|exact E].
  rewrite forallb_forall in *. auto.
Qed.

(** What [Framed] says of one run. *)
Lemma framed_run {A} P (m : M W A) (s : St W) :
  Framed P m ->
  exists new, trace (snd (m s)) = (trace s ++ new)%list /\
              forallb P new = true /\
              forall t, m (mkSt (world s) t) =
                        (fst (m s), mkSt (world (snd (m s))) (t ++ new)).
Proof.
  intros Hm. destruct s as [w t0].
  destruct (Hm w) as (a & w' & new & HP & E).
  exists new. rewrite E. simpl. repeat split; auto.
Qed.

End Framing.

Ltac framed_step :=
  first
    [ assumption
    | apply framed_ret
    | apply framed_emit; reflexivity
    | apply framed_call; intros; reflexivity
    | apply framed_bind; [ | intros ]
    | match goal with
      | |- Framed _ (match ?x with _ => _ end) => destruct x
      | |- Framed _ (if ?x then _ else _) => destruct x
      end ].

Ltac framed := repeat framed_step; eauto.

(** A run on a concrete world: evaluate it, then read the result off. *)
Ltac runs :=
  match goal with
  | |- ?lhs = _ =>
      let v := eval vm_compute in lhs in
      transitivity v; [vm_compute; reflexivity | reflexivity]
  end.

(** ** Projections of a trace *)

Lemma execs_app (t1 t2 : list Event) :
  execs (t1 ++ t2) = (execs t1 ++ execs t2)%list.
Proof.
  induction t1 as [|ev t1 IH]; simpl; [reflexivity|].
  destruct ev; simpl; rewrite ?IH; reflexivity.
Qed.

Lemma spawned_app (t1 t2 : list Event) :
  spawned (t1 ++ t2) = (spawned t1 ++ spawned t2)%list.
Proof. unfold spawned. rewrite execs_app, map_app. reflexivity. Qed.

Lemma removals_app (t1 t2 : list Event) :
  removals (t1 ++ t2) = (removals t1 ++ removals t2)%list.
Proof.
  induction t1 as [|ev t1 IH]; simpl; [reflexivity|].
  destruct ev; simpl; rewrite ?IH; reflexivity.
Qed.

Lemma removals_none (t : list Event) :
  forallb not_removal t = true -> removals t = [].
Proof.
  induction t as [|ev t IH]; simpl; [reflexivity|].
  destruct ev; simpl; intros Hq; try discriminate; auto.
Qed.

Lemma transport_none (t : list Event) :
  forallb local_only t = true -> filter is_transport t = [].
Proof.
  induction t as [|ev t IH]; simpl; [reflexivity|].
  destruct ev; simpl; intros Hq; try discriminate; auto.
Qed.

(** ** The command executor *)

Section Executor.
Context {W : Type} `{Host W}.

Lemma ExecuteCommand_run (command : string) (timeout : Z) (s : St W) :
  Utils.ExecuteCommand command timeout s =
  (Utils.classify command timeout (fst (sh_run command timeout (world s))),
   mkSt (snd (sh_run command timeout (world s)))
        (trace s ++ [EvExec command timeout
                            (fst (sh_run command timeout (world s)))])).
Proof.
  unfold Utils.ExecuteCommand, bind, call, ret.
  destruct (sh_run command timeout (world s)); reflexivity.
Qed.

Lemma ExecuteCommand_framed (command : string) (timeout : Z) :
  Framed local_only (Utils.ExecuteCommand command timeout).
Proof. unfold Utils.ExecuteCommand. framed. Qed.

Lemma ExecuteCommands_framed (commands : list string) (timeout : Z)
      (lg : Logger) :
  Framed local_only (Utils.ExecuteCommands commands timeout lg).
Proof.
  induction commands as [|cmd rest IH]; simpl.
  - framed.
  - destruct (String.eqb (GoLib.TrimSpace cmd) ""); [exact IH|].
    unfold Utils.Info, Utils.Error, Utils.Debug.
    pose proof (ExecuteCommand_framed cmd timeout).
    framed.
Qed.

Lemma ExecuteCommands_blank (commands : list string) (timeout : Z)
      (lg : Logger) (s : St W) :
  filter nonblank commands = [] ->
  Utils.ExecuteCommands commands timeout lg s = (None, s).
Proof.
  induction commands as [|cmd rest IH]; simpl; [reflexivity|].
  unfold nonblank at 1.
  destruct (String.eqb (GoLib.TrimSpace cmd) ""); simpl.
  - exact IH.
  - discriminate.
Qed.

Lemma ExecuteCommands_cons (cmd : string) (rest : list string)
      (timeout : Z) (lg : Logger) (s : St W) :
  nonblank cmd = true ->
  Utils.ExecuteCommands (cmd :: rest) timeout lg s =
  let raw := fst (sh_run cmd timeout (world s)) in
  let w1 := snd (sh_run cmd timeout (world s)) in
  let begun := [EvLog lg LInfo "Executing command: %s" [AStr cmd];
                EvExec cmd timeout raw] in
  match snd (Utils.classify cmd timeout raw) with
  | Some e =>
      (Some e,
       mkSt w1 (trace s ++ begun
                ++ [EvLog lg LError "Command failed: %s" [AErr e]]))
  | None =>
      Utils.ExecuteCommands rest timeout lg
        (mkSt w1 (trace s ++ begun
                  ++ outputLine lg (fst (Utils.classify cmd timeout raw))))
  end.
Proof.
  unfold nonblank. intros Hnb. cbn [Utils.ExecuteCommands].
  destruct (String.eqb (GoLib.TrimSpace cmd) ""); [discriminate|].
  unfold Utils.ExecuteCommand, Utils.Info, Utils.Error, Utils.Debug,
    outputLine.
  unfold bind, call, emit, ret. cbn [world trace].
  destruct (sh_run cmd timeout (world s)) as [raw w1].
  cbn [fst snd world trace].
  destruct (snd (Utils.classify cmd timeout raw)).
  - cbn [world trace]. rewrite <- !app_assoc. reflexivity.
  - destruct (String.eqb (GoLib.TrimSpace
                            (fst (Utils.classify cmd timeout raw))) "");
      cbn [negb world trace]; rewrite <- ?app_assoc;
      cbn [app]; rewrite ?app_nil_r; reflexivity.
Qed.

Lemma outputLine_execs lg out : execs (outputLine lg out) = [].
Proof. unfold outputLine. destruct (negb _); reflexivity. Qed.

Lemma ExecuteCommands_prefix (commands : list string) (timeout : Z)
      (lg : Logger) :
  forall s : St W,
  exists new rest,
    trace (snd (Utils.ExecuteCommands commands timeout lg s))
    = (trace s ++ new)%list /\
    filter nonblank commands = (spawned new ++ rest)%list /\
    Forall (fun x => snd (fst x) = timeout) (execs new) /\
    match fst (Utils.ExecuteCommands commands timeout lg s) with
    | None => rest = [] /\ Forall succeeded (execs new)
    | Some e =>
        exists done c raw,
          execs new = (done ++ [(c, timeout, raw)])%list /\
          Forall succeeded done /\
          snd (Utils.classify c timeout raw) = Some e
    end.
Proof.
  induction commands as [|cmd rest IH]; intros s.
  - exists [], []. simpl. rewrite app_nil_r. repeat split; constructor.
  - destruct (nonblank cmd) eqn:Eb.
    2:{ cbn [filter]. rewrite Eb.
        replace (Utils.ExecuteCommands (cmd :: rest) timeout lg s)
          with (Utils.ExecuteCommands rest timeout lg s); [apply IH|].
        cbn [Utils.ExecuteCommands]. unfold nonblank in Eb.
        destruct (String.eqb (GoLib.TrimSpace cmd) "");
          [reflexivity | discriminate]. }
    rewrite (ExecuteCommands_cons _ _ _ _ _ Eb). cbn zeta.
    cbn [filter]. rewrite Eb.
    set (raw := fst (sh_run cmd timeout (world s))).
    set (w1 := snd (sh_run cmd timeout (world s))).
    destruct (snd (Utils.classify cmd timeout raw)) as [e|] eqn:Ec.
    + eexists; exists (filter nonblank rest). cbn [snd fst trace].
      split; [reflexivity|]. cbn. repeat split.
      * repeat constructor.
      * exists [], cmd, raw. repeat split; [constructor | exact Ec].
    + match goal with
      | |- context [Utils.ExecuteCommands rest timeout lg ?st] =>
          destruct (IH st) as (new & rest' & Ht & Hf & Hto & Hres);
          set (s2 := st) in *
      end.
      exists ([EvLog lg LInfo "Executing command: %s" [AStr cmd];
               EvExec cmd timeout raw]
              ++ outputLine lg (fst (Utils.classify cmd timeout raw))
              ++ new)%list, rest'.
      assert (He : execs ([EvLog lg LInfo "Executing command: %s" [AStr cmd];
                           EvExec cmd timeout raw]
                          ++ outputLine lg
                               (fst (Utils.classify cmd timeout raw))
                          ++ new)
                   = (cmd, timeout, raw) :: execs new).
      { cbn. rewrite execs_app, outputLine_execs. reflexivity. }
      split; [|split; [|split]].
      * rewrite Ht. unfold s2. cbn [trace].
        rewrite <- !app_assoc. reflexivity.
      * unfold spawned. rewrite He. cbn. f_equal. exact Hf.
      * rewrite He. constructor; [reflexivity | exact Hto].
      * rewrite He.
        destruct (fst (Utils.ExecuteCommands rest timeout lg s2)) as [e|].
        -- destruct Hres as (done & c & r & Hd & Hok & Hc).
           exists ((cmd, timeout, raw) :: done), c, r.
           rewrite Hd.
           split; [reflexivity | split; [| exact Hc]].
           constructor; [exact Ec | exact Hok].
        -- destruct Hres as [Hr Hok]. split; [exact Hr|].
           constructor; [exact Ec | exact Hok].
Qed.

End Executor.

(** C10. When the deadline of the context is exceeded, [ExecuteCommand]
    returns the empty string with the time-out error, whatever output
    was captured before the deadline; when the deadline is not exceeded
    and the run ends with an error (a non-zero exit status), it returns
    the captured combined output together with the failure. *)
Theorem ExecuteCommand_timeout_drops_output :
  forall (W : Type) (HW : Host W) (command : string) (timeout : Z)
         (s : St W),
    let raw := fst (sh_run command timeout (world s)) in
    (run_deadline raw = true ->
     fst (Utils.ExecuteCommand command timeout s)
     = ("", Some (Errorf "command timed out after %v: %s"
                         [ADur timeout; AStr command]))) /\
    (run_deadline raw = false ->
     forall e, run_err raw = Some e ->
     fst (Utils.ExecuteCommand command timeout s)
     = (run_output raw,
        Some (Errorf "command failed: %s, output: %s"
                     [AStr e; AStr (run_output raw)]))).
Proof.
  intros W HW command timeout s raw.
  rewrite ExecuteCommand_run. fold raw. cbn [fst].
  unfold Utils.classify. split.
  - intros Hd. rewrite Hd. reflexivity.
  - intros Hd e He. rewrite Hd, He. reflexivity.
Qed.

(** A command that hangs prints ["partial"] before it is killed; a
    command that fails prints ["boom"]. *)
Lemma ExecuteCommand_timeout_drops_output_witness :
  fst (Utils.ExecuteCommand "sleep 5" GoLib.Second
         (Sim.start (Sim.mkWorld [] [] ["sleep 5"] true true [] false 0 [] false)))
  = ("", Some (Errorf "command timed out after %v: %s"
                      [ADur GoLib.Second; AStr "sleep 5"]))
  /\
  fst (Utils.ExecuteCommand "false" GoLib.Second
         (Sim.start (Sim.mkWorld [] ["false"] [] true true [] false 0 [] false)))
  = ("boom", Some (Errorf "command failed: %s, output: %s"
                          [AStr "exit status 1"; AStr "boom"])).
Proof.
  split.
  - apply (proj1 (ExecuteCommand_timeout_drops_output
                    Sim.World Sim.host "sleep 5" GoLib.Second
                    (Sim.start (Sim.mkWorld [] [] ["sleep 5"] true true []
                                            false 0 [] false)))).
    reflexivity.
  - apply (proj2 (ExecuteCommand_timeout_drops_output
                    Sim.World Sim.host "false" GoLib.Second
                    (Sim.start (Sim.mkWorld [] ["false"] [] true true []
                                            false 0 [] false)))
                 eq_refl "exit status 1" eq_refl).
Defined.

(** C5. [ExecuteCommands] skips the commands that are blank after
    [strings.TrimSpace] and spawns the others in list order, each with
    the given timeout.  The processes it spawned are a prefix of the
    non-blank commands: the whole of them, all successful, when it
    returns [nil]; up to the first one that failed when it returns an
    error, and that error is the failure of the last process spawned.
    For the empty list, and for a list of blank commands only, it
    returns [nil] and leaves the state untouched: no process and no log
    line. *)
Theorem ExecuteCommands_sequential_fail_fast :
  forall (W : Type) (HW : Host W) (commands : list string) (timeout : Z)
         (lg : Logger) (s : St W),
    (filter nonblank commands = [] ->
     Utils.ExecuteCommands commands timeout lg s = (None, s)) /\
    exists new rest,
      trace (snd (Utils.ExecuteCommands commands timeout lg s))
      = (trace s ++ new)%list /\
      filter nonblank commands = (spawned new ++ rest)%list /\
      Forall (fun x => snd (fst x) = timeout) (execs new) /\
      match fst (Utils.ExecuteCommands commands timeout lg s) with
      | None => rest = [] /\ Forall succeeded (execs new)
      | Some e =>
          exists done c raw,
            execs new = (done ++ [(c, timeout, raw)])%list /\
            Forall succeeded done /\
            snd (Utils.classify c timeout raw) = Some e
      end.
Proof.
  intros W HW commands timeout lg s. split.
  - apply ExecuteCommands_blank.
  - apply ExecuteCommands_prefix.
Qed.

Lemma ExecuteCommands_sequential_fail_fast_witness :
  filter nonblank [""; "   "] = [] /\
  Utils.ExecuteCommands [""; "   "] (5 * GoLib.Minute) Sim.info
                        (Sim.start Sim.idle)
  = (None, Sim.start Sim.idle).
Proof.
  split; [reflexivity|].
  apply (proj1 (ExecuteCommands_sequential_fail_fast
                  Sim.World Sim.host [""; "   "] (5 * GoLib.Minute)
                  Sim.info (Sim.start Sim.idle))).
  reflexivity.
Defined.

(** A hook set whose second command fails: the third is never spawned. *)
Example ExecuteCommands_stops :
  let w := Sim.mkWorld [] ["make test"] [] true true [] false 0 [] false in
  let run := Utils.ExecuteCommands ["echo start"; " "; "make test"; "echo done"]
               (5 * GoLib.Minute) Sim.info (Sim.start w) in
  spawned (trace (snd run)) = ["echo start"; "make test"] /\
  fst run = Some (Errorf "command failed: %s, output: %s"
                         [AStr "exit status 1"; AStr "boom"]).
Proof. split; reflexivity. Qed.

(** ** The run command of the watcher *)

Lemma append_assoc (a b c : string) :
  ((a ++ b) ++ c = a ++ (b ++ c))%string.
Proof. induction a as [|x a IH]; simpl; [reflexivity | rewrite IH; reflexivity]. Qed.

(** A field without a space, followed by a space, is the first word. *)
Lemma words_field (x y : string) :
  has_space x = false ->
  words (x ++ String " " y) = x :: words y.
Proof.
  induction x as [|a x IH]; simpl; intros Hx; [reflexivity|].
  apply orb_false_iff in Hx. destruct Hx as [Ha Hx].
  rewrite Ha, (IH Hx). reflexivity.
Qed.

Lemma words_last (x : string) : has_space x = false -> words x = [x].
Proof.
  induction x as [|a x IH]; simpl; intros Hx; [reflexivity|].
  apply orb_false_iff in Hx. destruct Hx as [Ha Hx].
  rewrite Ha, (IH Hx). reflexivity.
Qed.

Lemma words_before_spaced (x t : string) :
  has_space x = false -> spaced t ->
  words (x ++ t) = x :: tl (words t).
Proof.
  intros Hx [y ->]. rewrite (words_field x y Hx). reflexivity.
Qed.

Lemma writeEach_spaced (g : string) (xs : list string) (t : string) :
  spaced t -> spaced (Watcher.writeEach (String " " g) xs ++ t).
Proof.
  intros Ht. destruct xs as [|v xs]; [exact Ht|].
  simpl. eexists. reflexivity.
Qed.

(** The flags of a list, each with its value, before what follows. *)
Lemma words_writeEach (f : string) (xs : list string) (t : string) :
  has_space f = false ->
  Forall (fun v => has_space v = false) xs ->
  spaced t ->
  tl (words (Watcher.writeEach (String " " (f ++ " ")) xs ++ t))
  = (flagged f xs ++ tl (words t))%list.
Proof.
  intros Hf Hxs Ht.
  induction Hxs as [|v xs Hv Hxs IH]; [reflexivity|].
  cbn [Watcher.writeEach flagged flat_map].
  replace ((String " " (f ++ " ") ++ v
            ++ Watcher.writeEach (String " " (f ++ " ")) xs) ++ t)%string
    with (String " " (f ++ String " "
            (v ++ (Watcher.writeEach (String " " (f ++ " ")) xs ++ t))))%string.
  2:{ cbn [append]. f_equal. rewrite !append_assoc. reflexivity. }
  change (words (String " " ?r)) with (EmptyString :: words r).
  cbn [tl]. rewrite (words_field f _ Hf).
  rewrite (words_before_spaced v _ Hv (writeEach_spaced _ _ _ Ht)).
  rewrite IH. reflexivity.
Qed.

Lemma buildDockerRunCommand_words (w : Watcher.Watcher) :
  space_free (Watcher.config w) ->
  words (Watcher.buildDockerRunCommand w) = runArgv (Watcher.config w).
Proof.
  intros (Hn & Hr & Hp & He & Hv).
  unfold Watcher.buildDockerRunCommand, runArgv,
    Watcher.extractImageNameFromTarball.
  set (N := ContainerName (Watcher.config w)) in *.
  set (R := RestartPolicy (Watcher.config w)) in *.
  set (tail := (Watcher.writeEach " -p " (ContainerPort (Watcher.config w))
                ++ Watcher.writeEach " -e " (ContainerEnv (Watcher.config w))
                ++ Watcher.writeEach " -v " (ContainerVolumes (Watcher.config w))
                ++ " " ++ N)%string).
  assert (Hlast : spaced (" " ++ N)%string) by (eexists; reflexivity).
  assert (Htail : spaced tail).
  { unfold tail. repeat apply writeEach_spaced. exact Hlast. }
  assert (Hw : tl (words tail)
               = (flagged "-p" (ContainerPort (Watcher.config w))
                  ++ flagged "-e" (ContainerEnv (Watcher.config w))
                  ++ flagged "-v" (ContainerVolumes (Watcher.config w))
                  ++ [N])%list).
  { unfold tail.
    rewrite (words_writeEach "-p" _ _ eq_refl Hp)
      by (repeat apply writeEach_spaced; exact Hlast).
    rewrite (words_writeEach "-e" _ _ eq_refl He)
      by (repeat apply writeEach_spaced; exact Hlast).
    rewrite (words_writeEach "-v" _ _ eq_refl Hv) by exact Hlast.
    cbn [append]. change (words (String " " N)) with (EmptyString :: words N).
    cbn [tl]. rewrite (words_last N Hn). reflexivity. }
  change ("docker run -d" ++ (" --name " ++ N)
          ++ (if negb (R =? "")%string then " --restart " ++ R else "")
          ++ tail)%string
    with ("docker" ++ String " " ("run" ++ String " " ("-d" ++ String " "
            ("--name" ++ String " " (N ++
               (if negb (R =? "")%string then " --restart " ++ R else "")
               ++ tail)))))%string.
  rewrite !words_field by reflexivity.
  cbn [app]. do 4 f_equal.
  destruct (String.eqb R "") eqn:ER; cbn [negb].
  - cbn [append]. rewrite (words_before_spaced N tail Hn Htail), Hw.
    reflexivity.
  - replace ((" --restart " ++ R) ++ tail)%string
      with (String " " ("--restart" ++ String " " (R ++ tail)))%string.
    2:{ cbn [append]. rewrite ?append_assoc. reflexivity. }
    rewrite (words_field N _ Hn).
    rewrite (words_field "--restart" _ eq_refl).
    rewrite (words_before_spaced R tail Hr Htail), Hw. reflexivity.
Qed.

Lemma append_nil_r (a : string) : (a ++ "")%string = a.
Proof. induction a as [|x a IH]; simpl; [reflexivity | rewrite IH; reflexivity]. Qed.

Lemma writeEach_concat (flag : string) (xs : list string) :
  Watcher.writeEach flag xs = String.concat "" (map (append flag) xs).
Proof.
  induction xs as [|x xs IH]; [reflexivity|].
  cbn [Watcher.writeEach map String.concat]. rewrite IH.
  destruct (map (append flag) xs) eqn:E.
  - cbn [String.concat]. rewrite append_nil_r. reflexivity.
  - cbn [append]. rewrite append_assoc. reflexivity.
Qed.

Section StartContainer.
Context {W : Type} `{Host W}.

Lemma startContainer_run (w : Watcher.Watcher) (s : St W) :
  let cmd := Watcher.buildDockerRunCommand w in
  let raw := fst (sh_run cmd (2 * GoLib.Minute) (world s)) in
  execs (since s (snd (Watcher.startContainer w s)))
  = [(cmd, 2 * GoLib.Minute, raw)] /\
  fst (Watcher.startContainer w s)
  = snd (Utils.classify cmd (2 * GoLib.Minute) raw).
Proof.
  intros cmd raw.
  unfold Watcher.startContainer, Utils.ExecuteCommand, Utils.Info, Utils.Debug.
  unfold bind, call, emit, ret. cbn [world trace]. fold cmd.
  unfold raw. destruct (sh_run cmd (2 * GoLib.Minute) (world s)) as [r w1].
  cbn [fst snd world trace].
  destruct (snd (Utils.classify cmd (2 * GoLib.Minute) r));
    cbn [fst snd world trace]; unfold since; cbn [trace];
    rewrite <- !app_assoc;
    rewrite skipn_app, skipn_all, Nat.sub_diag; split; reflexivity.
Qed.

End StartContainer.

(** ** The run command, read by the shell and by the runtime *)

Lemma plain_is_no_blank (a : ascii) :
  Sh.plain a = true -> Ascii.eqb a " " = false /\ Sh.blank a = false.
Proof.
  intros Hp. destruct a as [[] [] [] [] [] [] [] []]; vm_compute in Hp;
    first [discriminate Hp | split; reflexivity].
Qed.

Lemma plain_has_no_space (v : string) :
  Sh.all Sh.plain v = true -> has_space v = false.
Proof.
  induction v as [|a v IH]; cbn [Sh.all has_space]; [reflexivity|].
  intros Hv. apply andb_prop in Hv. destruct Hv as [Ha Hv].
  rewrite (proj1 (plain_is_no_blank a Ha)), (IH Hv). reflexivity.
Qed.

Lemma word_ok_parts (v : string) :
  word_ok v = true ->
  v <> "" /\ Sh.all Sh.plain v = true /\ Docker.dashed v = false.
Proof.
  unfold word_ok. intros Hv. apply andb_prop in Hv. destruct Hv as [Hv Hd].
  apply andb_prop in Hv. destruct Hv as [Hn Hp].
  split; [|split].
  - intros ->. discriminate Hn.
  - exact Hp.
  - apply negb_true_iff. exact Hd.
Qed.

Lemma plain_space_free (c : WatcherConfig) : plain_config c -> space_free c.
Proof.
  intros (Hn & Hr & Hp & He & Hv).
  assert (Hall : forall xs, Forall (fun x => word_ok x = true) xs ->
                            Forall (fun x => has_space x = false) xs).
  { intros xs Hxs. induction Hxs as [|x xs Hx _ IH]; constructor;
      [apply plain_has_no_space, (word_ok_parts x Hx) | exact IH]. }
  split; [apply plain_has_no_space, (word_ok_parts _ Hn)|].
  split; [destruct Hr as [->|Hr];
          [reflexivity | apply plain_has_no_space, (word_ok_parts _ Hr)]|].
  repeat split; apply Hall; assumption.
Qed.

(** On a text whose words are plain, the shell cuts where [words]
    cuts. *)
Lemma pieces_words (s : string) :
  forallb (Sh.all Sh.plain) (words s) = true ->
  Sh.pieces s = words s /\
  Sh.all (fun a => Sh.plain a || Sh.blank a) s = true.
Proof.
  induction s as [|a s IH]; [split; reflexivity|].
  cbn [words Sh.pieces Sh.all].
  destruct (Ascii.eqb a " ") eqn:Ea.
  - cbn [forallb Sh.all andb]. intros Hw. destruct (IH Hw) as [Hp Hs].
    assert (Hb : Sh.blank a = true)
      by (unfold Sh.blank; rewrite Ea; reflexivity).
    rewrite Hb, Hp, Hs, orb_true_r. split; reflexivity.
  - destruct (words s) as [|x xs] eqn:Ew.
    + cbn [forallb Sh.all]. intros Hw.
      rewrite andb_true_r in Hw. rewrite andb_true_r in Hw.
      destruct (IH eq_refl) as [Hp Hs].
      destruct (plain_is_no_blank a Hw) as [_ Hb].
      rewrite Hb, Hp, Hs, Hw. split; reflexivity.
    + cbn [forallb Sh.all]. intros Hw.
      apply andb_prop in Hw. destruct Hw as [Hax Hxs].
      apply andb_prop in Hax. destruct Hax as [Ha Hx].
      assert (Hw' : forallb (Sh.all Sh.plain) (x :: xs) = true)
        by (cbn [forallb]; rewrite Hx, Hxs; reflexivity).
      destruct (IH Hw') as [Hp Hs].
      destruct (plain_is_no_blank a Ha) as [_ Hb].
      rewrite Hb, Hp, Hs, Ha. split; reflexivity.
Qed.

Lemma filter_all {A} (p : A -> bool) (l : list A) :
  forallb p l = true -> filter p l = l.
Proof.
  induction l as [|x l IH]; cbn [forallb filter]; [reflexivity|].
  intros Hl. apply andb_prop in Hl. destruct Hl as [Hx Hl].
  rewrite Hx, (IH Hl). reflexivity.
Qed.

Lemma flagged_all (p : string -> bool) (f : string) (xs : list string) :
  p f = true -> Forall (fun x => p x = true) xs ->
  forallb p (flagged f xs) = true.
Proof.
  intros Hf Hxs. induction Hxs as [|x xs Hx _ IH]; [reflexivity|].
  change (flagged f (x :: xs)) with (f :: x :: flagged f xs).
  cbn [forallb]. rewrite Hf, Hx, IH. reflexivity.
Qed.

(** The values of a list, each after its option. *)
Lemma options_flagged (f : string) (xs rest : list string)
      (put : list string -> Docker.Request -> Docker.Request) :
  String.eqb f "-d" = false -> Docker.dashed f = true ->
  (forall v r, Docker.set f v r = Some (put [v] r)) ->
  (forall r, put [] r = r) ->
  (forall a b r, put b (put a r) = put (a ++ b)%list r) ->
  Forall (fun x => word_ok x = true) xs ->
  forall r,
    Docker.options (flagged f xs ++ rest) r = Docker.options rest (put xs r).
Proof.
  intros Hd Hf Hset Hnil Happ Hxs.
  induction Hxs as [|x xs Hx _ IH]; intros r.
  - cbn [flagged flat_map app]. rewrite Hnil. reflexivity.
  - change (flagged f (x :: xs) ++ rest)%list
      with (f :: x :: (flagged f xs ++ rest))%list.
    cbn [Docker.options].
    rewrite Hd, Hf, (proj2 (proj2 (word_ok_parts x Hx))), Hset.
    rewrite IH, Happ. reflexivity.
Qed.

Section RunCommand.
Variable w : Watcher.Watcher.
Let c := Watcher.config w.
Hypothesis Hplain : plain_config c.

Lemma runArgv_words_ok :
  forallb (fun v => negb (String.eqb v "") && Sh.all Sh.plain v) (runArgv c)
  = true.
Proof.
  destruct Hplain as (Hn & Hr & Hp & He & Hv).
  assert (Hok : forall v, word_ok v = true ->
                          negb (String.eqb v "") && Sh.all Sh.plain v = true).
  { intros v Hv'. unfold word_ok in Hv'. apply andb_prop in Hv'. tauto. }
  assert (Hall : forall xs, Forall (fun x => word_ok x = true) xs ->
                   Forall (fun x => negb (String.eqb x "")
                                    && Sh.all Sh.plain x = true) xs).
  { intros xs Hxs. induction Hxs; constructor; auto. }
  unfold runArgv. rewrite !forallb_app.
  rewrite (flagged_all _ "-p" _ eq_refl (Hall _ Hp)).
  rewrite (flagged_all _ "-e" _ eq_refl (Hall _ He)).
  rewrite (flagged_all _ "-v" _ eq_refl (Hall _ Hv)).
  cbn [forallb]. rewrite (Hok _ Hn).
  destruct (String.eqb (RestartPolicy c) "") eqn:Er.
  - reflexivity.
  - destruct Hr as [Hr|Hr]; [rewrite Hr in Er; discriminate Er|].
    cbn [forallb]. rewrite (Hok _ Hr). reflexivity.
Qed.

(** What the shell makes of the run command. *)
Lemma buildDockerRunCommand_argv :
  Sh.argv (Watcher.buildDockerRunCommand w) = Some (runArgv c).
Proof.
  pose proof (buildDockerRunCommand_words w (plain_space_free c Hplain))
    as Hw. fold c in Hw.
  pose proof runArgv_words_ok as Hok.
  assert (Hpl : forallb (Sh.all Sh.plain) (runArgv c) = true).
  { rewrite forallb_forall in *. intros v Hv.
    specialize (Hok v Hv). apply andb_prop in Hok. tauto. }
  assert (Hne : forallb (fun v => negb (String.eqb v "")) (runArgv c) = true).
  { rewrite forallb_forall in *. intros v Hv.
    specialize (Hok v Hv). apply andb_prop in Hok. tauto. }
  rewrite <- Hw in Hpl.
  destruct (pieces_words _ Hpl) as [Hp Hs].
  unfold Sh.argv, Sh.fields. rewrite Hs, Hp, Hw, (filter_all _ _ Hne).
  reflexivity.
Qed.

(** What the runtime makes of that argument vector. *)
Lemma runArgv_request : Docker.request (runArgv c) = Some (asked c).
Proof.
  destruct Hplain as (Hn & Hr & Hp & He & Hv).
  destruct (word_ok_parts _ Hn) as (_ & _ & HnD).
  unfold runArgv, Docker.request.
  cbn [app String.eqb Ascii.eqb Bool.eqb andb Docker.options Docker.dashed].
  rewrite HnD. cbn [Docker.set String.eqb Ascii.eqb Bool.eqb].
  assert (Htail :
            forall r,
              Docker.options
                (flagged "-p" (ContainerPort c)
                 ++ flagged "-e" (ContainerEnv c)
                 ++ flagged "-v" (ContainerVolumes c)
                 ++ [ContainerName c]) r
              = Some (Docker.mkRequest
                        (Docker.detach r) (Docker.name r) (Docker.restart r)
                        (Docker.publish r ++ ContainerPort c)
                        (Docker.env r ++ ContainerEnv c)
                        (Docker.volume r ++ ContainerVolumes c)
                        (ContainerName c) [])).
  { intros r.
    rewrite (options_flagged "-p" _ _
               (fun xs r => Docker.mkRequest
                              (Docker.detach r) (Docker.name r)
                              (Docker.restart r) (Docker.publish r ++ xs)
                              (Docker.env r) (Docker.volume r)
                              (Docker.image r) (Docker.command r)));
      [| reflexivity | reflexivity | reflexivity
       | intros [? ? ? ? ? ? ? ?]; cbn; rewrite app_nil_r; reflexivity
       | intros a b [? ? ? ? ? ? ? ?]; cbn; rewrite app_assoc; reflexivity
       | exact Hp].
    rewrite (options_flagged "-e" _ _
               (fun xs r => Docker.mkRequest
                              (Docker.detach r) (Docker.name r)
                              (Docker.restart r) (Docker.publish r)
                              (Docker.env r ++ xs) (Docker.volume r)
                              (Docker.image r) (Docker.command r)));
      [| reflexivity | reflexivity | reflexivity
       | intros [? ? ? ? ? ? ? ?]; cbn; rewrite app_nil_r; reflexivity
       | intros a b [? ? ? ? ? ? ? ?]; cbn; rewrite app_assoc; reflexivity
       | exact He].
    rewrite (options_flagged "-v" _ _
               (fun xs r => Docker.mkRequest
                              (Docker.detach r) (Docker.name r)
                              (Docker.restart r) (Docker.publish r)
                              (Docker.env r) (Docker.volume r ++ xs)
                              (Docker.image r) (Docker.command r)));
      [| reflexivity | reflexivity | reflexivity
       | intros [? ? ? ? ? ? ? ?]; cbn; rewrite app_nil_r; reflexivity
       | intros a b [? ? ? ? ? ? ? ?]; cbn; rewrite app_assoc; reflexivity
       | exact Hv].
    cbn [Docker.options].
    rewrite (String.eqb_sym (ContainerName c) "-d").
    destruct (String.eqb "-d" (ContainerName c)) eqn:Ed.
    - apply String.eqb_eq in Ed. rewrite <- Ed in HnD. discriminate HnD.
    - rewrite HnD. reflexivity. }
  unfold asked.
  destruct (String.eqb (RestartPolicy c) "") eqn:Er.
  - cbn [app]. rewrite Htail. reflexivity.
  - destruct Hr as [Hr|Hr]; [rewrite Hr in Er; discriminate Er|].
    destruct (word_ok_parts _ Hr) as (_ & _ & HrD).
    cbn [app Docker.options String.eqb Ascii.eqb Bool.eqb Docker.dashed].
    rewrite HrD. cbn [Docker.set String.eqb Ascii.eqb Bool.eqb].
    rewrite Htail. reflexivity.
Qed.

End RunCommand.

Section StartedInstance.
Context {W : Type} `{Host W}.

(** The container-start step changes the world by its one process. *)
Lemma startContainer_world (w : Watcher.Watcher) (s : St W) :
  let cmd := Watcher.buildDockerRunCommand w in
  world (snd (Watcher.startContainer w s))
  = snd (sh_run cmd (2 * GoLib.Minute) (world s)) /\
  fst (Watcher.startContainer w s)
  = snd (Utils.classify cmd (2 * GoLib.Minute)
           (fst (sh_run cmd (2 * GoLib.Minute) (world s)))).
Proof.
  intros cmd.
  unfold Watcher.startContainer, Utils.ExecuteCommand, Utils.Info, Utils.Debug.
  unfold bind, call, emit, ret. cbn [world trace]. fold cmd.
  destruct (sh_run cmd (2 * GoLib.Minute) (world s)) as [r w1].
  cbn [fst snd world trace].
  destruct (snd (Utils.classify cmd (2 * GoLib.Minute) r));
    split; reflexivity.
Qed.

End StartedInstance.

(** The simulated runtime does what it is asked. *)
Lemma Runtime_creates : creates Runtime.instances.
Proof.
  intros text timeout w0 argv req Ha Hr Hok.
  cbn [sh_run Runtime.host] in *. unfold Runtime.run in *.
  rewrite Ha, Hr in *.
  destruct (Runtime.taken (Docker.name req) w0); [discriminate Hok|].
  cbn [snd]. unfold Runtime.instances. apply in_or_app. right. left.
  reflexivity.
Qed.

(** C3, as the code has it.  The container-start step spawns exactly
    one process, the run command, with a two-minute timeout, and fails
    exactly when that command fails.  The text of the command is ["docker run -d"],
    the configured container name after [--name], the configured restart
    policy after [--restart] (the flag is left out when the policy is
    the empty string), one [-p] per port mapping, one [-e] per
    environment binding and one [-v] per volume mapping, each list in
    configuration order, and last the image reference, which is the
    configured container name; the values stand in the text as they are,
    unquoted.  When every configured value is a non-empty word of plain
    characters that does not begin with a dash, the shell hands the
    runtime exactly these words as argument vector and the runtime reads
    them as the request for the instance the configuration describes:
    the configured name, restart policy and bindings, and nothing else.
    So, on a host whose runtime creates what it is asked, after a
    successful start the instance with the configured name exists with
    exactly those bindings and restart policy. *)
Theorem startContainer_run_command :
  forall (W : Type) (HW : Host W) (w : Watcher.Watcher) (s : St W),
    let c := Watcher.config w in
    let cmd := Watcher.buildDockerRunCommand w in
    (cmd = "docker run -d --name " ++ ContainerName c
           ++ (if String.eqb (RestartPolicy c) "" then ""
               else " --restart " ++ RestartPolicy c)
           ++ String.concat "" (map (append " -p ") (ContainerPort c))
           ++ String.concat "" (map (append " -e ") (ContainerEnv c))
           ++ String.concat "" (map (append " -v ") (ContainerVolumes c))
           ++ " " ++ Watcher.extractImageNameFromTarball w)%string /\
    Watcher.extractImageNameFromTarball w = ContainerName c /\
    (exists raw,
        execs (since s (snd (Watcher.startContainer w s)))
        = [(cmd, 2 * GoLib.Minute, raw)] /\
        fst (Watcher.startContainer w s)
        = snd (Utils.classify cmd (2 * GoLib.Minute) raw)) /\
    (plain_config c ->
     Sh.argv cmd = Some (runArgv c) /\
     Docker.request (runArgv c) = Some (asked c)) /\
    (forall instances : W -> list Docker.Request,
        creates instances ->
        plain_config c ->
        fst (Watcher.startContainer w s) = None ->
        In (asked c) (instances (world (snd (Watcher.startContainer w s))))).
Proof.
  intros W HW w s c cmd.
  split; [|split; [|split; [|split]]].
  - unfold cmd, Watcher.buildDockerRunCommand. fold c.
    rewrite <- !writeEach_concat.
    destruct (String.eqb (RestartPolicy c) ""); reflexivity.
  - reflexivity.
  - eexists. apply startContainer_run.
  - intros Hplain. split.
    + apply buildDockerRunCommand_argv. exact Hplain.
    + apply runArgv_request. exact Hplain.
  - intros instances Hcreates Hplain Hnil.
    destruct (startContainer_world w s) as [Hw Hr]. fold cmd in Hw, Hr.
    rewrite Hw. rewrite Hr in Hnil.
    apply (Hcreates cmd (2 * GoLib.Minute) (world s) (runArgv c) (asked c)).
    + apply buildDockerRunCommand_argv. exact Hplain.
    + apply runArgv_request. exact Hplain.
    + exact Hnil.
Qed.

(** The sample application on a runtime with no instance yet. *)
Lemma startContainer_run_command_witness :
  let w := Watcher.mkWatcher
             (mkWatcherConfig "/opt/docker-uploads" "web" ["8080:80"]
                              ["NODE_ENV=production"] ["/srv/data:/data"]
                              [] [] "unless-stopped") Sim.info in
  let run := Watcher.startContainer w (Runtime.start []) in
  plain_config (Watcher.config w) /\
  Sh.argv (Watcher.buildDockerRunCommand w)
  = Some ["docker"; "run"; "-d"; "--name"; "web"; "--restart";
          "unless-stopped"; "-p"; "8080:80"; "-e"; "NODE_ENV=production";
          "-v"; "/srv/data:/data"; "web"] /\
  In (Docker.mkRequest true (Some "web") (Some "unless-stopped") ["8080:80"]
                       ["NODE_ENV=production"] ["/srv/data:/data"] "web" [])
     (Runtime.instances (world (snd run))).
Proof.
  intros w run.
  assert (Hplain : plain_config (Watcher.config w)).
  { split; [reflexivity|]. split; [right; reflexivity|].
    repeat split; repeat constructor. }
  destruct (startContainer_run_command Runtime.World Runtime.host w
              (Runtime.start []))
    as (_ & _ & _ & Hread & Hexists).
  split; [exact Hplain|]. split.
  - exact (proj1 (Hread Hplain)).
  - exact (Hexists Runtime.instances Runtime_creates Hplain eq_refl).
Defined.

(** C3, as the claim states it, fails: an environment binding with a
    space in its value.  The start succeeds on a runtime that creates
    what it is asked, and the instance it leaves has another binding,
    another image and a command: not the instance of the
    configuration. *)
Lemma startContainer_splits_values :
  let c := mkWatcherConfig "/opt/docker-uploads" "web" ["8080:80"]
                           ["GREETING=hello world"] [] [] []
                           "unless-stopped" in
  let w := Watcher.mkWatcher c Sim.info in
  let run := Watcher.startContainer w (Runtime.start []) in
  creates Runtime.instances /\
  fst run = None /\
  Runtime.instances (world (snd run))
  = [Docker.mkRequest true (Some "web") (Some "unless-stopped") ["8080:80"]
                      ["GREETING=hello"] [] "world" ["web"]] /\
  ~ In (asked c) (Runtime.instances (world (snd run))).
Proof.
  intros c w run. split; [exact Runtime_creates|].
  split; [vm_compute; reflexivity|].
  split; [vm_compute; reflexivity|].
  vm_compute. intros [Hin|[]]. discriminate Hin.
Qed.

(** The same with a tab, which is no space: one configured value, two
    words for the runtime. *)
Example startContainer_splits_at_tab :
  let tab := String (ascii_of_N 9) EmptyString in
  let c := mkWatcherConfig "/opt/docker-uploads" "web" []
                           ["A=1" ++ tab ++ "B=2"] [] [] [] "" in
  space_free c /\
  Sh.argv (Watcher.buildDockerRunCommand (Watcher.mkWatcher c Sim.info))
  = Some ["docker"; "run"; "-d"; "--name"; "web"; "-e"; "A=1"; "B=2"; "web"].
Proof.
  intros tab c. split; [repeat split; repeat constructor | reflexivity].
Qed.

(** ** The reconciliation loop *)

Lemma since_app {W : Type} (s s' : St W) (new : list Event) :
  trace s' = (trace s ++ new)%list -> since s s' = new.
Proof.
  intros E. unfold since. rewrite E, skipn_app, skipn_all, Nat.sub_diag.
  reflexivity.
Qed.

Section Reconciliation.
Context {W : Type} `{Host W}.

Lemma local_any {A} (m : M W A) : Framed local_only m -> Framed any_call m.
Proof. apply framed_weaken. reflexivity. Qed.

Lemma local_keeps {A} (m : M W A) : Framed local_only m -> Framed not_removal m.
Proof. apply framed_weaken. intros ev; destruct ev; simpl; congruence. Qed.

Lemma executePreLoadCommands_framed w :
  Framed local_only (Watcher.executePreLoadCommands w).
Proof.
  unfold Watcher.executePreLoadCommands, Utils.Info.
  pose proof (ExecuteCommands_framed
                (PreLoadCommands (Watcher.config w)) (5 * GoLib.Minute)
                (Watcher.logger w)).
  destruct (PreLoadCommands (Watcher.config w)); framed.
Qed.

Lemma executePostLoadCommands_framed w :
  Framed local_only (Watcher.executePostLoadCommands w).
Proof.
  unfold Watcher.executePostLoadCommands, Utils.Info.
  pose proof (ExecuteCommands_framed
                (PostLoadCommands (Watcher.config w)) (5 * GoLib.Minute)
                (Watcher.logger w)).
  destruct (PostLoadCommands (Watcher.config w)); framed.
Qed.

Lemma loadDockerImage_framed w p :
  Framed local_only (Watcher.loadDockerImage w p).
Proof.
  unfold Watcher.loadDockerImage, Utils.Info, Utils.Debug.
  pose proof ExecuteCommand_framed. framed.
Qed.

Lemma stopAndRemoveContainer_framed w :
  Framed local_only (Watcher.stopAndRemoveContainer w).
Proof.
  unfold Watcher.stopAndRemoveContainer, Utils.Info, Utils.Debug.
  pose proof ExecuteCommand_framed. framed.
Qed.

Lemma startContainer_framed w :
  Framed local_only (Watcher.startContainer w).
Proof.
  unfold Watcher.startContainer, Utils.Info, Utils.Debug.
  pose proof ExecuteCommand_framed. framed.
Qed.

Lemma cleanupTarball_framed w p :
  Framed any_call (Watcher.cleanupTarball w p).
Proof. unfold Watcher.cleanupTarball, Utils.Info. framed. Qed.

Lemma finishCycle_framed w p : Framed any_call (Watcher.finishCycle w p).
Proof.
  unfold Watcher.finishCycle, Utils.Info, Utils.Warn.
  pose proof (local_any _ (executePostLoadCommands_framed w)).
  pose proof (cleanupTarball_framed w p).
  framed.
Qed.

Lemma deployCycle_framed w p : Framed any_call (Watcher.deployCycle w p).
Proof.
  unfold Watcher.deployCycle, Utils.Warn.
  pose proof (local_any _ (executePreLoadCommands_framed w)).
  pose proof (local_any _ (loadDockerImage_framed w p)).
  pose proof (local_any _ (stopAndRemoveContainer_framed w)).
  pose proof (local_any _ (startContainer_framed w)).
  pose proof (finishCycle_framed w p).
  framed.
Qed.

Lemma processTarball_framed w p : Framed any_call (Watcher.processTarball w p).
Proof.
  unfold Watcher.processTarball, Utils.FileExists, Utils.GetFileSize,
    Utils.Info, Utils.Warn.
  pose proof (deployCycle_framed w p).
  framed.
Qed.

End Reconciliation.

Section FileEvents.
Context {W : Type} `{Host W}.

Lemma handleFileEvent_triggered (w : Watcher.Watcher) (name : string)
      (op : Z) (s : St W) :
  GoLib.HasSuffix name ".tar" = true ->
  triggers op = true ->
  Watcher.handleFileEvent w (Watcher.mkFsEvent name op) s
  = (tt, mkSt (fst (arrival w name (world s)))
              (trace s
               ++ [EvLog (Watcher.logger w) LDebug "File event: %s %s"
                         [AOp op; AStr name]]
               ++ snd (arrival w name (world s)))).
Proof.
  intros Hs Ht. unfold Watcher.handleFileEvent, arrival.
  cbn [Watcher.Name Watcher.Op]. rewrite Hs. cbn [negb].
  unfold triggers in Ht.
  unfold Utils.Debug, Utils.Info, Utils.Error.
  unfold bind at 1. unfold emit at 1. rewrite Ht.
  unfold bind at 1. unfold emit at 1. cbn [world trace].
  unfold bind at 1. unfold call at 1. cbn [world trace].
  destruct (time_Sleep (2 * GoLib.Second) (world s)) as [[] w1].
  cbn [fst snd].
  destruct (framed_run any_call (Watcher.processTarball w name)
                       (mkSt w1 []) (processTarball_framed w name))
    as (new & Hnew & _ & Hrun).
  cbn [world trace app] in Hnew, Hrun.
  unfold bind. rewrite Hrun. rewrite Hnew.
  destruct (fst (Watcher.processTarball w name (mkSt w1 []))).
  - unfold emit. cbn [world trace fst snd]. rewrite <- !app_assoc.
    reflexivity.
  - unfold ret. cbn [fst snd]. rewrite <- !app_assoc, app_nil_r.
    reflexivity.
Qed.

End FileEvents.

(** C7. An event whose path does not end in [".tar"] changes nothing:
    no call is made, not even to the logger.  For a path that ends in
    [".tar"], an event with neither the created nor the written bit only
    produces the debug line of the event.  An event with the created or
    the written bit goes on to the announcement, the two-second wait and
    [processTarball] on the path; what it does after the debug line, and
    the world it leaves, are the same for every such operation. *)
Theorem handleFileEvent_filters :
  forall (W : Type) (HW : Host W) (w : Watcher.Watcher) (name : string)
         (op : Z) (s : St W),
    (GoLib.HasSuffix name ".tar" = false ->
     Watcher.handleFileEvent w (Watcher.mkFsEvent name op) s = (tt, s)) /\
    (GoLib.HasSuffix name ".tar" = true -> triggers op = false ->
     Watcher.handleFileEvent w (Watcher.mkFsEvent name op) s
     = (tt, mkSt (world s)
                 (trace s ++ [EvLog (Watcher.logger w) LDebug
                                    "File event: %s %s"
                                    [AOp op; AStr name]]))) /\
    (GoLib.HasSuffix name ".tar" = true ->
     exists w' cycle,
       (w', cycle) = arrival w name (world s) /\
       forall op', triggers op' = true ->
         Watcher.handleFileEvent w (Watcher.mkFsEvent name op') s
         = (tt, mkSt w' (trace s
                         ++ [EvLog (Watcher.logger w) LDebug
                                   "File event: %s %s" [AOp op'; AStr name]]
                         ++ cycle))).
Proof.
  intros W HW w name op s. split; [|split].
  - intros Hs. unfold Watcher.handleFileEvent. cbn [Watcher.Name].
    rewrite Hs. reflexivity.
  - intros Hs Ht. unfold Watcher.handleFileEvent, triggers in *.
    cbn [Watcher.Name Watcher.Op]. rewrite Hs. cbn [negb].
    unfold bind, Utils.Debug, emit. rewrite Ht. reflexivity.
  - intros Hs.
    exists (fst (arrival w name (world s))), (snd (arrival w name (world s))).
    split; [destruct (arrival w name (world s)); reflexivity|].
    intros op' Ht. apply handleFileEvent_triggered; assumption.
Qed.

(** A text file that appears in the watched directory is ignored; an
    archive that is removed only shows in the debug line. *)
Lemma handleFileEvent_filters_witness :
  let w := Watcher.mkWatcher
             (mkWatcherConfig "/opt/docker-uploads" "web" ["8080:80"] [] []
                              ["echo pre"] ["echo post"] "unless-stopped")
             Sim.info in
  Watcher.handleFileEvent w
    (Watcher.mkFsEvent "/opt/docker-uploads/notes.txt" GoLib.Create)
    (Sim.start Sim.idle)
  = (tt, Sim.start Sim.idle) /\
  Watcher.handleFileEvent w
    (Watcher.mkFsEvent "/opt/docker-uploads/web.tar" GoLib.Remove)
    (Sim.start Sim.idle)
  = (tt, mkSt Sim.idle
              [EvLog Sim.info LDebug "File event: %s %s"
                     [AOp GoLib.Remove; AStr "/opt/docker-uploads/web.tar"]]).
Proof.
  intros w. split.
  - apply (proj1 (handleFileEvent_filters Sim.World Sim.host w
                    "/opt/docker-uploads/notes.txt" GoLib.Create
                    (Sim.start Sim.idle))).
    reflexivity.
  - apply (proj1 (proj2 (handleFileEvent_filters Sim.World Sim.host w
                           "/opt/docker-uploads/web.tar" GoLib.Remove
                           (Sim.start Sim.idle)))); reflexivity.
Defined.

(** An archive that is created and one that is written to: the same
    cycle, from the same calls. *)
Example created_and_written :
  let w := Watcher.mkWatcher
             (mkWatcherConfig "/opt/docker-uploads" "web" ["8080:80"] [] []
                              ["echo pre"] ["echo post"] "unless-stopped")
             Sim.info in
  let s := Sim.start (Sim.mkWorld
                        [("/opt/docker-uploads/web.tar", mkFileInfo 420 9)]
                        [] [] true true [] false 0 [] false) in
  let created := Watcher.handleFileEvent w
                   (Watcher.mkFsEvent "/opt/docker-uploads/web.tar"
                                      GoLib.Create) s in
  let written := Watcher.handleFileEvent w
                   (Watcher.mkFsEvent "/opt/docker-uploads/web.tar"
                                      GoLib.Write) s in
  tl (trace (snd created)) = tl (trace (snd written)) /\
  world (snd created) = world (snd written) /\
  spawned (trace (snd created))
  = ["echo pre"; "docker load -i /opt/docker-uploads/web.tar";
     "docker stop web"; "docker rm web";
     "docker run -d --name web --restart unless-stopped -p 8080:80 web";
     "echo post"] /\
  removals (trace (snd created)) = ["/opt/docker-uploads/web.tar"].
Proof. repeat split; vm_compute; reflexivity. Qed.

(** Of the five kinds of event, only the created and the written ones
    trigger a cycle. *)
Example triggers_kinds :
  map triggers [GoLib.Create; GoLib.Write; GoLib.Remove; GoLib.Rename;
                GoLib.Chmod; Z.lor GoLib.Write GoLib.Chmod]
  = [true; true; false; false; false; true].
Proof. reflexivity. Qed.

Section Cycle.
Context {W : Type} `{Host W}.

(** The entry of a cycle: the archive is looked up before anything is
    spawned or removed, and a missing archive ends the cycle there. *)
Lemma processTarball_entry (w : Watcher.Watcher) (p : string) (s0 : St W) :
  exists s1 new,
    trace s1 = (trace s0 ++ new)%list /\
    execs new = [] /\ removals new = [] /\
    match stats new with
    | (_, false) :: _ =>
        Watcher.processTarball w p s0
        = (Some (Errorf "tarball does not exist: %s" [AStr p]), s1)
    | _ => Watcher.processTarball w p s0 = Watcher.deployCycle w p s1
    end.
Proof.
  unfold Watcher.processTarball, Utils.FileExists, Utils.GetFileSize,
    Utils.Info, Utils.Warn.
  unfold bind, call, emit, ret. cbn [world trace].
  destruct (os_Stat p (world s0)) as [r1 w1] eqn:E1. cbn [world trace].
  destruct r1 as [fi|err]; cbn [Utils.found negb world trace].
  - destruct (os_Stat p w1) as [r2 w2] eqn:E2. cbn [world trace fst snd].
    destruct r2 as [fi2|err2]; cbn [fst snd world trace Utils.found];
      rewrite <- !app_assoc; cbn [app];
      match goal with
      | |- context [Watcher.deployCycle w p (mkSt ?ww (trace s0 ++ ?n))] =>
          exists (mkSt ww (trace s0 ++ n)), n
      end;
      cbn; repeat split; reflexivity.
  - rewrite <- !app_assoc; cbn [app].
    match goal with
    | |- context [(Some _, mkSt ?ww (trace s0 ++ ?n))] =>
        exists (mkSt ww (trace s0 ++ n)), n
    end.
    cbn. repeat split; reflexivity.
Qed.

Lemma stopAndRemoveContainer_nil (w : Watcher.Watcher) (s : St W) :
  fst (Watcher.stopAndRemoveContainer w s) = None.
Proof.
  unfold Watcher.stopAndRemoveContainer, Utils.ExecuteCommand, Utils.Info,
    Utils.Debug.
  unfold bind, call, emit, ret. cbn [world trace].
  destruct (sh_run _ _ (world s)) as [r1 w1]. cbn [fst snd world trace].
  destruct (snd (Utils.classify _ _ r1)); cbn [world trace];
    destruct (sh_run _ _ w1) as [r2 w2]; cbn [fst snd world trace];
    destruct (snd (Utils.classify _ _ r2)); reflexivity.
Qed.

(** Stop and remove are two processes, whatever the first one returns;
    a failure of either is handed to the logger at the debug level. *)
Lemma stopAndRemoveContainer_run (w : Watcher.Watcher) (s : St W) :
  let name := ContainerName (Watcher.config w) in
  let stop := ("docker stop " ++ name)%string in
  let rm := ("docker rm " ++ name)%string in
  let r1 := fst (sh_run stop (30 * GoLib.Second) (world s)) in
  let w1 := snd (sh_run stop (30 * GoLib.Second) (world s)) in
  let r2 := fst (sh_run rm (30 * GoLib.Second) w1) in
  let new := since s (snd (Watcher.stopAndRemoveContainer w s)) in
  execs new = [(stop, 30 * GoLib.Second, r1); (rm, 30 * GoLib.Second, r2)] /\
  (forall e, snd (Utils.classify stop (30 * GoLib.Second) r1) = Some e ->
     In (EvLog (Watcher.logger w) LDebug
               "Failed to stop container (may not exist): %v" [AErr e]) new) /\
  (forall e, snd (Utils.classify rm (30 * GoLib.Second) r2) = Some e ->
     In (EvLog (Watcher.logger w) LDebug
               "Failed to remove container (may not exist): %v" [AErr e]) new).
Proof.
  intros name stop rm r1 w1 r2 new. unfold new, r2, w1, r1. clear.
  unfold Watcher.stopAndRemoveContainer, Utils.ExecuteCommand, Utils.Info,
    Utils.Debug.
  unfold bind, call, emit, ret. cbn [world trace]. fold name. fold stop rm.
  destruct (sh_run stop _ (world s)) as [r1 w1]. cbn [fst snd world trace].
  destruct (snd (Utils.classify stop _ r1)) as [e1|]; cbn [world trace];
    destruct (sh_run rm _ w1) as [r2 w2]; cbn [fst snd world trace];
    destruct (snd (Utils.classify rm _ r2)) as [e2|]; cbn [snd world trace];
    (erewrite since_app by (cbn [trace]; rewrite <- !app_assoc; reflexivity));
    cbn; repeat split; intros e He; inversion He; subst; auto 10.
Qed.

(** The three fatal steps: the cycle returns the wrapped error in the
    state the failing step left, so that no later step runs. *)
Lemma deployCycle_fatal (w : Watcher.Watcher) (p : string) (s1 : St W) :
  (forall e s2,
     Watcher.executePreLoadCommands w s1 = (Some e, s2) ->
     Watcher.deployCycle w p s1
     = (Some (Errorf "pre-load commands failed: %w" [AErr e]), s2)) /\
  (forall s2 e s3,
     Watcher.executePreLoadCommands w s1 = (None, s2) ->
     Watcher.loadDockerImage w p s2 = (Some e, s3) ->
     Watcher.deployCycle w p s1
     = (Some (Errorf "failed to load Docker image: %w" [AErr e]), s3)) /\
  (forall s2 s3 r4 s4 e s5,
     Watcher.executePreLoadCommands w s1 = (None, s2) ->
     Watcher.loadDockerImage w p s2 = (None, s3) ->
     Watcher.stopAndRemoveContainer w s3 = (r4, s4) ->
     Watcher.startContainer w s4 = (Some e, s5) ->
     Watcher.deployCycle w p s1
     = (Some (Errorf "failed to start container: %w" [AErr e]), s5)).
Proof.
  unfold Watcher.deployCycle. repeat split.
  - intros e s2 H1. unfold bind. rewrite H1. reflexivity.
  - intros s2 e s3 H1 H2. unfold bind. rewrite H1, H2. reflexivity.
  - intros s2 s3 r4 s4 e s5 H1 H2 H3 H4.
    pose proof (stopAndRemoveContainer_nil w s3) as Hn.
    rewrite H3 in Hn. cbn in Hn. subst r4.
    unfold bind. rewrite H1, H2, H3. unfold ret. rewrite H4. reflexivity.
Qed.

(** Once the container has started, the cycle returns [nil] whatever
    the post-load hooks and the removal of the archive return; their
    failures are handed to the logger as warnings. *)
Lemma deployCycle_best_effort (w : Watcher.Watcher) (p : string)
      (s1 s2 s3 s4 s5 s6 s7 : St W) (r4 e5 e6 : option error) :
  Watcher.executePreLoadCommands w s1 = (None, s2) ->
  Watcher.loadDockerImage w p s2 = (None, s3) ->
  Watcher.stopAndRemoveContainer w s3 = (r4, s4) ->
  Watcher.startContainer w s4 = (None, s5) ->
  Watcher.executePostLoadCommands w s5 = (e5, s6) ->
  Watcher.cleanupTarball w p
    (warned (Watcher.logger w) "Post-load commands failed: %v" e5 s6)
  = (e6, s7) ->
  Watcher.deployCycle w p s1
  = (None,
     noted (Watcher.logger w) "Tarball processing completed successfully"
       (warned (Watcher.logger w) "Failed to cleanup tarball: %v" e6 s7)).
Proof.
  intros H1 H2 H3 H4 H5 H6.
  pose proof (stopAndRemoveContainer_nil w s3) as Hn.
  rewrite H3 in Hn. cbn in Hn. subst r4.
  unfold Watcher.deployCycle. unfold bind.
  rewrite H1, H2, H3. unfold ret. rewrite H4.
  unfold Watcher.finishCycle, bind. rewrite H5.
  unfold warned in *. unfold Utils.Warn, Utils.Info, emit, ret, noted.
  destruct e5; rewrite H6; destruct e6; reflexivity.
Qed.

(** After the start of the container the cycle spawns the post-load
    hooks and nothing else, and asks for one removal, the archive. *)
Lemma finish_spawns_hooks_only (w : Watcher.Watcher) (p : string)
      (s5 s6 s7 : St W) (e5 e6 : option error) :
  Watcher.executePostLoadCommands w s5 = (e5, s6) ->
  Watcher.cleanupTarball w p
    (warned (Watcher.logger w) "Post-load commands failed: %v" e5 s6)
  = (e6, s7) ->
  let final :=
    noted (Watcher.logger w) "Tarball processing completed successfully"
      (warned (Watcher.logger w) "Failed to cleanup tarball: %v" e6 s7) in
  spawned (since s5 final) = spawned (since s5 s6) /\
  (exists rest,
     filter nonblank (PostLoadCommands (Watcher.config w))
     = (spawned (since s5 s6) ++ rest)%list) /\
  removals (since s5 final) = [p].
Proof.
  intros H5 H6 final.
  destruct (framed_run _ _ s5 (executePostLoadCommands_framed w))
    as (n5 & Ht5 & Hq5 & _).
  rewrite H5 in Ht5. cbn [snd] in Ht5.
  assert (Ht7 : trace s7
                = (trace (warned (Watcher.logger w)
                            "Post-load commands failed: %v" e5 s6)
                   ++ [EvLog (Watcher.logger w) LInfo
                             "Cleaning up tarball: %s" [AStr p];
                       EvRemove p e6])%list).
  { revert H6. unfold Watcher.cleanupTarball, Utils.Info, bind, emit, call.
    cbn [world trace]. destruct (os_Remove p _) as [r w7].
    intros E. inversion E. subst. cbn [trace]. rewrite <- app_assoc.
    reflexivity. }
  assert (Hfinal : exists mid,
             trace final = (trace s5 ++ n5 ++ mid)%list /\
             execs mid = [] /\ removals mid = [p]).
  { unfold final, noted, warned in *.
    destruct e5, e6; cbn [trace world] in *; rewrite Ht7, Ht5;
      rewrite <- !app_assoc; eexists; (split; [reflexivity|]);
      split; reflexivity. }
  destruct Hfinal as (mid & Hf & Hm1 & Hm2).
  rewrite (since_app s5 final _ Hf), (since_app s5 s6 _ Ht5).
  split; [|split].
  - rewrite spawned_app. unfold spawned at 2. rewrite Hm1.
    cbn [map]. rewrite app_nil_r. reflexivity.
  - revert H5 Ht5. unfold Watcher.executePostLoadCommands.
    destruct (PostLoadCommands (Watcher.config w)) as [|c cs] eqn:Ec.
    + unfold ret. intros E Ht. inversion E; subst.
      exists []. cbn.
      assert (n5 = []) as ->.
      { apply (app_inv_head (trace s6)). rewrite app_nil_r. symmetry.
        exact Ht. }
      reflexivity.
    + unfold bind, Utils.Info, emit. intros E Ht.
      match type of E with
      | Utils.ExecuteCommands ?cmds ?t ?lg ?st = _ =>
          destruct (ExecuteCommands_prefix cmds t lg st)
            as (new & rest & Hn & Hfil & _)
      end.
      rewrite E in Hn. cbn [snd trace] in Hn.
      exists rest. rewrite Hfil. f_equal.
      rewrite Ht, <- app_assoc in Hn. apply app_inv_head in Hn.
      rewrite Hn. reflexivity.
  - rewrite removals_app, (removals_none n5), Hm2; [reflexivity|].
    rewrite forallb_forall in *. intros ev Hev.
    specialize (Hq5 ev Hev). destruct ev; simpl in *; congruence.
Qed.

End Cycle.

(** C1. A cycle first looks the archive up, spawning and removing
    nothing, and ends there with an error when it is missing.  From the
    pre-load hooks on: a failure of the pre-load hook set, of the image
    load or of the container start makes the cycle return that error,
    wrapped, in the very state the failing step left, so no later step
    runs.  Stop and remove never return an error: both commands are
    spawned whatever the first returns and a failure of either is handed
    to the logger at the debug level.  Once the container has started
    the cycle returns [nil] whatever the post-load hooks and the removal
    of the archive return; their failures are handed to the logger as
    warnings, the only processes spawned after the start are post-load
    hooks, and the only removal asked for is that of the archive. *)
Theorem processTarball_fatal_and_best_effort :
  forall (W : Type) (HW : Host W) (w : Watcher.Watcher) (p : string)
         (s0 : St W),
    (exists s1 new,
        trace s1 = (trace s0 ++ new)%list /\
        execs new = [] /\ removals new = [] /\
        match stats new with
        | (_, false) :: _ =>
            Watcher.processTarball w p s0
            = (Some (Errorf "tarball does not exist: %s" [AStr p]), s1)
        | _ => Watcher.processTarball w p s0 = Watcher.deployCycle w p s1
        end) /\
    (forall s1 : St W,
        (forall e s2,
            Watcher.executePreLoadCommands w s1 = (Some e, s2) ->
            Watcher.deployCycle w p s1
            = (Some (Errorf "pre-load commands failed: %w" [AErr e]), s2)) /\
        (forall s2 e s3,
            Watcher.executePreLoadCommands w s1 = (None, s2) ->
            Watcher.loadDockerImage w p s2 = (Some e, s3) ->
            Watcher.deployCycle w p s1
            = (Some (Errorf "failed to load Docker image: %w" [AErr e]), s3)) /\
        (forall s2 s3 r4 s4 e s5,
            Watcher.executePreLoadCommands w s1 = (None, s2) ->
            Watcher.loadDockerImage w p s2 = (None, s3) ->
            Watcher.stopAndRemoveContainer w s3 = (r4, s4) ->
            Watcher.startContainer w s4 = (Some e, s5) ->
            Watcher.deployCycle w p s1
            = (Some (Errorf "failed to start container: %w" [AErr e]), s5))) /\
    (forall (s1 s2 s3 s4 s5 s6 s7 : St W) (r4 e5 e6 : option error),
        Watcher.executePreLoadCommands w s1 = (None, s2) ->
        Watcher.loadDockerImage w p s2 = (None, s3) ->
        Watcher.stopAndRemoveContainer w s3 = (r4, s4) ->
        Watcher.startContainer w s4 = (None, s5) ->
        Watcher.executePostLoadCommands w s5 = (e5, s6) ->
        Watcher.cleanupTarball w p
          (warned (Watcher.logger w) "Post-load commands failed: %v" e5 s6)
        = (e6, s7) ->
        let final :=
          noted (Watcher.logger w) "Tarball processing completed successfully"
            (warned (Watcher.logger w) "Failed to cleanup tarball: %v" e6 s7) in
        Watcher.deployCycle w p s1 = (None, final) /\
        spawned (since s5 final) = spawned (since s5 s6) /\
        (exists rest,
            filter nonblank (PostLoadCommands (Watcher.config w))
            = (spawned (since s5 s6) ++ rest)%list) /\
        removals (since s5 final) = [p]) /\
    (forall s : St W,
        let name := ContainerName (Watcher.config w) in
        let stop := ("docker stop " ++ name)%string in
        let rm := ("docker rm " ++ name)%string in
        let r1 := fst (sh_run stop (30 * GoLib.Second) (world s)) in
        let w1 := snd (sh_run stop (30 * GoLib.Second) (world s)) in
        let r2 := fst (sh_run rm (30 * GoLib.Second) w1) in
        let new := since s (snd (Watcher.stopAndRemoveContainer w s)) in
        fst (Watcher.stopAndRemoveContainer w s) = None /\
        execs new
        = [(stop, 30 * GoLib.Second, r1); (rm, 30 * GoLib.Second, r2)] /\
        (forall e,
            snd (Utils.classify stop (30 * GoLib.Second) r1) = Some e ->
            In (EvLog (Watcher.logger w) LDebug
                      "Failed to stop container (may not exist): %v" [AErr e])
               new) /\
        (forall e,
            snd (Utils.classify rm (30 * GoLib.Second) r2) = Some e ->
            In (EvLog (Watcher.logger w) LDebug
                      "Failed to remove container (may not exist): %v"
                      [AErr e])
               new)).
Proof.
  intros W HW w p s0. split; [|split; [|split]].
  - apply processTarball_entry.
  - intros s1. apply deployCycle_fatal.
  - intros s1 s2 s3 s4 s5 s6 s7 r4 e5 e6 H1 H2 H3 H4 H5 H6 final. split.
    + exact (deployCycle_best_effort w p s1 s2 s3 s4 s5 s6 s7 r4 e5 e6
                                     H1 H2 H3 H4 H5 H6).
    + exact (finish_spawns_hooks_only w p s5 s6 s7 e5 e6 H5 H6).
  - intros s. cbv zeta. split.
    + apply stopAndRemoveContainer_nil.
    + apply stopAndRemoveContainer_run.
Qed.

(** A first deployment: there is no container to stop or remove, the
    health check of the post-load hooks fails and the archive cannot be
    removed; the cycle still succeeds.  With a failing load it returns
    the error of the load. *)
Lemma processTarball_fatal_and_best_effort_witness :
  let p := "/opt/docker-uploads/web_latest_20240704-101112.tar" in
  let w := Watcher.mkWatcher
             (mkWatcherConfig "/opt/docker-uploads" "web" ["8080:80"] [] []
                              ["echo pre"] ["curl -f http://localhost:8080/health"]
                              "unless-stopped") Sim.info in
  let first := Sim.mkWorld [(p, mkFileInfo 420 1024)]
                 ["docker stop web"; "docker rm web";
                  "curl -f http://localhost:8080/health"]
                 [] true true [] false 0 [] true in
  let broken := Sim.mkWorld [(p, mkFileInfo 420 1024)]
                  [("docker load -i " ++ p)%string]
                  [] true true [] false 0 [] false in
  fst (Watcher.deployCycle w p (Sim.start first)) = None /\
  fst (Watcher.deployCycle w p (Sim.start broken))
  = Some (Errorf "failed to load Docker image: %w"
            [AErr (Errorf "command failed: %s, output: %s"
                          [AStr "exit status 1"; AStr "boom"])]).
Proof.
  intros p w first broken. split.
  - destruct (processTarball_fatal_and_best_effort
                Sim.World Sim.host w p (Sim.start first))
      as (_ & _ & Hbe & _).
    edestruct (Hbe (Sim.start first)) as (Hrun & _);
      [runs | runs | runs | runs | runs | runs | ].
    rewrite Hrun. reflexivity.
  - destruct (processTarball_fatal_and_best_effort
                Sim.World Sim.host w p (Sim.start broken))
      as (_ & Hfatal & _).
    destruct (Hfatal (Sim.start broken)) as (_ & Hload & _).
    erewrite Hload; [reflexivity | runs | runs].
Defined.

(** The same first deployment from the event: the calls of the whole
    cycle and the lines it prints at the [info] level. *)
Example first_deployment :
  let p := "/opt/docker-uploads/web_latest_20240704-101112.tar" in
  let w := Watcher.mkWatcher
             (mkWatcherConfig "/opt/docker-uploads" "web" ["8080:80"] [] []
                              [] ["curl -f http://localhost:8080/health"]
                              "unless-stopped") Sim.info in
  let first := Sim.mkWorld [(p, mkFileInfo 420 1024)]
                 ["docker stop web"; "docker rm web";
                  "curl -f http://localhost:8080/health"]
                 [] true true [] false 0 [] true in
  let run := Watcher.processTarball w p (Sim.start first) in
  fst run = None /\
  spawned (trace (snd run))
  = [("docker load -i " ++ p)%string; "docker stop web"; "docker rm web";
     "docker run -d --name web --restart unless-stopped -p 8080:80 web";
     "curl -f http://localhost:8080/health"] /\
  removals (trace (snd run)) = [p] /\
  In ("[WARN] Post-load commands failed: %v",
      [AErr (Errorf "command failed: %s, output: %s"
                    [AStr "exit status 1"; AStr "boom"])])
     (printed (trace (snd run))) /\
  In ("[WARN] Failed to cleanup tarball: %v",
      [AErr (OsError "operation not permitted")])
     (printed (trace (snd run))) /\
  ~ In ("[DEBUG] Failed to stop container (may not exist): %v",
        [AErr (Errorf "command failed: %s, output: %s"
                      [AStr "exit status 1"; AStr "boom"])])
       (printed (trace (snd run))).
Proof.
  intros p w first run. vm_compute.
  repeat split; auto 20.
  intros Hin. repeat (destruct Hin as [Hin|Hin]; [discriminate|]). exact Hin.
Qed.

(** ** The transfer pipeline *)

Section Transfer.
Context {W : Type} `{Host W}.

Lemma framed_since {A} P (m : M W A) (s s' : St W) (r : A) :
  Framed P m -> m s = (r, s') ->
  trace s' = (trace s ++ since s s')%list /\
  forallb P (since s s') = true.
Proof.
  intros Hm E. destruct (framed_run P m s Hm) as (new & Ht & HP & _).
  rewrite E in Ht. cbn [snd] in Ht.
  rewrite (since_app s s' new Ht). split; assumption.
Qed.

Lemma since_trans (s0 s1 s2 : St W) :
  trace s1 = (trace s0 ++ since s0 s1)%list ->
  trace s2 = (trace s1 ++ since s1 s2)%list ->
  trace s2 = (trace s0 ++ since s0 s2)%list /\
  since s0 s2 = (since s0 s1 ++ since s1 s2)%list.
Proof.
  intros H1 H2.
  assert (E : trace s2 = (trace s0 ++ since s0 s1 ++ since s1 s2)%list).
  { rewrite H2, H1 at 1. rewrite <- app_assoc. reflexivity. }
  rewrite (since_app s0 s2 _ E). split; [exact E | reflexivity].
Qed.

Lemma executePreBuildCommands_framed u :
  Framed local_only (Uploader.executePreBuildCommands u).
Proof.
  unfold Uploader.executePreBuildCommands, Utils.Info.
  pose proof (ExecuteCommands_framed
                (PreBuildCommands (Uploader.config u)) (5 * GoLib.Minute)
                (Uploader.logger u)).
  destruct (PreBuildCommands (Uploader.config u)); framed.
Qed.

Lemma executePostBuildCommands_framed u :
  Framed local_only (Uploader.executePostBuildCommands u).
Proof.
  unfold Uploader.executePostBuildCommands, Utils.Info.
  pose proof (ExecuteCommands_framed
                (PostBuildCommands (Uploader.config u)) (5 * GoLib.Minute)
                (Uploader.logger u)).
  destruct (PostBuildCommands (Uploader.config u)); framed.
Qed.

Lemma buildDockerImage_framed u :
  Framed local_only (Uploader.buildDockerImage u).
Proof.
  unfold Uploader.buildDockerImage, Utils.Info, Utils.Debug.
  pose proof ExecuteCommand_framed. framed.
Qed.

Lemma createTarball_framed u :
  Framed local_only (Uploader.createTarball u).
Proof.
  unfold Uploader.createTarball, Utils.EnsureDir, Utils.FileExists,
    Utils.GetFileSize, Utils.Info, Utils.Debug, Utils.Warn.
  pose proof ExecuteCommand_framed. framed.
Qed.

Lemma io_Copy_framed dst src : Framed not_removal (Uploader.io_Copy dst src).
Proof. unfold Uploader.io_Copy. framed. Qed.

Lemma createSSHClient_framed u : Framed not_removal (Uploader.createSSHClient u).
Proof.
  unfold Uploader.createSSHClient, Utils.FileExists, Utils.Warn. framed.
Qed.

Lemma scpSend_framed sess f info name remote :
  Framed not_removal (Uploader.scpSend sess f info name remote).
Proof.
  unfold Uploader.scpSend. pose proof io_Copy_framed. framed.
Qed.

Lemma scpUpload_framed u c p : Framed not_removal (Uploader.scpUpload u c p).
Proof.
  unfold Uploader.scpUpload, Uploader.deferring.
  pose proof scpSend_framed. framed.
Qed.

Lemma uploadTarball_framed u p : Framed not_removal (Uploader.uploadTarball u p).
Proof.
  unfold Uploader.uploadTarball, Uploader.deferring, Utils.Info.
  pose proof (createSSHClient_framed u).
  pose proof (scpUpload_framed u).
  framed.
Qed.

End Transfer.

(** Read the calls of a finished run off its final state. *)
Ltac since_of H :=
  erewrite since_app in H
    by (cbn [trace]; rewrite <- ?app_assoc; reflexivity).

Ltac reduce := cbn [fst snd world trace Utils.found negb].
Ltac reduce_in H := cbn [fst snd world trace Utils.found negb] in H.

(** Case analysis on what a collaborator returns in world [w]. *)
Ltac case_call f w a b :=
  match goal with
  | |- context [f ?x w] => destruct (f x w) as [a b]
  | |- context [f ?x ?y w] => destruct (f x y w) as [a b]
  | |- context [f ?x ?y ?z w] => destruct (f x y z w) as [a b]
  end.

(** The end of [createTarball] in world [w]: the export, then the
    check of the archive. *)
Ltac export_then_check w :=
  let raw := fresh "raw" in
  let w3 := fresh "w" in
  let st := fresh "st" in
  let w4 := fresh "w" in
  let st2 := fresh "st" in
  let w5 := fresh "w" in
  let E := fresh "E" in
  let Hx := fresh "Hx" in
  let Hok := fresh "Hok" in
  let Hs := fresh "Hs" in
  case_call (@sh_run _ _) w raw w3; reduce;
  match goal with
  | |- context [snd (Utils.classify ?c ?d raw)] =>
      let Ec := fresh "Ec" in
      destruct (snd (Utils.classify c d raw)) eqn:Ec; reduce;
      [ intros E; injection E as <- <-; intros Hx Hok _; since_of Hx;
        cbn [execs stats app hd_error] in Hx; injection Hx as <- <- <-;
        discriminate (eq_trans (eq_sym Ec) Hok)
      | case_call (@os_Stat _ _) w3 st w4; reduce;
        destruct st; reduce;
        [ case_call (@os_Stat _ _) w4 st2 w5; reduce;
          intros E;
          destruct st2; reduce_in E; injection E as <- <-; intros _ _ Hs;
          since_of Hs; cbn [execs stats app hd_error] in Hs; discriminate Hs
        | intros E; injection E as <- <-; intros Hx _ Hs;
          since_of Hx; since_of Hs; cbn [execs stats app hd_error] in Hx, Hs;
          inversion Hx; inversion Hs; subst; repeat split ] ]
  end.

Section ArchiveCheck.
Context {W : Type} `{Host W}.

(** The only process of [createTarball] is the export, and its first
    look at the file system is the check that the archive exists: when
    the export succeeded and the check fails, the result is the error
    of the missing archive. *)
Lemma createTarball_missing (u : Uploader.Uploader) (s2 s3 : St W)
      (res : string * option error) (c : string) (d : Z) (r : RawRun)
      (p : string) :
  Uploader.createTarball u s2 = (res, s3) ->
  execs (since s2 s3) = [(c, d, r)] ->
  succeeded (c, d, r) ->
  hd_error (stats (since s2 s3)) = Some (p, false) ->
  res = ("", Some (Errorf "tarball was not created: %s" [AStr p])) /\
  c = ("docker save " ++ ImageName (Uploader.config u) ++ ":"
       ++ ImageTag (Uploader.config u) ++ " -o " ++ p)%string /\
  d = 10 * GoLib.Minute.
Proof.
  unfold succeeded. cbn [fst snd].
  unfold Uploader.createTarball, Utils.EnsureDir, Utils.FileExists,
    Utils.GetFileSize, Utils.ExecuteCommand, Utils.Info, Utils.Debug,
    Utils.Warn.
  unfold bind, call, emit, ret. reduce.
  case_call (@time_Now_Format W _) (world s2) stamp w1. reduce.
  destruct (negb (String.eqb (TarballPath (Uploader.config u)) "")); reduce.
  - case_call (@os_MkdirAll W _) w1 mk w2. reduce.
    destruct mk as [e|]; reduce.
    + intros E. injection E as <- <-. intros Hx _ _. since_of Hx.
      discriminate Hx.
    + export_then_check w2.
  - export_then_check w1.
Qed.

(** A failure of [createTarball] ends the run before the transfer. *)
Lemma Run_stops_at_createTarball (u : Uploader.Uploader)
      (s0 s1 s2 s3 : St W) (res : string * option error) (e : error) :
  Uploader.executePreBuildCommands u
    (noted (Uploader.logger u) "Starting uploader workflow..." s0)
  = (None, s1) ->
  Uploader.buildDockerImage u s1 = (None, s2) ->
  Uploader.createTarball u s2 = (res, s3) ->
  snd res = Some e ->
  Uploader.Run u s0
  = (Some (Errorf "tarball creation failed: %w" [AErr e]), s3) /\
  filter is_transport (since s0 s3) = [].
Proof.
  intros H1 H2 H3 He. split.
  - unfold Uploader.Run. unfold bind at 1. unfold Utils.Info at 1, emit.
    fold (noted (Uploader.logger u) "Starting uploader workflow..." s0).
    unfold bind. rewrite H1, H2, H3, He. reflexivity.
  - destruct (framed_since _ _ _ _ _ (executePreBuildCommands_framed u) H1)
      as [T1 Q1].
    destruct (framed_since _ _ _ _ _ (buildDockerImage_framed u) H2)
      as [T2 Q2].
    destruct (framed_since _ _ _ _ _ (createTarball_framed u) H3)
      as [T3 Q3].
    assert (T0 : trace (noted (Uploader.logger u)
                          "Starting uploader workflow..." s0)
                 = (trace s0 ++ since s0 (noted (Uploader.logger u)
                          "Starting uploader workflow..." s0))%list).
    { unfold noted. cbn [trace]. erewrite since_app; reflexivity. }
    destruct (since_trans _ _ _ T0 T1) as [T01 S01].
    destruct (since_trans _ _ _ T01 T2) as [T02 S02].
    destruct (since_trans _ _ _ T02 T3) as [T03 S03].
    apply transport_none. rewrite S03, S02, S01, !forallb_app, Q1, Q2, Q3.
    unfold noted. erewrite since_app by reflexivity. reflexivity.
Qed.

End ArchiveCheck.

(** C2. In a run of the pipeline that reaches [createTarball] (the
    pre-build hooks and the build succeeded), if the export command,
    the one process [createTarball] spawns, exits successfully and the
    check of the archive that follows does not find the file, then
    [createTarball] returns the error of the missing archive, [Run]
    returns it wrapped as a failure of the archive creation in the state
    [createTarball] left, and no call of the remote copy transport has
    been made. *)
Theorem createTarball_checks_archive :
  forall (W : Type) (HW : Host W) (u : Uploader.Uploader)
         (s0 s1 s2 s3 : St W) (res : string * option error)
         (c : string) (d : Z) (r : RawRun) (p : string),
    Uploader.executePreBuildCommands u
      (noted (Uploader.logger u) "Starting uploader workflow..." s0)
    = (None, s1) ->
    Uploader.buildDockerImage u s1 = (None, s2) ->
    Uploader.createTarball u s2 = (res, s3) ->
    execs (since s2 s3) = [(c, d, r)] ->
    succeeded (c, d, r) ->
    hd_error (stats (since s2 s3)) = Some (p, false) ->
    res = ("", Some (Errorf "tarball was not created: %s" [AStr p])) /\
    c = ("docker save " ++ ImageName (Uploader.config u) ++ ":"
         ++ ImageTag (Uploader.config u) ++ " -o " ++ p)%string /\
    Uploader.Run u s0
    = (Some (Errorf "tarball creation failed: %w"
               [AErr (Errorf "tarball was not created: %s" [AStr p])]), s3) /\
    filter is_transport (since s0 s3) = [].
Proof.
  intros W HW u s0 s1 s2 s3 res c d r p H1 H2 H3 Hx Hok Hs.
  destruct (createTarball_missing u s2 s3 res c d r p H3 Hx Hok Hs)
    as (Hres & Hc & _).
  split; [exact Hres|]. split; [exact Hc|].
  apply (Run_stops_at_createTarball u s0 s1 s2 s3 res _ H1 H2 H3).
  rewrite Hres. reflexivity.
Qed.

(** The build produced no archive: the export reports success on a
    machine where the file never appears. *)
Lemma createTarball_checks_archive_witness :
  let u := Uploader.mkUploader
             (mkUploaderConfig "./examples/sample-app" "web" "latest"
                "tarballs" "192.168.1.100" 22 "deploy" "" "/opt/docker-uploads"
                "" ["echo start"] ["echo done"]) Sim.info in
  Uploader.Run u (Sim.start Sim.idle)
  = (Some (Errorf "tarball creation failed: %w"
             [AErr (Errorf "tarball was not created: %s"
                           [AStr "tarballs/web_latest_20240704-101112.tar"])]),
     snd (Uploader.Run u (Sim.start Sim.idle))) /\
  filter is_transport (trace (snd (Uploader.Run u (Sim.start Sim.idle)))) = [].
Proof.
  intros u.
  edestruct (createTarball_checks_archive Sim.World Sim.host u
               (Sim.start Sim.idle))
    as (_ & _ & Hrun & Hquiet);
    [runs | runs | runs | runs | reflexivity | runs | ].
  rewrite Hrun. cbn [snd]. split; [reflexivity|].
  exact Hquiet.
Defined.

Section Cleanup.
Context {W : Type} `{Host W}.

Lemma kept_noted lg msg (s0 : St W) : Kept s0 (noted lg msg s0).
Proof.
  unfold Kept, noted. cbn [trace].
  erewrite since_app by reflexivity. split; reflexivity.
Qed.

Lemma kept_step {A} (m : M W A) (s0 s1 s2 : St W) (r : A) :
  Kept s0 s1 -> Framed not_removal m -> m s1 = (r, s2) -> Kept s0 s2.
Proof.
  intros [T1 R1] Hm E.
  destruct (framed_since _ _ _ _ _ Hm E) as [T2 Q2].
  destruct (since_trans _ _ _ T1 T2) as [T S].
  split; [exact T|].
  rewrite S, removals_app, R1, (removals_none _ Q2). reflexivity.
Qed.

(** Every run of the pipeline: an error means that no removal was asked
    for; success means that the transfer and the post-build hooks
    succeeded with the archive untouched, and that the one removal, of
    the archive, came after them. *)
Lemma Run_removals (u : Uploader.Uploader) (s0 : St W)
      (r : option error) (s' : St W) :
  Uploader.Run u s0 = (r, s') ->
  (r <> None -> removals (since s0 s') = []) /\
  (r = None ->
   exists s3 s4 s5 path,
     Uploader.uploadTarball u path s3 = (None, s4) /\
     Uploader.executePostBuildCommands u s4 = (None, s5) /\
     removals (since s0 s5) = [] /\
     removals (since s0 s') = [path]).
Proof.
  pose proof (kept_noted (Uploader.logger u) "Starting uploader workflow..."
                         s0) as K0.
  unfold Uploader.Run. unfold bind at 1. unfold Utils.Info at 1, emit.
  fold (noted (Uploader.logger u) "Starting uploader workflow..." s0).
  unfold bind at 1.
  destruct (Uploader.executePreBuildCommands u _) as [e1 s1] eqn:E1.
  pose proof (kept_step _ _ _ _ _ K0
                (local_keeps _ (executePreBuildCommands_framed u)) E1) as K1.
  destruct e1 as [e1|].
  { intros E. injection E as <- <-.
    split; [intros _; apply K1 | discriminate]. }
  unfold bind at 1.
  destruct (Uploader.buildDockerImage u s1) as [e2 s2] eqn:E2.
  pose proof (kept_step _ _ _ _ _ K1
                (local_keeps _ (buildDockerImage_framed u)) E2) as K2.
  destruct e2 as [e2|].
  { intros E. injection E as <- <-.
    split; [intros _; apply K2 | discriminate]. }
  unfold bind at 1.
  destruct (Uploader.createTarball u s2) as [res s3] eqn:E3.
  pose proof (kept_step _ _ _ _ _ K2
                (local_keeps _ (createTarball_framed u)) E3) as K3.
  destruct (snd res) as [e3|].
  { intros E. injection E as <- <-.
    split; [intros _; apply K3 | discriminate]. }
  unfold bind at 1.
  destruct (Uploader.uploadTarball u (fst res) s3) as [e4 s4] eqn:E4.
  pose proof (kept_step _ _ _ _ _ K3 (uploadTarball_framed u (fst res)) E4)
    as K4.
  destruct e4 as [e4|].
  { intros E. injection E as <- <-.
    split; [intros _; apply K4 | discriminate]. }
  unfold bind at 1.
  destruct (Uploader.executePostBuildCommands u s4) as [e5 s5] eqn:E5.
  pose proof (kept_step _ _ _ _ _ K4
                (local_keeps _ (executePostBuildCommands_framed u)) E5) as K5.
  destruct e5 as [e5|].
  { intros E. injection E as <- <-.
    split; [intros _; apply K5 | discriminate]. }
  destruct K5 as [T5 R5].
  unfold Uploader.cleanupTarball, Utils.Info, Utils.Warn.
  unfold bind, call, emit, ret. cbn [world trace].
  destruct (os_Remove (fst res) (world s5)) as [e6 w6].
  destruct e6; cbn [fst snd world trace]; intros E; injection E as <- <-;
    (split; [intros Hne; contradiction|]); intros _;
    exists s3, s4, s5, (fst res);
    (split; [exact E4|]); (split; [exact E5|]); (split; [exact R5|]);
    (erewrite since_app
       by (cbn [trace]; rewrite T5, <- !app_assoc; reflexivity));
    rewrite removals_app, R5; reflexivity.
Qed.

End Cleanup.

(** C8. When the pre-build hooks, the build and the archive creation
    have succeeded and the transfer fails, [Run] returns the error of the
    transfer, wrapped, in the state the transfer left, and no removal
    has been asked of the operating system since the start of the run.
    More generally a run that returns an error has asked for no removal;
    a run that returns [nil] has asked for exactly one, of the archive,
    and asked for it after the transfer and the post-build hooks both
    returned [nil]. *)
Theorem Run_keeps_archive_on_failed_transfer :
  forall (W : Type) (HW : Host W) (u : Uploader.Uploader) (s0 : St W),
    (forall (s1 s2 s3 s4 : St W) (path : string) (e : error),
        Uploader.executePreBuildCommands u
          (noted (Uploader.logger u) "Starting uploader workflow..." s0)
        = (None, s1) ->
        Uploader.buildDockerImage u s1 = (None, s2) ->
        Uploader.createTarball u s2 = ((path, None), s3) ->
        Uploader.uploadTarball u path s3 = (Some e, s4) ->
        Uploader.Run u s0
        = (Some (Errorf "upload failed: %w" [AErr e]), s4) /\
        removals (since s0 s4) = []) /\
    (forall (r : option error) (s' : St W),
        Uploader.Run u s0 = (r, s') ->
        (r <> None -> removals (since s0 s') = []) /\
        (r = None ->
         exists s3 s4 s5 path,
           Uploader.uploadTarball u path s3 = (None, s4) /\
           Uploader.executePostBuildCommands u s4 = (None, s5) /\
           removals (since s0 s5) = [] /\
           removals (since s0 s') = [path])).
Proof.
  intros W HW u s0. split.
  - intros s1 s2 s3 s4 path e H1 H2 H3 H4.
    assert (HR : Uploader.Run u s0
                 = (Some (Errorf "upload failed: %w" [AErr e]), s4)).
    { unfold Uploader.Run. unfold bind at 1. unfold Utils.Info at 1, emit.
      fold (noted (Uploader.logger u) "Starting uploader workflow..." s0).
      unfold bind. rewrite H1, H2, H3. cbn [fst snd]. rewrite H4.
      reflexivity. }
    split; [exact HR|].
    apply (proj1 (Run_removals u s0 _ _ HR)). discriminate.
  - intros r s'. apply Run_removals.
Qed.

(** The archive is there after the export but the remote host refuses
    the connection. *)
Lemma Run_keeps_archive_on_failed_transfer_witness :
  let u := Uploader.mkUploader
             (mkUploaderConfig "./examples/sample-app" "web" "latest"
                "tarballs" "192.168.1.100" 22 "deploy" "" "/opt/docker-uploads"
                "" ["echo start"] ["echo done"]) Sim.info in
  let w := Sim.mkWorld
             [("tarballs/web_latest_20240704-101112.tar", mkFileInfo 420 3)]
             [] [] true false [] false 0 [] false in
  fst (Uploader.Run u (Sim.start w))
  = Some (Errorf "upload failed: %w"
            [AErr (Errorf "failed to create SSH client: %w"
               [AErr (Errorf "failed to connect to SSH server: %w"
                  [AErr (OsError "dial tcp: connection refused")])])]) /\
  removals (trace (snd (Uploader.Run u (Sim.start w)))) = [] /\
  Sim.files (world (snd (Uploader.Run u (Sim.start w)))) = Sim.files w.
Proof.
  intros u w.
  edestruct (proj1 (Run_keeps_archive_on_failed_transfer
                      Sim.World Sim.host u (Sim.start w)))
    as (Hrun & Hkept); [runs | runs | runs | runs | ].
  rewrite Hrun. cbn [fst snd]. split; [reflexivity|].
  split; [exact Hkept | reflexivity].
Defined.

(** ** The remote copy transport *)

Lemma snoc_last {A} (x : A) : [x] = ([] ++ [x])%list.
Proof. reflexivity. Qed.

Lemma snoc_cons {A} (a x : A) (l pre : list A) :
  l = (pre ++ [x])%list -> a :: l = ((a :: pre) ++ [x])%list.
Proof. intros ->. reflexivity. Qed.

(** Cut a list that is written out into its last element and the rest. *)
Ltac cut_last :=
  cbn [app];
  repeat first [ exact (snoc_last _) | apply snoc_cons ].

Ltac since_goal :=
  erewrite since_app
    by (cbn [trace]; rewrite <- ?app_assoc; reflexivity).

(** The one [os.Stat] of a list of calls that is written out. *)
Ltac the_stat Hin :=
  cbn [In app] in Hin;
  repeat match goal with
         | Hd : _ \/ _ |- _ => destruct Hd as [Hd|Hd]
         end;
  try discriminate; try contradiction;
  match goal with
  | Hs : EvStat _ _ = EvStat _ _ |- _ => injection Hs as <- <-
  end.

(** The end of [createSSHClient] once the dial has returned. *)
Ltac dialled :=
  let E := fresh "E" in
  let Hin := fresh "Hin" in
  let Hf := fresh "Hf" in
  intros E Hin; injection E as <- <-; since_of Hin; the_stat Hin;
  since_goal; do 5 eexists;
  split; [reflexivity|]; split; [cut_last|]; split; [reflexivity|];
  split; intros Hf;
  [ first [ discriminate Hf
          | split; [reflexivity | cbn [In]; auto 10] ]
  | first [ discriminate Hf
          | eexists; split;
            [ cbn [In]; auto 10
            | cbn beta iota;
              first [ reflexivity
                    | split; [reflexivity | cbn [In]; auto 10] ] ] ] ].

(** [createSSHClient] from the lookup of the home directory, in world
    [w]. *)
Ltac trust_tail w :=
  let home := fresh "home" in
  let w2 := fresh "w" in
  let st := fresh "st" in
  let w3 := fresh "w" in
  let hk := fresh "hk" in
  let w4 := fresh "w" in
  let dres := fresh "dres" in
  let w5 := fresh "w" in
  case_call (@os_Getenv _ _) w home w2; reduce;
  case_call (@os_Stat _ _) w2 st w3; reduce;
  destruct st; reduce;
  [ case_call (@knownhosts_New _ _) w3 hk w4; reduce;
    destruct hk; reduce;
    case_call (@ssh_Dial _ _) w4 dres w5; reduce;
    destruct dres; dialled
  | case_call (@ssh_Dial _ _) w3 dres w5; reduce;
    destruct dres; dialled ].


(** C9. In every run of [createSSHClient] that gets past the private
    key, the known-hosts file is looked up under the home directory and
    the last call is the dial, whose result is the result of the
    function: the client when the dial succeeds.  When the file is not
    found, the warning of the missing file is logged before the dial and
    the dial uses the callback that accepts every host key.  When the
    file is found it is loaded: if loading fails, the warning of the
    failure is logged before the dial and the dial uses the callback
    that accepts every host key; if it loads, the dial uses the callback
    of the loaded store. *)
Theorem createSSHClient_trust_fallback :
  forall (W : Type) (HW : Host W) (u : Uploader.Uploader) (s s' : St W)
         (r : Client + error) (kh : string) (found : bool),
    Uploader.createSSHClient u s = (r, s') ->
    In (EvStat kh found) (since s s') ->
    exists home auth cb dres pre,
      kh = filepath_Join [home; ".ssh"; "known_hosts"] /\
      since s s'
      = (pre ++ [EvDial "tcp"
                   (RemoteHost (Uploader.config u) ++ ":"
                    ++ GoLib.fmt_d (RemotePort (Uploader.config u)))
                   (mkClientConfig (RemoteUser (Uploader.config u)) auth cb
                                   (30 * GoLib.Second))
                   dres])%list /\
      r = match dres with
          | inl c => inl c
          | inr e =>
              inr (Errorf "failed to connect to SSH server: %w" [AErr e])
          end /\
      (found = false ->
       cb = InsecureIgnoreHostKey /\
       In (EvLog (Uploader.logger u) LWarn
                 "known_hosts file not found, using insecure connection" [])
          pre) /\
      (found = true ->
       exists loaded,
         In (EvKnownHostsNew kh loaded) pre /\
         match loaded with
         | inl db => cb = KnownHosts db
         | inr e =>
             cb = InsecureIgnoreHostKey /\
             In (EvLog (Uploader.logger u) LWarn
                   "Failed to load known_hosts, using insecure connection: %v"
                   [AErr e])
                pre
         end).
Proof.
  intros W HW u s s' r kh found.
  unfold Uploader.createSSHClient, Utils.FileExists, Utils.Warn.
  unfold bind, call, emit, ret. reduce.
  destruct (negb (String.eqb (RemoteKeyPath (Uploader.config u)) "")); reduce.
  - case_call (@os_ReadFile W _) (world s) key w1. reduce.
    destruct key as [bytes|e]; reduce.
    + destruct (ssh_ParsePrivateKey bytes) as [signer|e]; reduce.
      * trust_tail w1.
      * intros E Hin. injection E as <- <-. since_of Hin.
        cbn [In app] in Hin. destruct Hin as [Hin|[]]. discriminate Hin.
    + intros E Hin. injection E as <- <-. since_of Hin.
      cbn [In app] in Hin. destruct Hin as [Hin|[]]. discriminate Hin.
  - trust_tail (world s).
Qed.

(** A deploy user without a known-hosts file: the client is returned,
    and the dial was made with the callback that accepts every key. *)
Lemma createSSHClient_trust_fallback_witness :
  let u := Uploader.mkUploader
             (mkUploaderConfig "./examples/sample-app" "web" "latest"
                "tarballs" "192.168.1.100" 22 "deploy" "~/.ssh/id_rsa"
                "/opt/docker-uploads" "" [] []) Sim.info in
  let run := Uploader.createSSHClient u (Sim.start Sim.idle) in
  fst run = inl (mkClient 0) /\
  exists auth dres pre,
    trace (snd run)
    = (pre ++ [EvDial "tcp" "192.168.1.100:22"
                 (mkClientConfig "deploy" auth InsecureIgnoreHostKey
                                 (30 * GoLib.Second)) dres])%list /\
    In (EvLog Sim.info LWarn
              "known_hosts file not found, using insecure connection" []) pre.
Proof.
  intros u run. split; [reflexivity|].
  destruct (createSSHClient_trust_fallback Sim.World Sim.host u
              (Sim.start Sim.idle) (snd run) (fst run)
              "/home/deploy/.ssh/known_hosts" false)
    as (home & auth & cb & dres & pre & _ & Hs & _ & Hnf & _).
  - reflexivity.
  - vm_compute. auto 10.
  - destruct (Hnf eq_refl) as [-> Hwarn].
    exists auth, dres, pre. split; [exact Hs | exact Hwarn].
Defined.

(** A known-hosts file that cannot be parsed: a warning, and the dial
    accepts every host key. *)
Example createSSHClient_unreadable_known_hosts :
  let u := Uploader.mkUploader
             (mkUploaderConfig "./examples/sample-app" "web" "latest"
                "tarballs" "192.168.1.100" 22 "deploy" ""
                "/opt/docker-uploads" "" [] []) Sim.info in
  let w := Sim.mkWorld [("/home/deploy/.ssh/known_hosts", mkFileInfo 420 900)]
                       [] [] false true [] false 0 [] false in
  trace (snd (Uploader.createSSHClient u (Sim.start w)))
  = [EvGetenv "HOME" "/home/deploy";
     EvStat "/home/deploy/.ssh/known_hosts" true;
     EvKnownHostsNew "/home/deploy/.ssh/known_hosts"
                     (inr (OsError "knownhosts: illegal base64 data"));
     EvLog Sim.info LWarn
           "Failed to load known_hosts, using insecure connection: %v"
           [AErr (OsError "knownhosts: illegal base64 data")];
     EvDial "tcp" "192.168.1.100:22"
            (mkClientConfig "deploy" [] InsecureIgnoreHostKey
                            (30 * GoLib.Second))
            (inl (mkClient 0))].
Proof. reflexivity. Qed.

(** With a known-hosts file that loads, the dial checks the host key
    against it. *)
Example createSSHClient_known_hosts :
  let u := Uploader.mkUploader
             (mkUploaderConfig "./examples/sample-app" "web" "latest"
                "tarballs" "192.168.1.100" 22 "deploy" "~/.ssh/id_rsa"
                "/opt/docker-uploads" "" [] []) Sim.info in
  let w := Sim.mkWorld [("/home/deploy/.ssh/known_hosts", mkFileInfo 420 900)]
                       [] [] true true [] false 0 [] false in
  trace (snd (Uploader.createSSHClient u (Sim.start w)))
  = [EvReadFile "~/.ssh/id_rsa" (inl []);
     EvGetenv "HOME" "/home/deploy";
     EvStat "/home/deploy/.ssh/known_hosts" true;
     EvKnownHostsNew "/home/deploy/.ssh/known_hosts" (inl (mkHostKeyDB 0));
     EvDial "tcp" "192.168.1.100:22"
            (mkClientConfig "deploy" [mkSigner 0] (KnownHosts (mkHostKeyDB 0))
                            (30 * GoLib.Second))
            (inl (mkClient 0))].
Proof. reflexivity. Qed.

(** One step of a symbolic run: the next call, or the next result. *)
Ltac step_call :=
  match goal with
  | |- context [match ?x with (_, _) => _ end] =>
      lazymatch x with
      | context [match _ with _ => _ end] => fail
      | _ => let a := fresh "r" in
             let w := fresh "w" in
             destruct x as [a w]; reduce
      end
  end.

Ltac step_result :=
  match goal with
  | |- context [match ?r with inl _ => _ | inr _ => _ end] =>
      is_var r; destruct r; reduce
  | |- context [match ?r with Some _ => _ | None => _ end] =>
      is_var r; destruct r; reduce
  | |- context [match ?r with [] => _ | _ :: _ => _ end] =>
      is_var r; destruct r; reduce
  | |- context [fst ?r] => is_var r; destruct r; reduce
  | |- context [snd ?r] => is_var r; destruct r; reduce
  end.

Section Scp.
Context {W : Type} `{Host W}.

(** A successful upload is exactly this sequence of calls. *)
Lemma scpUpload_sequence (u : Uploader.Uploader) (client : Client)
      (localPath : string) (s s' : St W) :
  Uploader.scpUpload u client localPath s = (None, s') ->
  exists f info sess stdin data cerr e1 e2,
    since s s'
    = ([EvOpen localPath (inl f);
        EvFileStat f (inl info);
        EvNewSession client (inl sess);
        EvStdinPipe sess (inl stdin);
        EvStart sess
          ("scp -t " ++ filepath_Join [RemoteUploadPath (Uploader.config u);
                                       GoLib.Base localPath])
          None;
        EvStdinWrite stdin
          (list_byte_of_string
             (Uploader.scpHeader info (GoLib.Base localPath)))
          None;
        EvFileRead f (data, None)]
       ++ match data with
          | [] => []
          | _ => [EvStdinWrite stdin data None]
          end
       ++ [EvStdinWrite stdin [Byte.x00] None;
           EvStdinClose stdin cerr;
           EvWait sess None;
           EvSessionClose sess e1;
           EvFileClose f e2])%list.
Proof.
  unfold Uploader.scpUpload, Uploader.deferring, Uploader.scpSend,
    Uploader.io_Copy.
  unfold bind, call, emit, ret. reduce.
  repeat first [step_call | step_result];
    intros E; try discriminate E; injection E as <-;
    since_goal; do 8 eexists; cbn [app];
    repeat (apply (f_equal2 (@cons Event)); [reflexivity | cbn [app]]);
    reflexivity.
Qed.

(** [scpUpload] returns [nil] exactly when none of the calls it checks
    returned an error. *)
Lemma scpUpload_failures (u : Uploader.Uploader) (client : Client)
      (localPath : string) (s s' : St W) (r : option error) :
  Uploader.scpUpload u client localPath s = (r, s') ->
  (r = None <-> forallb (fun ev => negb (checked_failure ev)) (since s s')
                = true).
Proof.
  unfold Uploader.scpUpload, Uploader.deferring, Uploader.scpSend,
    Uploader.io_Copy.
  unfold bind, call, emit, ret. reduce.
  repeat first [step_call | step_result];
    intros E; injection E as <- <-;
    since_goal; cbn [forallb app negb checked_failure andb];
    split; intros Hx;
    repeat match type of Hx with
           | context [match ?o with Some _ => _ | None => _ end] =>
               destruct o; cbn [negb andb] in Hx
           end;
    first [reflexivity | discriminate Hx].
Qed.

End Scp.

Lemma sent_sequence (f : File) (info : FileInfo) (sess : Session)
      (stdin : Stdin) (client : Client) (localPath cmd : string)
      (header data : list Byte.byte) (cerr e1 e2 : option error) :
  sent ([EvOpen localPath (inl f); EvFileStat f (inl info);
         EvNewSession client (inl sess); EvStdinPipe sess (inl stdin);
         EvStart sess cmd None; EvStdinWrite stdin header None;
         EvFileRead f (data, None)]
        ++ match data with
           | [] => []
           | _ => [EvStdinWrite stdin data None]
           end
        ++ [EvStdinWrite stdin [Byte.x00] None; EvStdinClose stdin cerr;
            EvWait sess None; EvSessionClose sess e1; EvFileClose f e2])
  = (header ++ data ++ [Byte.x00])%list.
Proof.
  destruct data as [|b data]; cbn [sent app]; rewrite ?app_nil_r;
    reflexivity.
Qed.

(** C4, as the code has it.  [scpUpload] returns [nil] exactly when no
    call whose error it checks returned one: opening and inspecting the
    file, creating the session and its input pipe, starting the remote
    command, writing the header, reading the file and writing its bytes,
    writing the end marker, and waiting for the remote peer, which
    fails on a non-zero exit.  The error of closing the input side is
    not checked.  A successful upload is exactly: open, stat, new
    session, input pipe, start of [scp -t] on the remote path, the
    header ['C'], permission bits in octal, a space, the size, a space,
    the base name and a newline, the bytes of the file, one null byte,
    the close of the input side, the wait for the peer, and the two
    deferred closes; so the input of the session received the header,
    the bytes of the file and the null byte, in this order. *)
Theorem scpUpload_protocol :
  forall (W : Type) (HW : Host W) (u : Uploader.Uploader) (client : Client)
         (localPath : string) (s s' : St W) (r : option error),
    Uploader.scpUpload u client localPath s = (r, s') ->
    (r = None <->
     forallb (fun ev => negb (checked_failure ev)) (since s s') = true) /\
    (r = None ->
     exists f info sess stdin data cerr e1 e2,
       since s s'
       = ([EvOpen localPath (inl f);
           EvFileStat f (inl info);
           EvNewSession client (inl sess);
           EvStdinPipe sess (inl stdin);
           EvStart sess
             ("scp -t "
              ++ filepath_Join [RemoteUploadPath (Uploader.config u);
                                GoLib.Base localPath])
             None;
           EvStdinWrite stdin
             (list_byte_of_string
                (Uploader.scpHeader info (GoLib.Base localPath)))
             None;
           EvFileRead f (data, None)]
          ++ match data with
             | [] => []
             | _ => [EvStdinWrite stdin data None]
             end
          ++ [EvStdinWrite stdin [Byte.x00] None;
              EvStdinClose stdin cerr;
              EvWait sess None;
              EvSessionClose sess e1;
              EvFileClose f e2])%list /\
       sent (since s s')
       = (list_byte_of_string
            ("C" ++ GoLib.fmt_sharp_o (GoLib.Perm (fi_mode info)) ++ " "
             ++ GoLib.fmt_d (fi_size info) ++ " " ++ GoLib.Base localPath
             ++ Uploader.newline)
          ++ data ++ [Byte.x00])%list).
Proof.
  intros W HW u client localPath s s' r Hrun. split.
  - exact (scpUpload_failures u client localPath s s' r Hrun).
  - intros ->.
    destruct (scpUpload_sequence u client localPath s s' Hrun)
      as (f & info & sess & stdin & data & cerr & e1 & e2 & Hs).
    exists f, info, sess, stdin, data, cerr, e1, e2.
    split; [exact Hs|]. rewrite Hs. apply sent_sequence.
Qed.

(** Three bytes pushed to a peer that exits with status 0. *)
Lemma scpUpload_protocol_witness :
  let u := Uploader.mkUploader
             (mkUploaderConfig "./examples/sample-app" "web" "latest"
                "tarballs" "192.168.1.100" 22 "deploy" "~/.ssh/id_rsa"
                "/opt/docker-uploads" "" [] []) Sim.info in
  let p := "tarballs/web_latest_20240704-101112.tar" in
  let w := Sim.mkWorld [(p, mkFileInfo 420 3)] [] [] true true
                       [Byte.x01; Byte.x02; Byte.x03] false 0 [] false in
  let run := Uploader.scpUpload u (mkClient 0) p (Sim.start w) in
  fst run = None /\
  sent (trace (snd run))
  = (list_byte_of_string
       ("C0644 3 web_latest_20240704-101112.tar" ++ Uploader.newline)
     ++ [Byte.x01; Byte.x02; Byte.x03; Byte.x00])%list /\
  Sim.received (world (snd run)) = sent (trace (snd run)).
Proof.
  intros u p w run. split.
  - apply (proj2 (proj1 (scpUpload_protocol
                           Sim.World Sim.host u (mkClient 0) p (Sim.start w)
                           (snd run) (fst run) (surjective_pairing run)))).
    vm_compute. reflexivity.
  - split; vm_compute; reflexivity.
Defined.

(** C4, as the claim states it, fails: the input side cannot be closed,
    an I/O error at one of the steps of the claim, and the upload still
    returns [nil]. *)
Lemma scpUpload_ignores_close_error :
  let u := Uploader.mkUploader
             (mkUploaderConfig "./examples/sample-app" "web" "latest"
                "tarballs" "192.168.1.100" 22 "deploy" "~/.ssh/id_rsa"
                "/opt/docker-uploads" "" [] []) Sim.info in
  let p := "tarballs/web_latest_20240704-101112.tar" in
  let w := Sim.mkWorld [(p, mkFileInfo 420 3)] [] [] true true
                       [Byte.x01; Byte.x02; Byte.x03] true 0 [] false in
  let run := Uploader.scpUpload u (mkClient 0) p (Sim.start w) in
  In (EvStdinClose (mkStdin 0) (Some (OsError "EOF"))) (trace (snd run)) /\
  existsb any_failure (trace (snd run)) = true /\
  fst run = None.
Proof.
  intros u p w run. vm_compute. repeat split; auto 20.
Qed.

(* ================================================================= *)
(** * Further properties of the code *)
(* ================================================================= *)

(** ** Hook sets *)

Section HookSets.
Context {W : Type} `{Host W}.

Lemma ExecuteCommands_blank_head (cmd : string) (rest : list string)
      (timeout : Z) (lg : Logger) (s : St W) :
  nonblank cmd = false ->
  Utils.ExecuteCommands (cmd :: rest) timeout lg s
  = Utils.ExecuteCommands rest timeout lg s.
Proof.
  unfold nonblank. intros Hb. cbn [Utils.ExecuteCommands].
  destruct (String.eqb (GoLib.TrimSpace cmd) "");
    [reflexivity | discriminate].
Qed.

End HookSets.

(** X1. Blank entries of a hook set do not exist for the executor: on
    every state, running a list of commands is running the list of its
    non-blank commands, with the same result, the same calls and the
    same final world. *)
Theorem ExecuteCommands_ignores_blank :
  forall (W : Type) (HW : Host W) (commands : list string) (timeout : Z)
         (lg : Logger) (s : St W),
    Utils.ExecuteCommands commands timeout lg s
    = Utils.ExecuteCommands (filter nonblank commands) timeout lg s.
Proof.
  intros W HW commands timeout lg.
  induction commands as [|cmd rest IH]; intros s; [reflexivity|].
  cbn [filter]. destruct (nonblank cmd) eqn:Eb.
  - rewrite !(ExecuteCommands_cons _ _ _ _ _ Eb). cbv zeta.
    destruct (snd (Utils.classify cmd timeout
                     (fst (sh_run cmd timeout (world s)))));
      [reflexivity | apply IH].
  - rewrite (ExecuteCommands_blank_head _ _ _ _ _ Eb). apply IH.
Qed.

(** X2. Hook sets compose: running the list [a ++ b] is running [a]
    and, when [a] returned [nil], running [b] from the state [a] left;
    when [a] fails, its error is the result and nothing of [b] runs. *)
Theorem ExecuteCommands_app :
  forall (W : Type) (HW : Host W) (a b : list string) (timeout : Z)
         (lg : Logger) (s : St W),
    Utils.ExecuteCommands (a ++ b) timeout lg s
    = match Utils.ExecuteCommands a timeout lg s with
      | (Some e, s1) => (Some e, s1)
      | (None, s1) => Utils.ExecuteCommands b timeout lg s1
      end.
Proof.
  intros W HW a b timeout lg.
  induction a as [|cmd rest IH]; intros s; [reflexivity|].
  cbn [app]. destruct (nonblank cmd) eqn:Eb.
  - rewrite !(ExecuteCommands_cons _ _ _ _ _ Eb). cbv zeta.
    destruct (snd (Utils.classify cmd timeout
                     (fst (sh_run cmd timeout (world s)))));
      [reflexivity | apply IH].
  - rewrite !(ExecuteCommands_blank_head _ _ _ _ _ Eb). apply IH.
Qed.

(** ** The logger *)

(** X3. What the logger prints depends on its level as follows.  An
    error line is printed at every level, whatever the level string.
    At ["debug"] every method prints; what ["warn"] prints ["info"]
    prints too.  With a level string other than ["debug"], ["info"] and
    ["warn"], such as ["error"] or ["INFO"], [Debug], [Info] and [Warn]
    print nothing. *)
Theorem Logger_levels :
  forall (l : Logger) (lvl : Level) (msg : string) (args : list Arg),
    log_Printf (EvLog l LError msg args) = Some ("[ERROR] " ++ msg, args) /\
    log_Printf (EvLog (mkLogger "debug") lvl msg args) <> None /\
    (log_Printf (EvLog (mkLogger "warn") lvl msg args) <> None ->
     log_Printf (EvLog (mkLogger "info") lvl msg args) <> None) /\
    (level l <> "debug" -> level l <> "info" -> level l <> "warn" ->
     lvl <> LError ->
     log_Printf (EvLog l lvl msg args) = None).
Proof.
  intros l lvl msg args. split; [reflexivity|]. split; [|split].
  - destruct lvl; discriminate.
  - destruct lvl; cbn; intros Hw; congruence.
  - intros Hd Hi Hw Hl. cbn.
    destruct (String.eqb_spec (level l) "debug"); [contradiction|].
    destruct (String.eqb_spec (level l) "info"); [contradiction|].
    destruct (String.eqb_spec (level l) "warn"); [contradiction|].
    destruct lvl; [reflexivity | reflexivity | reflexivity | contradiction].
Qed.

(** A logger created with the level ["error"] swallows warnings. *)
Lemma Logger_levels_witness :
  log_Printf (EvLog (mkLogger "error") LWarn
                    "Post-load commands failed: %v" [])
  = None.
Proof.
  apply (proj2 (proj2 (proj2 (Logger_levels (mkLogger "error") LWarn
                                "Post-load commands failed: %v" []))));
    discriminate.
Defined.

(** ** Sizes for the log *)

Lemma wrap64_small (z : Z) : - 2 ^ 63 <= z < 2 ^ 63 -> Utils.wrap64 z = z.
Proof.
  intros Hz. unfold Utils.wrap64.
  rewrite Z.mod_small by lia. lia.
Qed.

(** The loop keeps [div] a power of 1024 below [bytes], never wraps and
    ends before the fuel does. *)
Lemma scaleLoop_spec (bytes : Z) :
  bytes < 2 ^ 63 ->
  forall (fuel : nat) (n div : Z) (exp : nat),
    1 <= n -> n < 1024 ^ Z.of_nat fuel ->
    div = 1024 ^ (Z.of_nat exp + 1) ->
    n * div <= bytes < (n + 1) * div ->
    exists div' exp',
      Utils.scaleLoop fuel n div exp = Some (div', exp') /\
      div' = 1024 ^ (Z.of_nat exp' + 1) /\
      div' <= bytes < 1024 * div'.
Proof.
  intros Hmax fuel.
  induction fuel as [|fuel IH]; intros n div exp Hn Hfuel Hdiv Hb.
  - cbn in Hfuel. lia.
  - cbn [Utils.scaleLoop].
    assert (Hpos : 0 < div) by (subst div; apply Z.pow_pos_nonneg; lia).
    destruct (Z.geb_spec n 1024) as [Hge|Hlt].
    + rewrite Z.quot_div_nonneg by lia.
      assert (Hq : 1024 * (n / 1024) <= n < 1024 * (n / 1024) + 1024).
      { pose proof (Z.div_mod n 1024). pose proof (Z.mod_pos_bound n 1024).
        lia. }
      assert (Hw : Utils.wrap64 (div * 1024) = div * 1024).
      { apply wrap64_small. nia. }
      rewrite Hw. apply IH.
      * lia.
      * rewrite Nat2Z.inj_succ, Z.pow_succ_r in Hfuel by lia. lia.
      * subst div. rewrite Nat2Z.inj_succ.
        replace (Z.succ (Z.of_nat exp) + 1) with (Z.succ (Z.of_nat exp + 1))
          by lia.
        rewrite Z.pow_succ_r by lia. lia.
      * nia.
    + exists div, exp. split; [reflexivity|]. split; [exact Hdiv|]. nia.
Qed.

(** X4. For every [int64] number of bytes [FormatBytes] reaches its
    [fmt.Sprintf]: the loop ends, the multiplication never overflows and
    the index into ["KMGTPE"] is in range.  Below 1024 the bytes are
    printed as they are; from 1024 on the divisor is a power of 1024
    between one 1024th of the bytes (excluded) and the bytes (included),
    and the letter is the one of that power. *)
Theorem FormatBytes_in_range :
  forall bytes : Z,
    - 2 ^ 63 <= bytes < 2 ^ 63 ->
    (bytes < 1024 -> Utils.FormatBytes bytes = Some (Utils.Plain bytes)) /\
    (1024 <= bytes ->
     exists (k : nat) (unit : ascii),
       Utils.FormatBytes bytes
       = Some (Utils.Scaled bytes (1024 ^ (Z.of_nat k + 1)) unit) /\
       String.get k "KMGTPE" = Some unit /\
       1024 ^ (Z.of_nat k + 1) <= bytes < 1024 * 1024 ^ (Z.of_nat k + 1)).
Proof.
  intros bytes Hr. unfold Utils.FormatBytes. split.
  - intros Hlt. destruct (Z.ltb_spec bytes 1024); [reflexivity | lia].
  - intros Hge. destruct (Z.ltb_spec bytes 1024); [lia|].
    rewrite Z.quot_div_nonneg by lia.
    assert (Hq : 1024 * (bytes / 1024) <= bytes
                 < 1024 * (bytes / 1024) + 1024).
    { pose proof (Z.div_mod bytes 1024).
      pose proof (Z.mod_pos_bound bytes 1024). lia. }
    destruct (scaleLoop_spec bytes (proj2 Hr) 64 (bytes / 1024) 1024 0)
      as (div & k & Hloop & Hdiv & Hb).
    + lia.
    + assert (2 ^ 63 < 1024 ^ Z.of_nat 64) by (vm_compute; reflexivity). lia.
    + reflexivity.
    + lia.
    + rewrite Hloop. subst div.
      assert (Hk : (k <= 5)%nat).
      { destruct (Nat.le_gt_cases k 5) as [Hle|Hgt]; [exact Hle|].
        exfalso.
        assert (1024 ^ 7 <= 1024 ^ (Z.of_nat k + 1))
          by (apply Z.pow_le_mono_r; lia).
        assert (2 ^ 63 < 1024 ^ 7) by (vm_compute; reflexivity). lia. }
      do 6 (destruct k as [|k];
            [eexists _, _; split; [reflexivity|]; split;
               [reflexivity | exact Hb] |]).
      lia.
Qed.

Lemma FormatBytes_in_range_witness :
  Utils.FormatBytes 1536 = Some (Utils.Scaled 1536 1024 "K"%char) /\
  Utils.FormatBytes 1023 = Some (Utils.Plain 1023).
Proof.
  assert (Hr : forall z, 0 <= z < 2 ^ 20 -> - 2 ^ 63 <= z < 2 ^ 63) by lia.
  split.
  - destruct (proj2 (FormatBytes_in_range 1536 (Hr 1536 ltac:(lia)))
                    ltac:(lia)) as (k & unit & Hf & _).
    reflexivity.
  - apply (proj1 (FormatBytes_in_range 1023 (Hr 1023 ltac:(lia)))). lia.
Defined.

(** ** Configuration *)

Lemma Validate_ready (c : Config.Config) :
  Config.Validate c = None -> uploader_ready c \/ watcher_ready c.
Proof.
  unfold Config.Validate, uploader_ready, watcher_ready.
  destruct (String.eqb_spec (Config.Mode c) "uploader") as [Hu|Hu];
    destruct (String.eqb_spec (Config.Mode c) "watcher") as [Hw|Hw];
    cbn [negb andb]; try discriminate.
  - rewrite Hu in Hw. discriminate Hw.
  - destruct (String.eqb_spec (DockerBuildPath (Config.Uploader c)) "");
      [discriminate|].
    destruct (String.eqb_spec (ImageName (Config.Uploader c)) "");
      [discriminate|].
    destruct (String.eqb_spec (RemoteHost (Config.Uploader c)) "");
      [discriminate|].
    destruct (String.eqb_spec (RemoteUser (Config.Uploader c)) "");
      [discriminate|].
    destruct (String.eqb_spec (RemoteUploadPath (Config.Uploader c)) "");
      [discriminate|].
    intros _. left. tauto.
  - destruct (String.eqb_spec (WatchDirectory (Config.Watcher c)) "");
      [discriminate|].
    destruct (String.eqb_spec (ContainerName (Config.Watcher c)) "");
      [discriminate|].
    intros _. right. tauto.
Qed.

Lemma eqb_neq (a b : string) : a <> b -> String.eqb a b = false.
Proof. intros Hn. destruct (String.eqb_spec a b); [contradiction | reflexivity]. Qed.

(** X5. [Validate] accepts exactly two kinds of configuration: mode
    ["uploader"] with a build path, an image name, a remote host, a
    remote user and a remote upload path; mode ["watcher"] with a watch
    directory and a container name.  Nothing else is looked at: not the
    section of the other mode, nor the key path, the port, the tag, the
    log level or the hook sets. *)
Theorem Validate_accepts :
  forall c : Config.Config,
    Config.Validate c = None <-> uploader_ready c \/ watcher_ready c.
Proof.
  intros c. split; [apply Validate_ready|].
  unfold Config.Validate, uploader_ready, watcher_ready.
  intros [(Hm & H1 & H2 & H3 & H4 & H5) | (Hm & H1 & H2)]; rewrite Hm.
  - change (String.eqb "uploader" "uploader") with true.
    change (String.eqb "uploader" "watcher") with false.
    cbn [negb andb].
    rewrite (eqb_neq _ _ H1), (eqb_neq _ _ H2), (eqb_neq _ _ H3),
      (eqb_neq _ _ H4), (eqb_neq _ _ H5).
    reflexivity.
  - change (String.eqb "watcher" "uploader") with false.
    change (String.eqb "watcher" "watcher") with true.
    cbn [negb andb].
    rewrite (eqb_neq _ _ H1), (eqb_neq _ _ H2). reflexivity.
Qed.

(** The sample configuration is valid as it is. *)
Lemma Validate_accepts_witness : Config.Validate Sim.sample = None.
Proof.
  apply (proj2 (Validate_accepts Sim.sample)). right.
  repeat split; discriminate.
Defined.

Lemma runApplication_flagged (cfg : Config.Config) (mode : string)
      (daemon verbose : bool) :
  Cmd.runApplication (inl cfg) mode daemon verbose
  = match Config.Validate (flagged_config cfg mode verbose) with
    | Some e => Cmd.ExitValidation e
    | None =>
        if String.eqb (Config.Mode (flagged_config cfg mode verbose))
                      "uploader"
        then Cmd.StartUploader (Config.Uploader cfg)
               (mkLogger (Config.LogLevel (flagged_config cfg mode verbose)))
        else if String.eqb (Config.Mode (flagged_config cfg mode verbose))
                           "watcher"
        then Cmd.StartWatcher (Config.Watcher cfg)
               (mkLogger (Config.LogLevel (flagged_config cfg mode verbose)))
               daemon
        else Cmd.ExitInvalidMode
               (Config.Mode (flagged_config cfg mode verbose))
    end.
Proof.
  unfold Cmd.runApplication, flagged_config.
  destruct cfg as [m lv up wa]. cbn [Config.Mode Config.LogLevel
    Config.Uploader Config.Watcher].
  destruct (String.eqb mode ""), verbose; reflexivity.
Qed.

(** X6. The last branch of the mode switch of [runApplication] is never
    taken: validation has already refused every other mode.  When the
    uploader is started the mode in force, the flag if one was given and
    the configured mode otherwise, is ["uploader"] and the five fields
    of the uploader are filled in; when the watcher is started the mode
    in force is ["watcher"] and its two fields are filled in; in both
    cases the logger has the level ["debug"] under the verbose flag and
    the configured level otherwise. *)
Theorem runApplication_dispatch :
  forall (loaded : Config.Config + error) (mode : string)
         (daemon verbose : bool),
    (forall m, Cmd.runApplication loaded mode daemon verbose
               <> Cmd.ExitInvalidMode m) /\
    (forall up l,
        Cmd.runApplication loaded mode daemon verbose
        = Cmd.StartUploader up l ->
        exists cfg,
          loaded = inl cfg /\ up = Config.Uploader cfg /\
          uploader_ready (flagged_config cfg mode verbose) /\
          l = mkLogger (if verbose then "debug" else Config.LogLevel cfg)) /\
    (forall wa l d,
        Cmd.runApplication loaded mode daemon verbose
        = Cmd.StartWatcher wa l d ->
        exists cfg,
          loaded = inl cfg /\ wa = Config.Watcher cfg /\ d = daemon /\
          watcher_ready (flagged_config cfg mode verbose) /\
          l = mkLogger (if verbose then "debug" else Config.LogLevel cfg)).
Proof.
  intros loaded mode daemon verbose.
  destruct loaded as [cfg|e]; [|repeat split; intros; discriminate].
  rewrite runApplication_flagged.
  set (c := flagged_config cfg mode verbose).
  pose proof (Validate_ready c) as Hv.
  destruct (Config.Validate c) as [e|];
    [repeat split; intros; discriminate|].
  destruct (Hv eq_refl) as [Hu|Hw].
  - destruct Hu as [Hm Hrest]. rewrite Hm. cbn [String.eqb Ascii.eqb].
    repeat split; try (intros; discriminate).
    intros up l E. injection E as <- <-.
    exists cfg. repeat split; try tauto.
  - destruct Hw as [Hm Hrest]. rewrite Hm.
    change (String.eqb "watcher" "uploader") with false.
    change (String.eqb "watcher" "watcher") with true. cbv iota.
    repeat split; try (intros; discriminate).
    intros wa l d E. injection E as <- <- <-.
    exists cfg. repeat split; try tauto.
Qed.

(** The sample configuration under [--mode uploader --verbose]. *)
Lemma runApplication_dispatch_witness :
  Cmd.runApplication (inl Sim.sample) "uploader" false true
  = Cmd.StartUploader (Config.Uploader Sim.sample) (mkLogger "debug") /\
  uploader_ready (flagged_config Sim.sample "uploader" true).
Proof.
  split; [reflexivity|].
  destruct (proj1 (proj2 (runApplication_dispatch
                            (inl Sim.sample) "uploader" false true))
                  (Config.Uploader Sim.sample) (mkLogger "debug") eq_refl)
    as (cfg & Hcfg & _ & Hready & _).
  injection Hcfg as <-. exact Hready.
Defined.

(** X7. Without a configuration file nothing starts: [LoadConfig] then
    returns its defaults, which name no watch directory and no build
    path, and whatever the flags [runApplication] exits on the
    validation of the configuration. *)
Theorem runApplication_needs_config_file :
  forall (decoded : Config.Config + error) (mode : string)
         (daemon verbose : bool),
  exists e,
    Cmd.runApplication (Config.LoadConfig "" decoded) mode daemon verbose
    = Cmd.ExitValidation e.
Proof.
  intros decoded mode daemon verbose.
  change (Config.LoadConfig "" decoded) with
    (inl Config.defaults : Config.Config + error).
  rewrite runApplication_flagged.
  set (c := flagged_config Config.defaults mode verbose).
  pose proof (Validate_ready c) as Hv.
  destruct (Config.Validate c) as [e|]; [exists e; reflexivity|].
  exfalso. destruct (Hv eq_refl) as [Hu|Hw].
  - destruct Hu as (_ & Hb & _). apply Hb. reflexivity.
  - destruct Hw as (_ & Hd & _). apply Hd. reflexivity.
Qed.

(** ** The loop of the watcher *)

Section Loop.
Context {W : Type} `{Host W}.

Lemma handleFileEvent_other (w : Watcher.Watcher) (ev : Watcher.FsEvent)
      (s : St W) :
  GoLib.HasSuffix (Watcher.Name ev) ".tar" = false ->
  Watcher.handleFileEvent w ev s = (tt, s).
Proof.
  intros Hs. unfold Watcher.handleFileEvent. rewrite Hs. reflexivity.
Qed.

Lemma eventLoop_live_app (w : Watcher.Watcher) (a b : list Watcher.Selected) :
  forallb live a = true ->
  forall s : St W,
    fst (Watcher.eventLoop w a s) = None /\
    Watcher.eventLoop w (a ++ b) s
    = Watcher.eventLoop w b (snd (Watcher.eventLoop w a s)).
Proof.
  induction a as [|x a IH]; intros Hl s; [split; reflexivity|].
  cbn [forallb] in Hl. apply andb_prop in Hl. destruct Hl as [Hx Ha].
  destruct x as [|[ev|]|[e|]]; try discriminate Hx;
    cbn [app Watcher.eventLoop]; unfold bind.
  - destruct (Watcher.handleFileEvent w ev s) as [[] s1]. apply (IH Ha).
  - destruct (Utils.Error _ _ _ s) as [[] s1]. apply (IH Ha).
Qed.

(** How the loop can have ended, by what it returned. *)
Lemma eventLoop_result (w : Watcher.Watcher) (sel : list Watcher.Selected) :
  forall s : St W,
    match fst (Watcher.eventLoop w sel s) with
    | None => forallb live sel = true
    | Some r =>
        exists a x rest,
          sel = (a ++ x :: rest)%list /\ forallb live a = true /\
          match r with
          | None => x = Watcher.CtxDone
          | Some e =>
              (x = Watcher.FromEvents None /\
               e = Errorf "file watcher events channel closed" []) \/
              (x = Watcher.FromErrors None /\
               e = Errorf "file watcher errors channel closed" [])
          end
    end.
Proof.
  induction sel as [|x sel IH]; intros s; [reflexivity|].
  destruct x as [|[ev|]|[e|]]; cbn [Watcher.eventLoop forallb live andb].
  - exists [], Watcher.CtxDone, sel. repeat split.
  - unfold bind. destruct (Watcher.handleFileEvent w ev s) as [[] s1].
    specialize (IH s1).
    destruct (fst (Watcher.eventLoop w sel s1)) as [r|]; [|exact IH].
    destruct IH as (a & x & rest & -> & Ha & Hr).
    exists (Watcher.FromEvents (Some ev) :: a), x, rest.
    repeat split; [exact Ha | exact Hr].
  - exists [], (Watcher.FromEvents None), sel. repeat split. left.
    split; reflexivity.
  - unfold bind. destruct (Utils.Error _ _ _ s) as [[] s1].
    specialize (IH s1).
    destruct (fst (Watcher.eventLoop w sel s1)) as [r|]; [|exact IH].
    destruct IH as (a & x & rest & -> & Ha & Hr).
    exists (Watcher.FromErrors (Some e) :: a), x, rest.
    repeat split; [exact Ha | exact Hr].
  - exists [], (Watcher.FromErrors None), sel. repeat split. right.
    split; reflexivity.
Qed.

End Loop.

(** X8. No cycle ends the loop.  As long as its selects receive file
    events and watcher errors the loop has not returned, whatever the
    cycles on these events did to the world and whatever they returned,
    and it handles what comes next from the state they left: handling
    [a ++ b] is handling [a], then [b]. *)
Theorem eventLoop_keeps_watching :
  forall (W : Type) (HW : Host W) (w : Watcher.Watcher)
         (a b : list Watcher.Selected) (s : St W),
    forallb live a = true ->
    fst (Watcher.eventLoop w a s) = None /\
    Watcher.eventLoop w (a ++ b) s
    = Watcher.eventLoop w b (snd (Watcher.eventLoop w a s)).
Proof.
  intros W HW w a b s Hl. revert s.
  induction a as [|x a IH]; intros s; [split; reflexivity|].
  cbn [forallb] in Hl. apply andb_prop in Hl. destruct Hl as [Hx Ha].
  destruct x as [|[ev|]|[e|]]; try discriminate Hx;
    cbn [app Watcher.eventLoop]; unfold bind.
  - destruct (Watcher.handleFileEvent w ev s) as [[] s1]. apply (IH Ha).
  - destruct (Utils.Error _ _ _ s) as [[] s1]. apply (IH Ha).
Qed.

(** Two archives are announced on a machine that does not hold them:
    both cycles fail and the loop is still waiting. *)
Lemma eventLoop_keeps_watching_witness :
  let w := Watcher.mkWatcher (Config.Watcher Sim.sample) Sim.info in
  let arrivals :=
    [Watcher.FromEvents (Some (Watcher.mkFsEvent "/opt/docker-uploads/a.tar"
                                                 GoLib.Create));
     Watcher.FromErrors (Some (OsError "too many events"));
     Watcher.FromEvents (Some (Watcher.mkFsEvent "/opt/docker-uploads/b.tar"
                                                 GoLib.Write))] in
  fst (Watcher.eventLoop w arrivals (Sim.start Sim.idle)) = None.
Proof.
  intros w arrivals.
  apply (proj1 (eventLoop_keeps_watching Sim.World Sim.host w arrivals []
                  (Sim.start Sim.idle) eq_refl)).
Defined.

(** X9. The loop ends at the first selection that is a cancellation or
    a closed channel, after handling everything before it and nothing
    after it.  On a cancellation it logs that the watcher stopped and
    returns [nil]; on a closed channel it returns the error of that
    channel. *)
Theorem eventLoop_stops :
  forall (W : Type) (HW : Host W) (w : Watcher.Watcher)
         (a rest : list Watcher.Selected) (s : St W),
    forallb live a = true ->
    Watcher.eventLoop w (a ++ Watcher.CtxDone :: rest) s
    = (Some None,
       noted (Watcher.logger w) "File watcher stopped"
             (snd (Watcher.eventLoop w a s))) /\
    Watcher.eventLoop w (a ++ Watcher.FromEvents None :: rest) s
    = (Some (Some (Errorf "file watcher events channel closed" [])),
       snd (Watcher.eventLoop w a s)) /\
    Watcher.eventLoop w (a ++ Watcher.FromErrors None :: rest) s
    = (Some (Some (Errorf "file watcher errors channel closed" [])),
       snd (Watcher.eventLoop w a s)).
Proof.
  intros W HW w a rest s Hl.
  repeat split;
    rewrite (proj2 (eventLoop_live_app w a _ Hl s)); reflexivity.
Qed.

(** An archive that arrives after the cancellation is not deployed. *)
Lemma eventLoop_stops_witness :
  let w := Watcher.mkWatcher (Config.Watcher Sim.sample) Sim.info in
  Watcher.eventLoop w
    [Watcher.FromErrors (Some (OsError "too many events"));
     Watcher.CtxDone;
     Watcher.FromEvents (Some (Watcher.mkFsEvent "/opt/docker-uploads/a.tar"
                                                 GoLib.Create))]
    (Sim.start Sim.idle)
  = (Some None,
     mkSt Sim.idle
          [EvLog Sim.info LError "File watcher error: %v"
                 [AErr (OsError "too many events")];
           EvLog Sim.info LInfo "File watcher stopped" []]).
Proof.
  intros w.
  apply (proj1 (eventLoop_stops Sim.World Sim.host w
                  [Watcher.FromErrors (Some (OsError "too many events"))]
                  [Watcher.FromEvents
                     (Some (Watcher.mkFsEvent "/opt/docker-uploads/a.tar"
                                              GoLib.Create))]
                  (Sim.start Sim.idle) eq_refl)).
Defined.

(** X10. File events on paths without the archive suffix do not exist
    for the loop: with or without them in what the selects receive, the
    loop returns the same, makes the same calls and leaves the same
    world. *)
Theorem eventLoop_ignores_other_files :
  forall (W : Type) (HW : Host W) (w : Watcher.Watcher)
         (sel : list Watcher.Selected) (s : St W),
    Watcher.eventLoop w sel s
    = Watcher.eventLoop w (filter relevant sel) s.
Proof.
  intros W HW w sel.
  induction sel as [|x sel IH]; intros s; [reflexivity|].
  cbn [filter]. destruct (relevant x) eqn:Er.
  - destruct x as [|[ev|]|[e|]]; cbn [Watcher.eventLoop]; try reflexivity;
      unfold bind.
    + destruct (Watcher.handleFileEvent w ev s) as [[] s1]. apply IH.
    + destruct (Utils.Error _ _ _ s) as [[] s1]. apply IH.
  - destruct x as [|[ev|]|[e|]]; try discriminate Er.
    cbn [Watcher.eventLoop]. unfold bind.
    rewrite (handleFileEvent_other w ev s Er). apply IH.
Qed.

Section LoopReturns.
Context {W : Type} `{Host W}.

(** What the loop returns, by the first selection that is neither an
    event nor a watcher error. *)
Lemma eventLoop_returns (w : Watcher.Watcher) (sel : list Watcher.Selected)
      (s : St W) :
  (fst (Watcher.eventLoop w sel s) = None <-> forallb live sel = true) /\
  (fst (Watcher.eventLoop w sel s) = Some None <->
   exists a rest,
     sel = (a ++ Watcher.CtxDone :: rest)%list /\ forallb live a = true) /\
  (forall e,
      fst (Watcher.eventLoop w sel s) = Some (Some e) <->
      (exists a rest,
          sel = (a ++ Watcher.FromEvents None :: rest)%list /\
          forallb live a = true /\
          e = Errorf "file watcher events channel closed" []) \/
      (exists a rest,
          sel = (a ++ Watcher.FromErrors None :: rest)%list /\
          forallb live a = true /\
          e = Errorf "file watcher errors channel closed" [])).
Proof.
  pose proof (eventLoop_result w sel s) as Hr.
  assert (Hstop : forall a x rest,
             sel = (a ++ x :: rest)%list -> forallb live a = true ->
             fst (Watcher.eventLoop w sel s)
             = fst (Watcher.eventLoop w (x :: rest)
                      (snd (Watcher.eventLoop w a s)))).
  { intros a x rest -> Ha.
    rewrite (proj2 (eventLoop_live_app w a _ Ha s)). reflexivity. }
  split; [|split].
  - split.
    + intros E. rewrite E in Hr. exact Hr.
    + intros Hl. exact (proj1 (eventLoop_live_app w sel [] Hl s)).
  - split.
    + intros E. rewrite E in Hr.
      destruct Hr as (a & x & rest & Hs & Ha & Hx). subst x.
      exists a, rest. split; assumption.
    + intros (a & rest & Hs & Ha). rewrite (Hstop _ _ _ Hs Ha). reflexivity.
  - intros e. split.
    + intros E. rewrite E in Hr.
      destruct Hr as (a & x & rest & Hs & Ha & [[Hx He]|[Hx He]]); subst x;
        [left | right]; exists a, rest; auto.
    + intros [(a & rest & Hs & Ha & He)|(a & rest & Hs & Ha & He)];
        rewrite (Hstop _ _ _ Hs Ha), He; reflexivity.
Qed.

(** The return value of [Run], step by step: the start, then the
    loop. *)
Lemma Run_start (w : Watcher.Watcher) (n : Watcher.Notifier) (s : St W) :
  exists s2,
    fst (Watcher.Run w n s)
    = match fst (os_MkdirAll (WatchDirectory (Watcher.config w)) 493
                             (world s)) with
      | Some e =>
          Some (Some (Errorf "failed to create watch directory: %w"
                             [AErr e]))
      | None =>
          match Watcher.created n with
          | Some e =>
              Some (Some (Errorf "failed to create file watcher: %w"
                                 [AErr e]))
          | None =>
              match Watcher.added n with
              | Some e =>
                  Some (Some (Errorf "failed to add directory to watch: %w"
                                     [AErr e]))
              | None => fst (Watcher.eventLoop w (Watcher.selected n) s2)
              end
          end
      end.
Proof.
  unfold Watcher.Run, Utils.EnsureDir, Utils.Info.
  unfold bind at 1. unfold emit at 1. unfold bind at 1. unfold call.
  cbn [world trace].
  destruct (os_MkdirAll _ _ (world s)) as [mk w1]. cbn [fst].
  destruct mk as [e|]; [exists s; reflexivity|].
  destruct (Watcher.created n) as [e|]; [exists s; reflexivity|].
  destruct (Watcher.added n) as [e|]; [exists s; reflexivity|].
  unfold bind, emit. cbn [world trace]. eexists. reflexivity.
Qed.

End LoopReturns.

(** X11. When [Run] returns and what.  It has not returned exactly when
    its start succeeded (the watch directory could be made, the notifier
    was created and accepted the directory) and every selection so far
    is an event or a watcher error.  It returns [nil] exactly when its
    start succeeded and the first selection that is neither is a
    cancellation.  It returns an error in five cases and no other, each
    with its own error: the watch directory cannot be made, the notifier
    cannot be created, the notifier refuses the directory, and, after a
    start that succeeded, the first selection that is neither an event
    nor a watcher error is a closed events channel, or a closed errors
    channel.  The error of a cycle is never returned. *)
Theorem Run_returns :
  forall (W : Type) (HW : Host W) (w : Watcher.Watcher)
         (n : Watcher.Notifier) (s : St W),
    let mk := fst (os_MkdirAll (WatchDirectory (Watcher.config w)) 493
                               (world s)) in
    let started :=
      mk = None /\ Watcher.created n = None /\ Watcher.added n = None in
    (fst (Watcher.Run w n s) = None <->
     started /\ forallb live (Watcher.selected n) = true) /\
    (fst (Watcher.Run w n s) = Some None <->
     started /\
     exists a rest,
       Watcher.selected n = (a ++ Watcher.CtxDone :: rest)%list /\
       forallb live a = true) /\
    (forall e,
        fst (Watcher.Run w n s) = Some (Some e) <->
        (exists e', mk = Some e' /\
                    e = Errorf "failed to create watch directory: %w"
                               [AErr e']) \/
        (mk = None /\
         exists e', Watcher.created n = Some e' /\
                    e = Errorf "failed to create file watcher: %w"
                               [AErr e']) \/
        (mk = None /\ Watcher.created n = None /\
         exists e', Watcher.added n = Some e' /\
                    e = Errorf "failed to add directory to watch: %w"
                               [AErr e']) \/
        (started /\
         exists a rest,
           Watcher.selected n = (a ++ Watcher.FromEvents None :: rest)%list /\
           forallb live a = true /\
           e = Errorf "file watcher events channel closed" []) \/
        (started /\
         exists a rest,
           Watcher.selected n = (a ++ Watcher.FromErrors None :: rest)%list /\
           forallb live a = true /\
           e = Errorf "file watcher errors channel closed" [])).
Proof.
  intros W HW w n s. cbv zeta.
  destruct (Run_start w n s) as (s2 & HR). rewrite HR. clear HR.
  destruct (eventLoop_returns w (Watcher.selected n) s2) as (L1 & L2 & L3).
  destruct (fst (os_MkdirAll _ _ (world s))) as [e0|].
  { split; [|split]; [split | split | intros e; split].
    - discriminate.
    - intros [[Hm _] _]. discriminate Hm.
    - discriminate.
    - intros [[Hm _] _]. discriminate Hm.
    - intros E. injection E as <-. left. exists e0. split; reflexivity.
    - intros [(e' & Hm & ->)|[(Hm & _)|[(Hm & _)|[((Hm & _) & _)
                                                  |((Hm & _) & _)]]]];
        try discriminate Hm.
      injection Hm as <-. reflexivity. }
  destruct (Watcher.created n) as [e0|].
  { split; [|split]; [split | split | intros e; split].
    - discriminate.
    - intros [(_ & Hc & _) _]. discriminate Hc.
    - discriminate.
    - intros [(_ & Hc & _) _]. discriminate Hc.
    - intros E. injection E as <-. right. left.
      split; [reflexivity|]. exists e0. split; reflexivity.
    - intros [(e' & Hm & _)|[(_ & e' & Hc & ->)|[(_ & Hc & _)
                |[((_ & Hc & _) & _)|((_ & Hc & _) & _)]]]];
        try discriminate.
      injection Hc as <-. reflexivity. }
  destruct (Watcher.added n) as [e0|].
  { split; [|split]; [split | split | intros e; split].
    - discriminate.
    - intros [(_ & _ & Ha) _]. discriminate Ha.
    - discriminate.
    - intros [(_ & _ & Ha) _]. discriminate Ha.
    - intros E. injection E as <-. right. right. left.
      split; [reflexivity|]. split; [reflexivity|].
      exists e0. split; reflexivity.
    - intros [(e' & Hm & _)|[(_ & e' & Hc & _)|[(_ & _ & e' & Ha & ->)
                |[((_ & _ & Ha) & _)|((_ & _ & Ha) & _)]]]];
        try discriminate.
      injection Ha as <-. reflexivity. }
  split; [|split]; [split | split | intros e; split].
  - intros E. split; [repeat split | apply L1; exact E].
  - intros [_ Hl]. apply L1. exact Hl.
  - intros E. split; [repeat split | apply L2; exact E].
  - intros [_ Hd]. apply L2. exact Hd.
  - intros E. apply L3 in E. destruct E as [Hd|Hd].
    + right. right. right. left. split; [repeat split | exact Hd].
    + right. right. right. right. split; [repeat split | exact Hd].
  - intros [(e' & Hm & _)|[(_ & e' & Hc & _)|[(_ & _ & e' & Ha & _)
              |[(_ & Hd)|(_ & Hd)]]]]; try discriminate.
    + apply L3. left. exact Hd.
    + apply L3. right. exact Hd.
Qed.

(** ** What a cycle of the watcher spawns and removes *)

Section Effects.
Context {W : Type} `{Host W}.

Lemma did_new (s s' : St W) (new : list Event) (cmds rems : list string) :
  trace s' = (trace s ++ new)%list ->
  spawned new = cmds -> removals new = rems -> Did s s' cmds rems.
Proof.
  intros Ht Hc Hr. unfold Did. rewrite (since_app s s' new Ht).
  repeat split; assumption.
Qed.

Lemma did_refl (s : St W) : Did s s [] [].
Proof. apply (did_new s s []); [rewrite app_nil_r|..]; reflexivity. Qed.

Lemma did_trans (s0 s1 s2 : St W) (c1 c2 r1 r2 : list string) :
  Did s0 s1 c1 r1 -> Did s1 s2 c2 r2 ->
  Did s0 s2 (c1 ++ c2) (r1 ++ r2).
Proof.
  intros (T1 & C1 & R1) (T2 & C2 & R2).
  destruct (since_trans _ _ _ T1 T2) as [T S].
  unfold Did. rewrite S, spawned_app, removals_app, C1, C2, R1, R2.
  repeat split. rewrite <- S. exact T.
Qed.

Lemma did_warned lg msg e (s0 s : St W) cmds rems :
  Did s0 s cmds rems -> Did s0 (warned lg msg e s) cmds rems.
Proof.
  intros D. destruct e as [e|]; [|exact D].
  rewrite <- (app_nil_r cmds), <- (app_nil_r rems).
  apply (did_trans _ _ _ _ _ _ _ D).
  apply (did_new _ _ [EvLog lg LWarn msg [AErr e]]); reflexivity.
Qed.

Lemma did_noted lg msg (s0 s : St W) cmds rems :
  Did s0 s cmds rems -> Did s0 (noted lg msg s) cmds rems.
Proof.
  intros D. rewrite <- (app_nil_r cmds), <- (app_nil_r rems).
  apply (did_trans _ _ _ _ _ _ _ D).
  apply (did_new _ _ [EvLog lg LInfo msg []]); reflexivity.
Qed.

Lemma removals_local (t : list Event) :
  forallb local_only t = true -> removals t = [].
Proof.
  induction t as [|ev t IH]; simpl; [reflexivity|].
  destruct ev; simpl; intros Hq; try discriminate; auto.
Qed.

Lemma ExecuteCommands_did (commands : list string) (timeout : Z)
      (lg : Logger) (s s' : St W) (r : option error) :
  Utils.ExecuteCommands commands timeout lg s = (r, s') ->
  exists ran rest,
    Did s s' ran [] /\
    filter nonblank commands = (ran ++ rest)%list /\
    (r = None -> rest = []).
Proof.
  intros E.
  destruct (ExecuteCommands_prefix commands timeout lg s)
    as (new & rest & Ht & Hf & _ & Hres).
  destruct (framed_since _ _ _ _ _
              (ExecuteCommands_framed commands timeout lg) E) as [_ Hq].
  rewrite E in Ht, Hres. cbn [fst snd] in Ht, Hres.
  rewrite (since_app _ _ _ Ht) in Hq.
  exists (spawned new), rest. split; [|split].
  - apply (did_new _ _ new); [exact Ht | reflexivity|].
    apply removals_local. exact Hq.
  - exact Hf.
  - intros ->. apply Hres.
Qed.

Lemma hooks_did (commands : list string) (lg : Logger) (msg : string)
      (s s' : St W) (r : option error) :
  match commands with
  | [] => ret None
  | _ =>
      Utils.Info lg msg [] ;;
      Utils.ExecuteCommands commands (5 * GoLib.Minute) lg
  end s = (r, s') ->
  exists ran rest,
    Did s s' ran [] /\
    filter nonblank commands = (ran ++ rest)%list /\
    (r = None -> rest = []).
Proof.
  destruct commands as [|c cs].
  - intros E. injection E as <- <-. exists [], [].
    split; [apply did_refl | split; [reflexivity | intros _; reflexivity]].
  - unfold bind, Utils.Info, emit. intros E.
    destruct (ExecuteCommands_did _ _ _ _ _ _ E) as (ran & rest & D & Hf & Hr).
    exists ran, rest. split; [|split; assumption].
    refine (did_trans _ _ _ [] ran [] [] _ D).
    apply (did_new _ _ [EvLog lg LInfo msg []]); reflexivity.
Qed.

Lemma loadDockerImage_did (w : Watcher.Watcher) (p : string)
      (s s' : St W) (r : option error) :
  Watcher.loadDockerImage w p s = (r, s') ->
  Did s s' ["docker load -i " ++ p] [].
Proof.
  unfold Watcher.loadDockerImage, Utils.ExecuteCommand, Utils.Info,
    Utils.Debug.
  unfold bind, call, emit, ret. cbn [world trace].
  destruct (sh_run _ _ (world s)) as [raw w1]. cbn [fst snd world trace].
  destruct (snd (Utils.classify _ _ raw)); cbn [world trace];
    intros E; injection E as <- <-;
    (eapply did_new;
     [cbn [trace]; rewrite <- !app_assoc; reflexivity
     | reflexivity | reflexivity]).
Qed.

Lemma stopAndRemoveContainer_did (w : Watcher.Watcher)
      (s s' : St W) (r : option error) :
  Watcher.stopAndRemoveContainer w s = (r, s') ->
  Did s s' ["docker stop " ++ ContainerName (Watcher.config w);
            "docker rm " ++ ContainerName (Watcher.config w)] [].
Proof.
  unfold Watcher.stopAndRemoveContainer, Utils.ExecuteCommand, Utils.Info,
    Utils.Debug.
  unfold bind, call, emit, ret. cbn [world trace].
  destruct (sh_run _ _ (world s)) as [r1 w1]. cbn [fst snd world trace].
  destruct (snd (Utils.classify _ _ r1)); cbn [world trace];
    destruct (sh_run _ _ w1) as [r2 w2]; cbn [fst snd world trace];
    destruct (snd (Utils.classify _ _ r2)); cbn [world trace];
    intros E; injection E as <- <-;
    (eapply did_new;
     [cbn [trace]; rewrite <- !app_assoc; reflexivity
     | reflexivity | reflexivity]).
Qed.

Lemma startContainer_did (w : Watcher.Watcher)
      (s s' : St W) (r : option error) :
  Watcher.startContainer w s = (r, s') ->
  Did s s' [Watcher.buildDockerRunCommand w] [].
Proof.
  unfold Watcher.startContainer, Utils.ExecuteCommand, Utils.Info, Utils.Debug.
  unfold bind, call, emit, ret. cbn [world trace].
  destruct (sh_run _ _ (world s)) as [raw w1]. cbn [fst snd world trace].
  destruct (snd (Utils.classify _ _ raw)); cbn [world trace];
    intros E; injection E as <- <-;
    (eapply did_new;
     [cbn [trace]; rewrite <- !app_assoc; reflexivity
     | reflexivity | reflexivity]).
Qed.

Lemma cleanupTarball_did (w : Watcher.Watcher) (p : string)
      (s s' : St W) (r : option error) :
  Watcher.cleanupTarball w p s = (r, s') -> Did s s' [] [p].
Proof.
  unfold Watcher.cleanupTarball, Utils.Info, bind, emit, call.
  cbn [world trace]. destruct (os_Remove p _) as [e w1].
  intros E; injection E as <- <-.
  eapply did_new;
    [cbn [trace]; rewrite <- !app_assoc; reflexivity
    | reflexivity | reflexivity].
Qed.

End Effects.

Section CycleEffects.
Context {W : Type} `{Host W}.

Lemma deployCycle_did (w : Watcher.Watcher) (p : string) (s s' : St W)
      (r : option error) :
  Watcher.deployCycle w p s = (r, s') ->
  exists cmds rems, Did s s' cmds rems /\ cycle_outcome w p r cmds rems.
Proof.
  intros E.
  destruct (Watcher.executePreLoadCommands w s) as [e1 s1] eqn:E1.
  destruct (hooks_did _ _ _ _ _ _ E1) as (ran & rest & D1 & Hf & Hr).
  destruct e1 as [e1|].
  { rewrite (proj1 (deployCycle_fatal w p s) _ _ E1) in E.
    injection E as <- <-. exists ran, []. split; [exact D1|].
    split; [reflexivity|]. eexists. unfold mandatory.
    rewrite Hf, <- app_assoc. reflexivity. }
  specialize (Hr eq_refl). subst rest. rewrite app_nil_r in Hf.
  destruct (Watcher.loadDockerImage w p s1) as [e2 s2] eqn:E2.
  pose proof (did_trans _ _ _ _ _ _ _ D1 (loadDockerImage_did _ _ _ _ _ E2))
    as D2.
  destruct e2 as [e2|].
  { rewrite (proj1 (proj2 (deployCycle_fatal w p s)) _ _ _ E1 E2) in E.
    injection E as <- <-. eexists _, _. split; [exact D2|].
    split; [reflexivity|]. eexists. unfold mandatory.
    rewrite Hf, <- app_assoc. reflexivity. }
  destruct (Watcher.stopAndRemoveContainer w s2) as [e3 s3] eqn:E3.
  pose proof (did_trans _ _ _ _ _ _ _ D2
                (stopAndRemoveContainer_did _ _ _ _ E3)) as D3.
  destruct (Watcher.startContainer w s3) as [e4 s4] eqn:E4.
  pose proof (did_trans _ _ _ _ _ _ _ D3 (startContainer_did _ _ _ _ E4))
    as D4.
  destruct e4 as [e4|].
  { rewrite (proj2 (proj2 (deployCycle_fatal w p s)) _ _ _ _ _ _
               E1 E2 E3 E4) in E.
    injection E as <- <-. eexists _, _. split; [exact D4|].
    split; [reflexivity|]. exists []. unfold mandatory.
    rewrite Hf, <- !app_assoc. reflexivity. }
  destruct (Watcher.executePostLoadCommands w s4) as [e5 s5] eqn:E5.
  destruct (hooks_did _ _ _ _ _ _ E5) as (post & rest & D5 & Hp & _).
  pose proof (did_warned (Watcher.logger w) "Post-load commands failed: %v"
                e5 _ _ _ _ (did_trans _ _ _ _ _ _ _ D4 D5)) as D5'.
  destruct (Watcher.cleanupTarball w p
              (warned (Watcher.logger w) "Post-load commands failed: %v"
                      e5 s5)) as [e6 s6] eqn:E6.
  pose proof (did_trans _ _ _ _ _ _ _ D5' (cleanupTarball_did _ _ _ _ _ E6))
    as D6.
  rewrite (deployCycle_best_effort w p _ _ _ _ _ _ _ _ _ _
             E1 E2 E3 E4 E5 E6) in E.
  injection E as <- <-. eexists _, _.
  split; [apply did_noted, did_warned; exact D6|].
  split; [reflexivity|]. exists post, rest. split; [|exact Hp].
  unfold mandatory. rewrite Hf, app_nil_r, <- !app_assoc. reflexivity.
Qed.

Lemma processTarball_did (w : Watcher.Watcher) (p : string) (s s' : St W)
      (r : option error) :
  Watcher.processTarball w p s = (r, s') ->
  exists cmds rems, Did s s' cmds rems /\ cycle_outcome w p r cmds rems.
Proof.
  intros E.
  destruct (processTarball_entry w p s) as (s1 & new & Ht & He & Hrm & Hm).
  assert (D0 : Did s s1 [] []).
  { apply (did_new _ _ new); [exact Ht | | exact Hrm].
    unfold spawned. rewrite He. reflexivity. }
  assert (Hcycle : Watcher.deployCycle w p s1 = (r, s') ->
                   exists cmds rems,
                     Did s s' cmds rems /\ cycle_outcome w p r cmds rems).
  { intros Ec. destruct (deployCycle_did _ _ _ _ _ Ec) as (c & m & D & Ho).
    exists c, m. split; [|exact Ho].
    exact (did_trans _ _ _ _ _ _ _ D0 D). }
  destruct (stats new) as [|[q [|]] t]; try (apply Hcycle; congruence).
  rewrite Hm in E. injection E as <- <-.
  exists [], []. split; [exact D0|]. split; [reflexivity|].
  exists (mandatory w p). reflexivity.
Qed.

End CycleEffects.

(** X12. A cycle of the watcher asks for one removal, of the archive it
    was given, when it returns [nil], and for none when it returns an
    error: a missing archive, or a failure of the pre-load hooks, of the
    load or of the start of the container, leaves the archive in the
    watch directory. *)
Theorem processTarball_keeps_failed_archive :
  forall (W : Type) (HW : Host W) (w : Watcher.Watcher) (p : string)
         (s : St W),
    removals (since s (snd (Watcher.processTarball w p s)))
    = match fst (Watcher.processTarball w p s) with
      | None => [p]
      | Some _ => []
      end.
Proof.
  intros W HW w p s.
  destruct (Watcher.processTarball w p s) as [r s'] eqn:E.
  destruct (processTarball_did w p s s' r E)
    as (cmds & rems & (_ & _ & Hr) & Ho).
  cbn [fst snd]. rewrite Hr.
  destruct r as [e|]; destruct Ho as [-> _]; reflexivity.
Qed.

(** X13. The processes of a cycle, in order.  A cycle that returns
    [nil] has spawned every non-blank pre-load hook, the load of the
    archive, the stop and the removal of the old container and the start
    of the new one, in this order, and after them post-load hooks only,
    in the order of the configuration.  A cycle that returns an error
    has spawned a prefix of these mandatory commands and nothing
    else. *)
Theorem processTarball_commands :
  forall (W : Type) (HW : Host W) (w : Watcher.Watcher) (p : string)
         (s : St W),
    let ran := spawned (since s (snd (Watcher.processTarball w p s))) in
    match fst (Watcher.processTarball w p s) with
    | None =>
        exists post rest,
          ran = (mandatory w p ++ post)%list /\
          filter nonblank (PostLoadCommands (Watcher.config w))
          = (post ++ rest)%list
    | Some _ => exists rest, mandatory w p = (ran ++ rest)%list
    end.
Proof.
  intros W HW w p s.
  destruct (Watcher.processTarball w p s) as [r s'] eqn:E.
  destruct (processTarball_did w p s s' r E)
    as (cmds & rems & (_ & Hc & _) & Ho).
  cbn [fst snd]. cbv zeta. rewrite Hc.
  destruct r as [e|]; destruct Ho as [_ Ho]; exact Ho.
Qed.

(** ** The handles of a transfer *)

Lemma release_head (r : Resource) (held : list Resource) :
  release r (r :: held) = held.
Proof.
  cbn [release].
  assert (E : same_resource r r = true)
    by (destruct r as [[i]|[i]|[i]]; apply Nat.eqb_refl).
  rewrite E. reflexivity.
Qed.

Lemma holding_app (held : list Resource) (a b : list Event) :
  holding held (a ++ b) = holding (holding held a) b.
Proof. apply fold_left_app. Qed.

(** The next step of a symbolic run of [createSSHClient]: the parse of
    the key that was read. *)
Ltac step_parse :=
  match goal with
  | |- context [ssh_ParsePrivateKey ?b] =>
      destruct (ssh_ParsePrivateKey b); reduce
  end.

Ltac step_found :=
  match goal with
  | |- context [Utils.found ?r] => is_var r; destruct r; reduce
  end.

Section Handles.
Context {W : Type} `{Host W}.

Lemma scpUpload_neutral (u : Uploader.Uploader) (client : Client)
      (localPath : string) (s s' : St W) (r : option error) :
  Uploader.scpUpload u client localPath s = (r, s') ->
  forall held, holding held (since s s') = held.
Proof.
  unfold Uploader.scpUpload, Uploader.deferring, Uploader.scpSend,
    Uploader.io_Copy.
  unfold bind, call, emit, ret. reduce.
  repeat first [step_call | step_result];
    intros E; injection E as <- <-; since_goal; intros held;
    cbn [holding fold_left track app]; rewrite ?release_head; reflexivity.
Qed.

Lemma createSSHClient_holds (u : Uploader.Uploader) (s s' : St W)
      (r : Client + error) :
  Uploader.createSSHClient u s = (r, s') ->
  forall held,
    holding held (since s s')
    = match r with inl c => RClient c :: held | inr _ => held end.
Proof.
  set (k := fun (r : Client + error) (held : list Resource) =>
              match r with inl c => RClient c :: held | inr _ => held end).
  change (Uploader.createSSHClient u s = (r, s') ->
          forall held, holding held (since s s') = k r held).
  assert (Hk : k = fun r held =>
                     match r with inl c => RClient c :: held | inr _ => held end)
    by reflexivity.
  clearbody k.
  unfold Uploader.createSSHClient, Utils.FileExists, Utils.Warn.
  unfold bind, call, emit, ret. reduce.
  destruct (negb (String.eqb (RemoteKeyPath (Uploader.config u)) ""));
    reduce;
    repeat first [step_call | step_result | step_parse | step_found];
    intros E; injection E as <- <-; since_goal; intros held; rewrite Hk;
    reflexivity.
Qed.

End Handles.

(** X14. An upload returns with every handle it took given back: the
    client it dialled, the file it opened and the session it created
    are closed before [uploadTarball] returns, on every path, whatever
    failed on the way; and it closes no handle that it did not take
    itself. *)
Theorem uploadTarball_closes_handles :
  forall (W : Type) (HW : Host W) (u : Uploader.Uploader) (p : string)
         (s : St W) (held : list Resource),
    holding held (since s (snd (Uploader.uploadTarball u p s))) = held.
Proof.
  intros W HW u p s held.
  destruct (Uploader.uploadTarball u p s) as [r s'] eqn:E. cbn [snd].
  revert E. unfold Uploader.uploadTarball.
  unfold bind at 1. unfold Utils.Info at 1, emit.
  unfold bind at 1.
  match goal with
  | |- context [Uploader.createSSHClient u ?st] => set (s0 := st)
  end.
  destruct (Uploader.createSSHClient u s0) as [cr s1] eqn:E1.
  pose proof (createSSHClient_holds u s0 s1 cr E1) as H1.
  destruct (framed_since _ _ _ _ _ (createSSHClient_framed u) E1) as [T1 _].
  destruct cr as [c|e].
  - unfold Uploader.deferring. unfold bind at 1. unfold bind at 1.
    destruct (Uploader.scpUpload u c p s1) as [e2 s2] eqn:E2.
    pose proof (scpUpload_neutral u c p s1 s2 e2 E2) as H2.
    destruct (framed_since _ _ _ _ _ (scpUpload_framed u c p) E2) as [T2 _].
    destruct e2 as [e2|]; unfold Utils.Info, bind, call, emit, ret;
      cbn [world trace]; destruct (client_Close c _) as [ce w3];
      intros E; injection E as <- <-;
      (erewrite since_app
         by (cbn [trace]; rewrite T2, T1; unfold s0; cbn [trace];
             rewrite <- !app_assoc; reflexivity));
      cbn [app holding fold_left track];
      change (fold_left track ?t ?h) with (holding h t);
      rewrite !holding_app, H1, H2; cbn [holding fold_left track];
      apply release_head.
  - unfold ret. intros E. injection E as <- <-.
    (erewrite since_app
       by (rewrite T1; unfold s0; cbn [trace];
           rewrite <- !app_assoc; reflexivity)).
    cbn [app holding fold_left track].
    change (fold_left track ?t ?h) with (holding h t).
    apply H1.
Qed.

Ltac step_key :=
  match goal with
  | |- context [ssh_ParsePrivateKey ?b] =>
      let Ep := fresh "Ep" in
      destruct (ssh_ParsePrivateKey b) eqn:Ep; reduce
  end.

(** X15. The private key of a connection.  With no key path configured
    no file is read and the one dial offers the server no
    authentication method.  With a key path the first call reads that
    file; when the read or the parse of the key fails the function
    returns that error, wrapped, and makes no other call, so no
    connection is attempted; otherwise the one dial offers exactly the
    parsed key. *)
Theorem createSSHClient_authentication :
  forall (W : Type) (HW : Host W) (u : Uploader.Uploader) (s : St W),
    let key := RemoteKeyPath (Uploader.config u) in
    let user := RemoteUser (Uploader.config u) in
    let run := Uploader.createSSHClient u s in
    let new := since s (snd run) in
    if String.eqb key "" then
      (forall path k, ~ In (EvReadFile path k) new) /\
      exists cb,
        dials new = [mkClientConfig user [] cb (30 * GoLib.Second)]
    else
      exists k rest,
        new = EvReadFile key k :: rest /\
        match k with
        | inr e =>
            rest = [] /\
            fst run = inr (Errorf "failed to read private key: %w" [AErr e])
        | inl bytes =>
            match ssh_ParsePrivateKey bytes with
            | inr e =>
                rest = [] /\
                fst run
                = inr (Errorf "failed to parse private key: %w" [AErr e])
            | inl signer =>
                exists cb,
                  dials rest
                  = [mkClientConfig user [signer] cb (30 * GoLib.Second)]
            end
        end.
Proof.
  intros W HW u s. cbv zeta.
  unfold Uploader.createSSHClient, Utils.FileExists, Utils.Warn.
  unfold bind, call, emit, ret. reduce.
  destruct (String.eqb (RemoteKeyPath (Uploader.config u)) "");
    cbn [negb]; reduce;
    repeat first [step_call | step_result | step_found | step_key];
    since_goal; cbn [app];
    lazymatch goal with
    | |- _ /\ _ =>
        split;
        [ intros path k Hin; cbn [In] in Hin;
          repeat match goal with
                 | Hd : _ \/ _ |- _ => destruct Hd as [Hd|Hd]
                 end;
          first [discriminate | contradiction]
        | eexists; reflexivity ]
    | |- exists _, _ =>
        do 2 eexists; split; [reflexivity|];
        cbn beta iota; rewrite ?Ep;
        first [split; reflexivity | eexists; reflexivity]
    end.
Qed.

(** ** The processes of a run of the uploader *)

Ltac step_status :=
  match goal with
  | |- context [snd (Utils.classify ?c ?t ?raw)] =>
      let Ec := fresh "Ec" in
      destruct (snd (Utils.classify c t raw)) eqn:Ec; reduce
  end.

Section Pipeline.
Context {W : Type} `{Host W}.

Lemma ran_new (s s' : St W) (new : list Event)
      (xs : list (string * Z * RawRun)) (rems : list string) :
  trace s' = (trace s ++ new)%list ->
  execs new = xs -> removals new = rems -> Ran s s' xs rems.
Proof.
  intros Ht Hc Hr. unfold Ran. rewrite (since_app s s' new Ht).
  repeat split; assumption.
Qed.

Lemma ran_trans (s0 s1 s2 : St W) (x1 x2 : list (string * Z * RawRun))
      (r1 r2 : list string) :
  Ran s0 s1 x1 r1 -> Ran s1 s2 x2 r2 -> Ran s0 s2 (x1 ++ x2) (r1 ++ r2).
Proof.
  intros (T1 & C1 & R1) (T2 & C2 & R2).
  destruct (since_trans _ _ _ T1 T2) as [T S].
  unfold Ran. rewrite S, execs_app, removals_app, C1, C2, R1, R2.
  repeat split. rewrite <- S. exact T.
Qed.

Lemma quiet_nothing (t : list Event) :
  forallb quiet t = true -> execs t = [] /\ removals t = [].
Proof.
  induction t as [|ev t IH]; simpl; [split; reflexivity|].
  destruct ev; simpl; intros Hq; try discriminate; auto.
Qed.

Lemma ran_quiet {A} (m : M W A) (s s' : St W) (r : A) :
  Framed quiet m -> m s = (r, s') -> Ran s s' [] [].
Proof.
  intros Hm E. destruct (framed_since _ _ _ _ _ Hm E) as [T Q].
  destruct (quiet_nothing _ Q) as [Hx Hr].
  unfold Ran. repeat split; assumption.
Qed.

Lemma io_Copy_quiet dst src : Framed quiet (Uploader.io_Copy dst src).
Proof. unfold Uploader.io_Copy. framed. Qed.

Lemma createSSHClient_quiet u : Framed quiet (Uploader.createSSHClient u).
Proof.
  unfold Uploader.createSSHClient, Utils.FileExists, Utils.Warn. framed.
Qed.

Lemma scpSend_quiet sess f info name remote :
  Framed quiet (Uploader.scpSend sess f info name remote).
Proof. unfold Uploader.scpSend. pose proof io_Copy_quiet. framed. Qed.

Lemma scpUpload_quiet u c p : Framed quiet (Uploader.scpUpload u c p).
Proof.
  unfold Uploader.scpUpload, Uploader.deferring.
  pose proof scpSend_quiet. framed.
Qed.

Lemma uploadTarball_quiet u p : Framed quiet (Uploader.uploadTarball u p).
Proof.
  unfold Uploader.uploadTarball, Uploader.deferring, Utils.Info.
  pose proof (createSSHClient_quiet u).
  pose proof (scpUpload_quiet u).
  framed.
Qed.

(** A hook set that returned [nil] has spawned every non-blank command
    of the set, in order, and each of them succeeded. *)
Lemma hooks_ran (commands : list string) (lg : Logger) (msg : string)
      (s s' : St W) :
  match commands with
  | [] => ret None
  | _ =>
      Utils.Info lg msg [] ;;
      Utils.ExecuteCommands commands (5 * GoLib.Minute) lg
  end s = (None, s') ->
  exists xs,
    Ran s s' xs [] /\
    map (fun x => fst (fst x)) xs = filter nonblank commands /\
    Forall succeeded xs.
Proof.
  destruct commands as [|c cs].
  - intros E. injection E as <-. exists [].
    split; [|split; [reflexivity | constructor]].
    apply (ran_new _ _ []); [rewrite app_nil_r|..]; reflexivity.
  - unfold bind, Utils.Info, emit. intros E.
    match type of E with
    | Utils.ExecuteCommands ?cmds ?t ?l ?st = _ =>
        destruct (ExecuteCommands_prefix cmds t l st)
          as (new & rest & Ht & Hf & _ & Hres);
        destruct (framed_since _ _ _ _ _
                    (ExecuteCommands_framed cmds t l) E) as [_ Hq]
    end.
    rewrite E in Ht, Hres. cbn [fst snd trace] in Ht, Hres.
    rewrite (since_app (mkSt (world s) (trace s ++ [EvLog lg LInfo msg []]))
               s' new Ht) in Hq.
    destruct Hres as [-> Hok]. rewrite app_nil_r in Hf.
    exists (execs new). split; [|split; [symmetry; exact Hf | exact Hok]].
    apply (ran_new _ _ (EvLog lg LInfo msg [] :: new)).
    + rewrite Ht, <- app_assoc. reflexivity.
    + reflexivity.
    + cbn [removals]. apply removals_local. exact Hq.
Qed.

Lemma buildDockerImage_ran (u : Uploader.Uploader) (s s' : St W) :
  Uploader.buildDockerImage u s = (None, s') ->
  exists raw,
    Ran s s' [(buildLine (Uploader.config u), 15 * GoLib.Minute, raw)] [] /\
    succeeded (buildLine (Uploader.config u), 15 * GoLib.Minute, raw).
Proof.
  unfold Uploader.buildDockerImage, Utils.ExecuteCommand, Utils.Info,
    Utils.Debug.
  fold (buildLine (Uploader.config u)).
  unfold bind, call, emit, ret. cbn [world trace].
  destruct (sh_run _ _ (world s)) as [raw w1]. cbn [fst snd world trace].
  destruct (snd (Utils.classify _ _ raw)) eqn:Ec; cbn [world trace];
    intros E; [discriminate E|]. injection E as <-.
  exists raw. split; [|exact Ec].
  eapply ran_new;
    [cbn [trace]; rewrite <- !app_assoc; reflexivity
    | reflexivity | reflexivity].
Qed.

Lemma createTarball_ran (u : Uploader.Uploader) (s s' : St W)
      (res : string * option error) :
  Uploader.createTarball u s = (res, s') ->
  snd res = None ->
  exists stamp raw,
    fst res = archivePath (Uploader.config u) stamp /\
    Ran s s' [(saveLine (Uploader.config u) (fst res), 10 * GoLib.Minute,
               raw)] [] /\
    succeeded (saveLine (Uploader.config u) (fst res), 10 * GoLib.Minute,
               raw) /\
    In (EvNow "20060102-150405" stamp) (since s s') /\
    In (EvStat (fst res) true) (since s s').
Proof.
  unfold Uploader.createTarball, Utils.EnsureDir, Utils.FileExists,
    Utils.GetFileSize, Utils.ExecuteCommand, Utils.Info, Utils.Debug,
    Utils.Warn.
  unfold archivePath, archiveName.
  unfold bind, call, emit, ret. reduce.
  destruct (negb (String.eqb (TarballPath (Uploader.config u)) "")); reduce;
    repeat first [step_call | step_result | step_found | step_status];
    intros E Ho; injection E as <- <- <-;
    first
      [ discriminate Ho
      | do 2 eexists;
        split; [reflexivity|];
        split;
        [ eapply ran_new;
          [ cbn [trace]; rewrite <- !app_assoc; reflexivity
          | reflexivity | reflexivity ] |];
        split; [exact Ec|];
        since_goal; cbn [In app]; auto 12 ].
Qed.

End Pipeline.

(** X16. A run of the uploader that returns [nil], by its processes.
    It spawned, in this order, every non-blank pre-build hook, the
    build, the export of the image to the archive and every non-blank
    post-build hook, and no other process; each of them succeeded; and
    the one removal it asked for is that of the archive it exported,
    whose path is made of the image name, the tag and the time of the
    run. *)
Theorem Run_success_processes :
  forall (W : Type) (HW : Host W) (u : Uploader.Uploader) (s s' : St W),
    Uploader.Run u s = (None, s') ->
    exists stamp,
      let c := Uploader.config u in
      let p := archivePath c stamp in
      spawned (since s s')
      = (filter nonblank (PreBuildCommands c)
         ++ [buildLine c; saveLine c p]
         ++ filter nonblank (PostBuildCommands c))%list /\
      Forall succeeded (execs (since s s')) /\
      removals (since s s') = [p].
Proof.
  intros W HW u s s'. unfold Uploader.Run.
  unfold bind at 1. unfold Utils.Info at 1, emit.
  fold (noted (Uploader.logger u) "Starting uploader workflow..." s).
  assert (R0 : Ran s (noted (Uploader.logger u)
                            "Starting uploader workflow..." s) [] [])
    by (apply (ran_new _ _ [EvLog (Uploader.logger u) LInfo
                                  "Starting uploader workflow..." []]);
        reflexivity).
  unfold bind at 1.
  destruct (Uploader.executePreBuildCommands u _) as [e1 s1] eqn:E1.
  destruct e1 as [e1|]; [intros E; discriminate E|].
  destruct (hooks_ran _ _ _ _ _ E1) as (x1 & R1 & M1 & F1).
  unfold bind at 1.
  destruct (Uploader.buildDockerImage u s1) as [e2 s2] eqn:E2.
  destruct e2 as [e2|]; [intros E; discriminate E|].
  destruct (buildDockerImage_ran u s1 s2 E2) as (raw2 & R2 & F2).
  unfold bind at 1.
  destruct (Uploader.createTarball u s2) as [res s3] eqn:E3.
  destruct (snd res) as [e3|] eqn:Es; [intros E; discriminate E|].
  destruct (createTarball_ran u s2 s3 res E3 Es)
    as (stamp & raw3 & Hp & R3 & F3 & _).
  unfold bind at 1.
  destruct (Uploader.uploadTarball u (fst res) s3) as [e4 s4] eqn:E4.
  destruct e4 as [e4|]; [intros E; discriminate E|].
  pose proof (ran_quiet _ _ _ _ (uploadTarball_quiet u (fst res)) E4) as R4.
  unfold bind at 1.
  destruct (Uploader.executePostBuildCommands u s4) as [e5 s5] eqn:E5.
  destruct e5 as [e5|]; [intros E; discriminate E|].
  destruct (hooks_ran _ _ _ _ _ E5) as (x5 & R5 & M5 & F5).
  pose proof (ran_trans _ _ _ _ _ _ _
                (ran_trans _ _ _ _ _ _ _
                   (ran_trans _ _ _ _ _ _ _
                      (ran_trans _ _ _ _ _ _ _
                         (ran_trans _ _ _ _ _ _ _ R0 R1) R2) R3) R4) R5)
    as R.
  unfold Uploader.cleanupTarball, Utils.Info, Utils.Warn.
  unfold bind, call, emit, ret. cbn [world trace].
  destruct (os_Remove (fst res) (world s5)) as [e6 w6].
  intros E.
  assert (R6 : Ran s5 s' [] [fst res]).
  { destruct e6; cbn [fst snd world trace] in E; injection E as <-;
      (eapply ran_new;
       [cbn [trace]; rewrite <- !app_assoc; reflexivity
       | reflexivity | reflexivity]). }
  destruct (ran_trans _ _ _ _ _ _ _ R R6) as (_ & Hx & Hr).
  exists stamp. cbv zeta. rewrite <- Hp.
  unfold spawned. rewrite Hx, Hr. cbn [app]. rewrite !app_nil_r.
  split; [|split; [|reflexivity]].
  - rewrite !map_app, M1, M5. cbn [map fst app].
    rewrite <- !app_assoc. reflexivity.
  - rewrite !Forall_app. repeat split; try assumption;
      repeat constructor; assumption.
Qed.

(** A run with one hook on each side, on a machine where every command
    succeeds, the export leaves the archive and the remote host takes
    the copy. *)
Lemma Run_success_processes_witness :
  let u := Uploader.mkUploader
             (mkUploaderConfig "./examples/sample-app" "web" "latest"
                "tarballs" "192.168.1.100" 22 "deploy" "" "/opt/docker-uploads"
                "" ["echo start"; "  "] ["echo done"]) Sim.info in
  let w := Sim.mkWorld
             [("tarballs/web_latest_20240704-101112.tar", mkFileInfo 420 3)]
             [] [] true true [] false 0 [] false in
  let s := Sim.start w in
  let s' := snd (Uploader.Run u s) in
  exists stamp,
    let c := Uploader.config u in
    let p := archivePath c stamp in
    spawned (since s s')
    = (filter nonblank (PreBuildCommands c)
       ++ [buildLine c; saveLine c p]
       ++ filter nonblank (PostBuildCommands c))%list /\
    Forall succeeded (execs (since s s')) /\
    removals (since s s') = [p].
Proof.
  intros u w s s'.
  apply (Run_success_processes Sim.World Sim.host u s s').
  vm_compute. reflexivity.
Defined.

Section Stages.
Context {W : Type} `{Host W}.

Lemma all_start P (s : St W) :
  trace s = (trace s ++ since s s)%list /\ forallb P (since s s) = true.
Proof.
  assert (E : since s s = []).
  { apply since_app. rewrite app_nil_r. reflexivity. }
  rewrite E, app_nil_r. split; reflexivity.
Qed.

Lemma all_step {A} P (m : M W A) (s0 s1 s2 : St W) (r : A) :
  trace s1 = (trace s0 ++ since s0 s1)%list /\
  forallb P (since s0 s1) = true ->
  Framed P m -> m s1 = (r, s2) ->
  trace s2 = (trace s0 ++ since s0 s2)%list /\
  forallb P (since s0 s2) = true.
Proof.
  intros [T1 Q1] Hm E.
  destruct (framed_since _ _ _ _ _ Hm E) as [T2 Q2].
  destruct (since_trans _ _ _ T1 T2) as [T S].
  split; [exact T|]. rewrite S, forallb_app, Q1, Q2. reflexivity.
Qed.

Lemma Info_framed lg msg args : Framed (W:=W) local_only (Utils.Info lg msg args).
Proof. unfold Utils.Info. framed. Qed.

End Stages.

(** X17. The errors of a run of the uploader.  [Run] returns the error
    of the step that failed, wrapped under the name of that step, and
    there are five such names.  When the step is the pre-build hook set,
    the build or the creation of the archive, no call of the remote
    copy transport was made: no key was read, no connection attempted,
    no file opened. *)
Theorem Run_failure_stage :
  forall (W : Type) (HW : Host W) (u : Uploader.Uploader) (s s' : St W)
         (e : error),
    Uploader.Run u s = (Some e, s') ->
    (exists e',
        (e = Errorf "pre-build commands failed: %w" [AErr e'] \/
         e = Errorf "docker build failed: %w" [AErr e'] \/
         e = Errorf "tarball creation failed: %w" [AErr e']) /\
        filter is_transport (since s s') = []) \/
    (exists e', e = Errorf "upload failed: %w" [AErr e']) \/
    (exists e', e = Errorf "post-build commands failed: %w" [AErr e']).
Proof.
  intros W HW u s s' e. unfold Uploader.Run.
  unfold bind at 1.
  destruct (Utils.Info (Uploader.logger u) "Starting uploader workflow..."
                       [] s) as [[] s0] eqn:E0.
  pose proof (all_step _ _ _ _ _ _ (all_start local_only s)
                (Info_framed _ _ _) E0) as L0.
  unfold bind at 1.
  destruct (Uploader.executePreBuildCommands u s0) as [e1 s1] eqn:E1.
  pose proof (all_step _ _ _ _ _ _ L0 (executePreBuildCommands_framed u) E1)
    as L1.
  destruct e1 as [e1|].
  { intros E. injection E as <- <-. left. exists e1.
    split; [auto | apply transport_none, L1]. }
  unfold bind at 1.
  destruct (Uploader.buildDockerImage u s1) as [e2 s2] eqn:E2.
  pose proof (all_step _ _ _ _ _ _ L1 (buildDockerImage_framed u) E2) as L2.
  destruct e2 as [e2|].
  { intros E. injection E as <- <-. left. exists e2.
    split; [auto | apply transport_none, L2]. }
  unfold bind at 1.
  destruct (Uploader.createTarball u s2) as [res s3] eqn:E3.
  pose proof (all_step _ _ _ _ _ _ L2 (createTarball_framed u) E3) as L3.
  destruct (snd res) as [e3|].
  { intros E. injection E as <- <-. left. exists e3.
    split; [auto | apply transport_none, L3]. }
  unfold bind at 1.
  destruct (Uploader.uploadTarball u (fst res) s3) as [e4 s4].
  destruct e4 as [e4|].
  { intros E. injection E as <- <-. right. left. exists e4. reflexivity. }
  unfold bind at 1.
  destruct (Uploader.executePostBuildCommands u s4) as [e5 s5].
  destruct e5 as [e5|].
  { intros E. injection E as <- <-. right. right. exists e5. reflexivity. }
  unfold bind, ret.
  destruct (Uploader.cleanupTarball u (fst res) s5) as [e6 s6].
  destruct e6; unfold Utils.Warn, Utils.Info, emit; intros E; discriminate E.
Qed.

(** The build fails: the run ends there and nothing leaves the
    machine. *)
Lemma Run_failure_stage_witness :
  let u := Uploader.mkUploader
             (mkUploaderConfig "./examples/sample-app" "web" "latest"
                "tarballs" "192.168.1.100" 22 "deploy" "~/.ssh/id_rsa"
                "/opt/docker-uploads" "make image" ["echo start"]
                ["echo done"]) Sim.info in
  let w := Sim.mkWorld [] ["make image"] [] true true [] false 0 [] false in
  let s := Sim.start w in
  filter is_transport (since s (snd (Uploader.Run u s))) = [].
Proof.
  intros u w s.
  destruct (Run_failure_stage Sim.World Sim.host u s (snd (Uploader.Run u s))
              (Errorf "docker build failed: %w"
                 [AErr (Errorf "command failed: %s, output: %s"
                               [AStr "exit status 1"; AStr "boom"])]))
    as [(e' & _ & Hnone)|[(e' & He)|(e' & He)]];
    [vm_compute; reflexivity | exact Hnone | discriminate He
    | discriminate He].
Defined.

(** ** The commands that query the container *)

(** X18. The [status] and [logs] commands look at the mode of the
    loaded configuration only.  When it is not the watcher mode they
    make no call at all.  When it is, each makes exactly one call, the
    query, on the configured container name, without validating the
    configuration: with no configuration file, which [Validate]
    rejects, [status] still runs the query, with an empty name. *)
Theorem show_queries_unvalidated :
  forall (W : Type) (HW : Host W) (cfg : Config.Config) (s : St W)
         (decoded : Config.Config + error),
    let name := ContainerName (Config.Watcher cfg) in
    (if String.eqb (Config.Mode cfg) "watcher" then
       (exists raw,
           since s (snd (Cmd.showStatus (inl cfg) s))
           = [EvExec ("docker ps -a --filter name=" ++ name
                      ++ " --format '{{.Status}}'")
                     (10 * GoLib.Second) raw]) /\
       (exists raw,
           since s (snd (Cmd.showLogs (inl cfg) s))
           = [EvExec ("docker logs --tail 50 " ++ name)
                     (30 * GoLib.Second) raw])
     else
       Cmd.showStatus (inl cfg) s = (Cmd.ShowNotWatcher, s) /\
       Cmd.showLogs (inl cfg) s = (Cmd.ShowNotWatcher, s)) /\
    Config.Validate Config.defaults <> None /\
    spawned (since s (snd (Cmd.showStatus (Config.LoadConfig "" decoded) s)))
    = ["docker ps -a --filter name= --format '{{.Status}}'"].
Proof.
  intros W HW cfg s decoded name.
  assert (Hq : forall c,
             Config.Mode c = "watcher" ->
             (exists raw,
                 since s (snd (Cmd.showStatus (inl c) s))
                 = [EvExec ("docker ps -a --filter name="
                            ++ ContainerName (Config.Watcher c)
                            ++ " --format '{{.Status}}'")
                           (10 * GoLib.Second) raw]) /\
             (exists raw,
                 since s (snd (Cmd.showLogs (inl c) s))
                 = [EvExec ("docker logs --tail 50 "
                            ++ ContainerName (Config.Watcher c))
                           (30 * GoLib.Second) raw])).
  { intros c Hm.
    unfold Cmd.showStatus, Cmd.showLogs, Watcher.GetContainerStatus,
      Watcher.GetContainerLogs.
    rewrite Hm. cbn [String.eqb Ascii.eqb Bool.eqb negb].
    unfold bind. rewrite !ExecuteCommand_run. cbn [Watcher.config fst snd].
    split.
    - destruct (snd (Utils.classify _ _ _)); unfold ret; cbn [snd fst];
        [|match goal with
          | |- context [if ?b then _ else _] => destruct b
          end];
        cbn [snd]; since_goal; eexists; reflexivity.
    - destruct (snd (Utils.classify _ _ _)); unfold ret; cbn [snd fst];
        since_goal; eexists; reflexivity. }
  split; [|split].
  - destruct (String.eqb (Config.Mode cfg) "watcher") eqn:Em.
    + apply Hq. apply String.eqb_eq. exact Em.
    + unfold Cmd.showStatus, Cmd.showLogs. rewrite Em. split; reflexivity.
  - discriminate.
  - destruct (Hq Config.defaults eq_refl) as [(raw & Hs) _].
    change (Config.LoadConfig "" decoded) with (@inl _ error Config.defaults).
    rewrite Hs. reflexivity.
Qed.

(** ** The header of a remote copy *)

Lemma Perm_range (mode : Z) : 0 <= GoLib.Perm mode < 512.
Proof.
  unfold GoLib.Perm, GoLib.ModePerm. change 511 with (Z.ones 9).
  rewrite Z.land_ones by lia. apply Z.mod_pos_bound. lia.
Qed.

Lemma mode_digits (n : Z) :
  0 <= n < 512 ->
  has_space (GoLib.fmt_sharp_o n) = false /\
  Nat.eqb (String.length (GoLib.fmt_sharp_o n)) 4 = (64 <=? n) /\
  (String.length (GoLib.fmt_sharp_o n) <= 4)%nat.
Proof.
  intros Hn.
  assert (F : forallb
                (fun k =>
                   let f := GoLib.fmt_sharp_o (Z.of_nat k) in
                   negb (has_space f)
                   && Bool.eqb (Nat.eqb (String.length f) 4)
                               (64 <=? Z.of_nat k)
                   && Nat.leb (String.length f) 4)
                (seq 0 512) = true) by (vm_compute; reflexivity).
  rewrite forallb_forall in F. specialize (F (Z.to_nat n)).
  rewrite Z2Nat.id in F by lia. cbv zeta in F.
  assert (Hin : In (Z.to_nat n) (seq 0 512)) by (apply in_seq; lia).
  apply F in Hin. apply andb_prop in Hin. destruct Hin as [Hin Hle].
  apply andb_prop in Hin. destruct Hin as [Hs He].
  split; [|split].
  - apply negb_true_iff. exact Hs.
  - apply Bool.eqb_prop. exact He.
  - apply Nat.leb_le. exact Hle.
Qed.

(** X19. The first field of the header of a copy is the letter C
    followed by the permission bits in octal with a leading zero.  It
    has four digits exactly when the permission bits reach 0100, that
    is when the owner of the file has some permission on it; below, the
    field is shorter. *)
Theorem scpHeader_mode_field :
  forall (info : FileInfo) (fileName : string),
    let field := hd "" (words (Uploader.scpHeader info fileName)) in
    field = "C" ++ GoLib.fmt_sharp_o (GoLib.Perm (fi_mode info)) /\
    (String.length field = 5%nat <-> 64 <= GoLib.Perm (fi_mode info)) /\
    (String.length field <= 5)%nat.
Proof.
  intros info fileName.
  destruct (mode_digits _ (Perm_range (fi_mode info))) as (Hs & Hl & Hle).
  assert (Hf : hd "" (words (Uploader.scpHeader info fileName))
               = "C" ++ GoLib.fmt_sharp_o (GoLib.Perm (fi_mode info))).
  { unfold Uploader.scpHeader. cbn [append words].
    rewrite (words_field _ _ Hs). reflexivity. }
  cbv zeta. rewrite Hf. cbn [append String.length].
  split; [reflexivity|]. split; [|lia].
  split.
  - intros H5. apply Z.leb_le. rewrite <- Hl. apply Nat.eqb_eq. lia.
  - intros H64. apply Z.leb_le in H64. rewrite <- Hl in H64.
    apply Nat.eqb_eq in H64. lia.
Qed.

(** ** Names of archives *)

Lemma length_append (a b : string) :
  String.length (a ++ b) = (String.length a + String.length b)%nat.
Proof. induction a as [|x a IH]; simpl; [reflexivity | rewrite IH; reflexivity]. Qed.

Lemma substring_skip (a b : string) (m : nat) :
  substring (String.length a) m (a ++ b) = substring 0 m b.
Proof. induction a as [|x a IH]; simpl; [reflexivity | exact IH]. Qed.

Lemma substring_all (b : string) : substring 0 (String.length b) b = b.
Proof. induction b as [|x b IH]; simpl; [reflexivity | rewrite IH; reflexivity]. Qed.

Lemma substring_split (s : string) :
  forall n, (n <= String.length s)%nat ->
            s = substring 0 n s ++ substring n (String.length s - n) s.
Proof.
  induction s as [|x s IH]; intros n Hn.
  - destruct n; [reflexivity | simpl in Hn; lia].
  - destruct n as [|n].
    + cbn [substring append String.length Nat.sub].
      rewrite substring_all. reflexivity.
    + cbn [substring append String.length Nat.sub].
      rewrite <- (IH n) by (simpl in Hn; lia). reflexivity.
Qed.

Lemma HasSuffix_append (a suffix : string) :
  GoLib.HasSuffix (a ++ suffix) suffix = true.
Proof.
  unfold GoLib.HasSuffix. rewrite length_append.
  replace (String.length a + String.length suffix - String.length suffix)%nat
    with (String.length a) by lia.
  rewrite substring_skip, substring_all, String.eqb_refl.
  rewrite andb_true_r. apply Nat.leb_le. lia.
Qed.

Lemma HasSuffix_inv (s suffix : string) :
  GoLib.HasSuffix s suffix = true -> exists a, s = a ++ suffix.
Proof.
  unfold GoLib.HasSuffix. intros Hs. apply andb_prop in Hs.
  destruct Hs as [Hl He]. apply Nat.leb_le in Hl.
  apply String.eqb_eq in He.
  exists (substring 0 (String.length s - String.length suffix) s).
  pose proof (substring_split s (String.length s - String.length suffix)
                (Nat.le_sub_l _ _)) as Hsp.
  replace (String.length s - (String.length s - String.length suffix))%nat
    with (String.length suffix) in Hsp by lia.
  rewrite He in Hsp. exact Hsp.
Qed.

Lemma rev_append_append (a b acc : string) :
  GoLib.rev_append (a ++ b) acc = GoLib.rev_append b (GoLib.rev_append a acc).
Proof.
  revert acc. induction a as [|x a IH]; intros acc; simpl;
    [reflexivity | apply IH].
Qed.

Lemma rev_append_rev (a b c : string) :
  GoLib.rev_append (GoLib.rev_append a b) c = GoLib.rev_append b (a ++ c).
Proof.
  revert b. induction a as [|x a IH]; intros b; simpl;
    [reflexivity | rewrite IH; reflexivity].
Qed.

Lemma rev_append_acc (s acc : string) :
  GoLib.rev_append s acc = GoLib.rev_append s "" ++ acc.
Proof.
  revert acc. induction s as [|x s IH]; intros acc; simpl; [reflexivity|].
  rewrite (IH (String x acc)), (IH (String x "")), append_assoc.
  reflexivity.
Qed.

(** The last element of a path that ends in [.tar] ends in [.tar]. *)
Lemma lastElem_tar (a : string) :
  forall acc, exists pre, GoLib.lastElem (a ++ ".tar") acc = pre ++ ".tar".
Proof.
  induction a as [|x a IH]; intros acc.
  - exists (GoLib.rev_append acc "").
    cbn [append GoLib.lastElem]. unfold GoLib.rev, GoLib.slash.
    cbn [Ascii.eqb Bool.eqb GoLib.rev_append].
    apply rev_append_acc.
  - cbn [append GoLib.lastElem].
    destruct (Ascii.eqb x GoLib.slash); apply IH.
Qed.

Lemma Base_tar (a : string) :
  exists pre, GoLib.Base (a ++ ".tar") = pre ++ ".tar".
Proof.
  assert (Hne : String.eqb (a ++ ".tar") "" = false)
    by (destruct a; reflexivity).
  unfold GoLib.Base. rewrite Hne. cbv zeta.
  assert (Hp : GoLib.rev (GoLib.dropSlashes (GoLib.rev (a ++ ".tar")))
               = a ++ ".tar").
  { unfold GoLib.rev. rewrite rev_append_append.
    cbn [GoLib.rev_append GoLib.dropSlashes].
    unfold GoLib.slash. cbn [Ascii.eqb Bool.eqb GoLib.rev_append].
    rewrite rev_append_rev. reflexivity. }
  rewrite Hp, Hne. apply lastElem_tar.
Qed.

(** X20. The suffix of an archive survives the copy.  When the local
    path ends in [.tar] and the copy succeeds, the name announced to the
    remote side, in the header and in the path of the copy command, is
    the last element of the local path and ends in [.tar] too: a file
    event on that name, in whatever directory, is one that the loop of
    the watcher hands to a cycle. *)
Theorem scpUpload_keeps_suffix :
  forall (W : Type) (HW : Host W) (u : Uploader.Uploader) (client : Client)
         (p : string) (s s' : St W),
    Uploader.scpUpload u client p s = (None, s') ->
    GoLib.HasSuffix p ".tar" = true ->
    exists sess stdin info,
      In (EvStart sess
            ("scp -t "
             ++ filepath_Join [RemoteUploadPath (Uploader.config u);
                               GoLib.Base p])
            None) (since s s') /\
      In (EvStdinWrite stdin
            (list_byte_of_string (Uploader.scpHeader info (GoLib.Base p)))
            None) (since s s') /\
      GoLib.HasSuffix (GoLib.Base p) ".tar" = true /\
      forall dir op,
        relevant (Watcher.FromEvents
                    (Some (Watcher.mkFsEvent (dir ++ GoLib.Base p) op)))
        = true.
Proof.
  intros W HW u client p s s' E Hsuf.
  destruct (scpUpload_sequence u client p s s' E)
    as (f & info & sess & stdin & data & cerr & e1 & e2 & Hs).
  destruct (HasSuffix_inv _ _ Hsuf) as [a ->].
  destruct (Base_tar a) as [pre Hb].
  exists sess, stdin, info. rewrite Hs.
  split; [cbn [In app]; auto 10|].
  split; [cbn [In app]; auto 10|].
  rewrite Hb. split; [apply HasSuffix_append|].
  intros dir op. unfold relevant. cbn [Watcher.Name].
  rewrite <- append_assoc. apply HasSuffix_append.
Qed.

(** The archive of the sample application, copied from its directory. *)
Lemma scpUpload_keeps_suffix_witness :
  let u := Uploader.mkUploader
             (mkUploaderConfig "./examples/sample-app" "web" "latest"
                "tarballs" "192.168.1.100" 22 "deploy" "" "/opt/docker-uploads"
                "" [] []) Sim.info in
  let p := "tarballs/web_latest_20240704-101112.tar" in
  let w := Sim.mkWorld [(p, mkFileInfo 420 3)] [] [] true true [] false 0 []
                       false in
  GoLib.HasSuffix (GoLib.Base p) ".tar" = true.
Proof.
  intros u p w.
  destruct (scpUpload_keeps_suffix Sim.World Sim.host u (mkClient 0) p
              (Sim.start w)
              (snd (Uploader.scpUpload u (mkClient 0) p (Sim.start w))))
    as (_ & _ & _ & _ & _ & Hb & _);
    [vm_compute; reflexivity | reflexivity | exact Hb].
Defined.

Lemma cut_here {A} (x : A) (post : list A) :
  x :: post = ([] ++ x :: post)%list.
Proof. reflexivity. Qed.

Lemma cut_cons {A} (a x : A) (l pre post : list A) :
  l = (pre ++ x :: post)%list -> a :: l = ((a :: pre) ++ x :: post)%list.
Proof. intros ->. reflexivity. Qed.

(** Cut a list of calls that is written out at its first process. *)
Ltac cut_at_exec :=
  cbn [app];
  repeat first [ exact (cut_here (EvExec _ _ _) _) | apply cut_cons ].

Section ArchiveOrder.
Context {W : Type} `{Host W}.

(** The calls of a [createTarball] that returns no error, around its
    one process. *)
Lemma createTarball_order (u : Uploader.Uploader) (s s' : St W)
      (res : string * option error) :
  Uploader.createTarball u s = (res, s') ->
  snd res = None ->
  exists stamp raw before after,
    fst res = archivePath (Uploader.config u) stamp /\
    since s s'
    = (before
       ++ EvExec (saveLine (Uploader.config u) (fst res))
                 (10 * GoLib.Minute) raw :: after)%list /\
    In (EvNow "20060102-150405" stamp) before /\
    execs before = [] /\ stats before = [] /\
    succeeded (saveLine (Uploader.config u) (fst res), 10 * GoLib.Minute,
               raw) /\
    execs after = [] /\
    hd_error (stats after) = Some (fst res, true).
Proof.
  unfold Uploader.createTarball, Utils.EnsureDir, Utils.FileExists,
    Utils.GetFileSize, Utils.ExecuteCommand, Utils.Info, Utils.Debug,
    Utils.Warn.
  unfold archivePath, archiveName.
  unfold bind, call, emit, ret. reduce.
  destruct (negb (String.eqb (TarballPath (Uploader.config u)) "")); reduce;
    repeat first [step_call | step_result | step_found | step_status];
    intros E Ho; injection E as <- <- <-;
    first
      [ discriminate Ho
      | do 4 eexists;
        split; [reflexivity|];
        split; [since_goal; cut_at_exec|];
        split; [cbn [In]; auto 8|];
        split; [reflexivity|];
        split; [reflexivity|];
        split; [exact Ec|];
        split; reflexivity ].
Qed.

End ArchiveOrder.

(** X21. The archive of a run.  When [createTarball] returns no error,
    the path it returns is made of the image name, the tag and the time
    it read from the clock, in the layout [20060102-150405], with the
    suffix [.tar], under the configured directory if there is one.  Its
    one process is the export of the image to that path, which
    succeeded; the time was read before it, and it looked no file up
    before it; the first look at the file system after the export is the
    [os.Stat] of that path, which found the file.  With no directory
    configured the path itself ends in [.tar]. *)
Theorem createTarball_names_archive :
  forall (W : Type) (HW : Host W) (u : Uploader.Uploader) (s s' : St W)
         (res : string * option error),
    Uploader.createTarball u s = (res, s') ->
    snd res = None ->
    exists stamp raw before after,
      let c := Uploader.config u in
      fst res = archivePath c stamp /\
      since s s'
      = (before
         ++ EvExec (saveLine c (fst res)) (10 * GoLib.Minute) raw
         :: after)%list /\
      In (EvNow "20060102-150405" stamp) before /\
      execs before = [] /\ stats before = [] /\
      succeeded (saveLine c (fst res), 10 * GoLib.Minute, raw) /\
      execs after = [] /\
      hd_error (stats after) = Some (fst res, true) /\
      GoLib.HasSuffix (archiveName c stamp) ".tar" = true /\
      (TarballPath c = "" -> GoLib.HasSuffix (fst res) ".tar" = true).
Proof.
  intros W HW u s s' res E Hnone.
  destruct (createTarball_order u s s' res E Hnone)
    as (stamp & raw & before & after & Hp & Hcalls & Hnow & Hx & Hst
        & Hok & Hx' & Hfound).
  exists stamp, raw, before, after. cbv zeta.
  assert (Hname : GoLib.HasSuffix (archiveName (Uploader.config u) stamp)
                                  ".tar" = true).
  { unfold archiveName. rewrite <- !append_assoc. apply HasSuffix_append. }
  repeat (split; [assumption|]).
  intros Hdir. rewrite Hp. unfold archivePath. rewrite Hdir. exact Hname.
Qed.

(** The export leaves the archive in the current directory. *)
Lemma createTarball_names_archive_witness :
  let u := Uploader.mkUploader
             (mkUploaderConfig "./examples/sample-app" "web" "latest"
                "" "192.168.1.100" 22 "deploy" "" "/opt/docker-uploads"
                "" [] []) Sim.info in
  let w := Sim.mkWorld [("web_latest_20240704-101112.tar", mkFileInfo 420 3)]
                       [] [] true true [] false 0 [] false in
  let run := Uploader.createTarball u (Sim.start w) in
  exists stamp raw before after,
    fst (fst run) = archivePath (Uploader.config u) stamp /\
    trace (snd run)
    = (before
       ++ EvExec "docker save web:latest -o web_latest_20240704-101112.tar"
                 (10 * GoLib.Minute) raw :: after)%list /\
    stats before = [] /\
    hd_error (stats after) = Some ("web_latest_20240704-101112.tar", true) /\
    GoLib.HasSuffix (fst (fst run)) ".tar" = true.
Proof.
  intros u w run.
  destruct (createTarball_names_archive Sim.World Sim.host u (Sim.start w)
              (snd run) (fst run))
    as (stamp & raw & before & after & Hp & Hcalls & _ & _ & Hst & _ & _
        & Hfound & _ & Hs);
    [vm_compute; reflexivity | reflexivity |].
  exists stamp, raw, before, after.
  split; [exact Hp|]. split; [exact Hcalls|]. split; [exact Hst|].
  split; [exact Hfound | apply Hs; reflexivity].
Defined.

(** ** What the loop of the watcher removes *)

Section LoopEffects.
Context {W : Type} `{Host W}.

Lemma did_log lg lvl msg args (s : St W) :
  Did s (mkSt (world s) (trace s ++ [EvLog lg lvl msg args])) [] [].
Proof. apply (did_new _ _ [EvLog lg lvl msg args]); reflexivity. Qed.

Lemma handleFileEvent_did (w : Watcher.Watcher) (ev : Watcher.FsEvent)
      (s : St W) :
  exists cmds rems,
    Did s (snd (Watcher.handleFileEvent w ev s)) cmds rems /\
    (rems = [] \/
     rems = [Watcher.Name ev] /\
     GoLib.HasSuffix (Watcher.Name ev) ".tar"
     && ((Z.land (Watcher.Op ev) GoLib.Create =? GoLib.Create)
         || (Z.land (Watcher.Op ev) GoLib.Write =? GoLib.Write)) = true).
Proof.
  unfold Watcher.handleFileEvent.
  destruct (GoLib.HasSuffix (Watcher.Name ev) ".tar"); cbn [negb andb].
  2:{ exists [], []. split; [apply did_refl | left; reflexivity]. }
  unfold bind at 1. unfold Utils.Debug at 1, emit.
  destruct ((Z.land (Watcher.Op ev) GoLib.Create =? GoLib.Create)
            || (Z.land (Watcher.Op ev) GoLib.Write =? GoLib.Write)).
  2:{ exists [], []. split; [apply did_log | left; reflexivity]. }
  unfold bind at 1. unfold Utils.Info at 1, emit.
  unfold bind at 1. unfold call at 1. cbn [world trace].
  destruct (time_Sleep (2 * GoLib.Second) (world s)) as [[] w1].
  unfold bind at 1.
  match goal with
  | |- context [Watcher.processTarball w ?p ?st] =>
      destruct (Watcher.processTarball w p st) as [r s3] eqn:E;
      assert (D0 : Did s st [] [])
        by (eapply did_new;
            [cbn [trace]; rewrite <- !app_assoc; reflexivity
            | reflexivity | reflexivity])
  end.
  destruct (processTarball_did _ _ _ _ _ E) as (cmds & rems & D & Ho).
  pose proof (did_trans _ _ _ _ _ _ _ D0 D) as D1. cbn [app] in D1.
  exists cmds, rems. split.
  - destruct r as [e|]; [|exact D1].
    unfold Utils.Error, emit. cbn [snd].
    rewrite <- (app_nil_r cmds), <- (app_nil_r rems).
    exact (did_trans _ _ _ _ _ _ _ D1 (did_log _ _ _ _ _)).
  - destruct r as [e|]; destruct Ho as [-> _]; [left | right; split];
      reflexivity.
Qed.

Lemma eventLoop_did (w : Watcher.Watcher) (sel : list Watcher.Selected) :
  forall s : St W,
  exists cmds rems,
    Did s (snd (Watcher.eventLoop w sel s)) cmds rems /\
    incl rems (announced sel) /\
    (List.length rems <= List.length (announced sel))%nat.
Proof.
  induction sel as [|x sel IH]; intros s.
  - exists [], []. split; [apply did_refl|]. split; [apply incl_refl|].
    reflexivity.
  - destruct x as [|[ev|]|[e|]]; cbn [Watcher.eventLoop announced].
    + exists [], []. split; [apply did_log|]. split; [apply incl_refl|].
      reflexivity.
    + unfold bind.
      destruct (handleFileEvent_did w ev s) as (c1 & r1 & D1 & Hr1).
      destruct (Watcher.handleFileEvent w ev s) as [[] s1]. cbn [snd] in D1.
      destruct (IH s1) as (c2 & r2 & D2 & Hin & Hlen).
      exists (c1 ++ c2)%list, (r1 ++ r2)%list.
      split; [exact (did_trans _ _ _ _ _ _ _ D1 D2)|].
      destruct Hr1 as [->|[-> ->]]; cbn [app List.length].
      * destruct (_ && _); cbn [List.length];
          split; [apply incl_tl | lia | |]; assumption.
      * split; [|lia]. apply incl_cons; [left; reflexivity|].
        apply incl_tl. exact Hin.
    + exists [], []. split; [apply did_refl|]. split; [apply incl_refl|].
      reflexivity.
    + unfold bind, Utils.Error, emit.
      match goal with
      | |- context [Watcher.eventLoop w sel ?st] =>
          destruct (IH st) as (c2 & r2 & D2 & Hin & Hlen)
      end.
      exists c2, r2. split; [|split; assumption].
      exact (did_trans _ _ _ _ _ _ _ (did_log _ _ _ _ _) D2).
    + exists [], []. split; [apply did_refl|]. split; [apply incl_refl|].
      reflexivity.
Qed.

End LoopEffects.

(** X22. The loop of the watcher removes nothing but archives that were
    announced to it: every removal it asks for is the path of a file
    event that it received, with the archive suffix and the created or
    the written bit, and it asks for no more removals than it received
    such events. *)
Theorem eventLoop_removes_announced :
  forall (W : Type) (HW : Host W) (w : Watcher.Watcher)
         (sel : list Watcher.Selected) (s : St W),
    let rems := removals (since s (snd (Watcher.eventLoop w sel s))) in
    incl rems (announced sel) /\
    (List.length rems <= List.length (announced sel))%nat /\
    forall p, In p rems ->
      GoLib.HasSuffix p ".tar" = true /\
      exists op, triggers op = true /\
                 In (Watcher.FromEvents (Some (Watcher.mkFsEvent p op))) sel.
Proof.
  intros W HW w sel s.
  destruct (eventLoop_did w sel s) as (cmds & rems & (_ & _ & Hr) & Hin & Hl).
  cbv zeta. rewrite Hr. split; [exact Hin|]. split; [exact Hl|].
  intros p Hp. apply Hin in Hp. clear - Hp.
  induction sel as [|x sel IH]; [contradiction|].
  destruct x as [|[[name op]|]|[e|]]; cbn [announced] in Hp;
    try contradiction.
  - cbn [Watcher.Name Watcher.Op] in Hp.
    destruct (GoLib.HasSuffix name ".tar") eqn:Es; cbn [andb] in Hp.
    + destruct ((Z.land op GoLib.Create =? GoLib.Create)
                || (Z.land op GoLib.Write =? GoLib.Write)) eqn:Et.
      * destruct Hp as [<-|Hp].
        -- split; [exact Es|]. exists op. split; [exact Et | left; reflexivity].
        -- destruct (IH Hp) as (Hs & op' & Ht & Hi).
           split; [exact Hs|]. exists op'. split; [exact Ht | right; exact Hi].
      * destruct (IH Hp) as (Hs & op' & Ht & Hi).
        split; [exact Hs|]. exists op'. split; [exact Ht | right; exact Hi].
    + destruct (IH Hp) as (Hs & op' & Ht & Hi).
      split; [exact Hs|]. exists op'. split; [exact Ht | right; exact Hi].
  - destruct (IH Hp) as (Hs & op' & Ht & Hi).
    split; [exact Hs|]. exists op'. split; [exact Ht | right; exact Hi].
Qed.

(** ** What a copy writes when it fails *)

(** X23. The bytes a copy hands to the input of the remote command are
    always a beginning of the stream of a complete copy, whatever fails
    and wherever: nothing, or the header made from the file's own
    permissions, size and name, or the header and what was read from the
    file, or these and the closing zero byte.  Content never precedes
    the header and the zero byte never precedes the content. *)
Theorem scpUpload_stream_prefix :
  forall (W : Type) (HW : Host W) (u : Uploader.Uploader) (client : Client)
         (p : string) (s s' : St W) (r : option error),
    Uploader.scpUpload u client p s = (r, s') ->
    sent (since s s') = [] \/
    exists f info,
      In (EvFileStat f (inl info)) (since s s') /\
      (sent (since s s')
       = list_byte_of_string (Uploader.scpHeader info (GoLib.Base p)) \/
       exists data e,
         In (EvFileRead f (data, e)) (since s s') /\
         (sent (since s s')
          = (list_byte_of_string (Uploader.scpHeader info (GoLib.Base p))
             ++ data)%list \/
          sent (since s s')
          = (list_byte_of_string (Uploader.scpHeader info (GoLib.Base p))
             ++ data ++ [Byte.x00])%list)).
Proof.
  intros W HW u client p s s' r.
  unfold Uploader.scpUpload, Uploader.deferring, Uploader.scpSend,
    Uploader.io_Copy.
  unfold bind, call, emit, ret. reduce.
  repeat first [step_call | step_result];
    intros E; injection E as <- <-; since_goal; cbn [sent app];
    rewrite ?app_nil_r;
    first
      [ left; reflexivity
      | right; do 2 eexists; split; [cbn [In]; eauto 14|];
        first
          [ left; reflexivity
          | right; do 2 eexists; split; [cbn [In]; eauto 14|];
            first [left; reflexivity | right; reflexivity] ] ].
Qed.

(** The remote command exits with an error after the whole stream was
    written. *)
Lemma scpUpload_stream_prefix_witness :
  let u := Uploader.mkUploader
             (mkUploaderConfig "./examples/sample-app" "web" "latest"
                "tarballs" "192.168.1.100" 22 "deploy" "" "/opt/docker-uploads"
                "" [] []) Sim.info in
  let p := "tarballs/web_latest_20240704-101112.tar" in
  let w := Sim.mkWorld [(p, mkFileInfo 420 3)] [] [] true true
                       [Byte.x61; Byte.x62; Byte.x63] false 1 [] false in
  let s := Sim.start w in
  let run := Uploader.scpUpload u (mkClient 0) p s in
  fst run <> None /\
  (sent (since s (snd run)) = [] \/
   exists f info,
     In (EvFileStat f (inl info)) (since s (snd run)) /\
     (sent (since s (snd run))
      = list_byte_of_string (Uploader.scpHeader info (GoLib.Base p)) \/
      exists data e,
        In (EvFileRead f (data, e)) (since s (snd run)) /\
        (sent (since s (snd run))
         = (list_byte_of_string (Uploader.scpHeader info (GoLib.Base p))
            ++ data)%list \/
         sent (since s (snd run))
         = (list_byte_of_string (Uploader.scpHeader info (GoLib.Base p))
            ++ data ++ [Byte.x00])%list))).
Proof.
  intros u p w s run. split; [discriminate|].
  apply (scpUpload_stream_prefix Sim.World Sim.host u (mkClient 0) p s
           (snd run) (fst run)).
  vm_compute. reflexivity.
Defined.
